(** * MediConnect appointment backend: registration, doctor listing, booking

    A shallow embedding of [app.py] (the Flask handlers [register], [login],
    [get_available_doctors], [book_appointment], the decorator
    [role_required] and the helpers [validate_email], [validate_password])
    and of the script [seed_database] of [db_seed.py], which creates the
    unique index on [users.email].

    Conventions of the model.
    - In the values that the handlers pass around, a Python [str] is a
      Rocq [string] read as a sequence of code points U+0000..U+00FF; [len]
      is [String.length].  On that range the class [\d] of [re] is exactly
      ['0'..'9'].  [validate_password], whose answer is stated for every
      [str], is also embedded on strings of any code points
      ([Unicode.validate_password]), where [\d] is the Unicode category Nd;
      the two embeddings agree on U+0000..U+00FF.
    - A Python [float] is a binary64 [PrimFloat.float]; an [int] is a [Z].
    - A [datetime] is the number of microseconds since the epoch, in [Z].
    - An [ObjectId] is its 96-bit value, in [N].
    - JSON request bodies are Python values ([Py.value]).
    - A handler takes what the request brings from outside the store as
      arguments: the instant [now] that [datetime.utcnow()] returns during
      the request, the identifiers that the driver and [ObjectId()]
      generate, and the subject of the verified token.
    - Library code that the repository only calls (password hashing, the
      parsers behind [int(str)], [float(str)] and [datetime.fromisoformat],
      the store's regular expressions, [str()]) is collected in the record
      [Lib] and taken as a parameter.
    - What the driver refuses to encode is modelled ([Mongo.bson_encode]):
      an [int] beyond 8 bytes and a key with the character NUL.  The
      driver is PyMongo 4, which checks nothing else in a key; requests
      stay below the store's limits on the size and the depth of a
      document. *)

From Stdlib Require Import ZArith NArith List String Ascii Bool Lia.
From Stdlib Require Import PrimFloat SpecFloat FloatOps.
Import ListNotations.
Open Scope string_scope.
Open Scope Z_scope.
Set Warnings "-register-all".

(** ** Python values, exceptions and the builtins the handlers use *)

Module Py.

Inductive value : Type :=
| PNone
| PBool (b : bool)
| PInt (z : Z)
| PFloat (f : float)
| PStr (s : string)
| PList (l : list value)
| PDict (d : list (string * value)).

Inductive exn : Type :=
| TypeError | ValueError | KeyError | AttributeError | OverflowError
| InvalidId | InvalidDocument | DuplicateKeyError | OperationFailure.

Inductive result (A : Type) : Type :=
| Ok (a : A)
| Raise (e : exn).
Arguments Ok {A} a.
Arguments Raise {A} e.

Definition rbind {A B} (r : result A) (k : A -> result B) : result B :=
  match r with
  | Ok a => k a
  | Raise e => Raise e
  end.

(** [bool(v)]: the truth value used by [not v] and [if v]. *)
Definition truthy (v : value) : bool :=
  match v with
  | PNone => false
  | PBool b => b
  | PInt z => negb (z =? 0)
  | PFloat f => negb (PrimFloat.eqb f 0%float)
  | PStr s => negb (String.eqb s "")
  | PList l => match l with [] => false | _ :: _ => true end
  | PDict d => match d with [] => false | _ :: _ => true end
  end.

(** A [dict] keyed by strings, as an association list read at its first
    binding of a key. *)
Fixpoint lookup {V : Type} (k : string) (d : list (string * V)) : option V :=
  match d with
  | [] => None
  | (k', v) :: d' => if String.eqb k k' then Some v else lookup k d'
  end.

(** A dict display [{k1: v1, k2: v2, ...}]: the pairs are stored from left
    to right, and a key that is already there keeps its place and takes the
    new value. *)
Fixpoint store_item {V : Type} (k : string) (v : V) (d : list (string * V))
  : list (string * V) :=
  match d with
  | [] => [(k, v)]
  | (k', v') :: d' =>
      if String.eqb k k' then (k', v) :: d' else (k', v') :: store_item k v d'
  end.

Definition dict_display {V : Type} (items : list (string * V))
  : list (string * V) :=
  fold_left (fun d kv => store_item (fst kv) (snd kv) d) items [].

Definition str_eq (v : value) (s : string) : bool :=
  match v with
  | PStr s' => String.eqb s' s
  | _ => false
  end.

(** The exact value of a finite float, as [m * 2 ^ e] with its sign. *)
Definition float_parts (f : float) : option (Z * Z) :=
  match Prim2SF f with
  | S754_zero _ => Some (0, 0)
  | S754_finite s m e => Some (if s then Z.neg m else Z.pos m, e)
  | _ => None
  end.

(** [int(f)]: truncation towards zero; [inf] and [nan] raise. *)
Definition float_trunc (f : float) : result Z :=
  match float_parts f with
  | Some (m, e) => Ok (if 0 <=? e then m * 2 ^ e else Z.quot m (2 ^ (- e)))
  | None => Raise (if PrimFloat.is_nan f then ValueError else OverflowError)
  end.

(** [float(z)]: round to nearest even; too large an [int] raises. *)
Definition float_of_int (z : Z) : result float :=
  match binary_normalize prec emax z 0 false with
  | S754_infinity _ => Raise OverflowError
  | sf => Ok (SF2Prim sf)
  end.

(** [f == z] between a [float] and an [int] compares the exact values. *)
Definition float_eq_int (f : float) (z : Z) : bool :=
  match float_parts f with
  | Some (m, e) =>
      if 0 <=? e then m * 2 ^ e =? z
      else (Z.rem m (2 ^ (- e)) =? 0) && (Z.quot m (2 ^ (- e)) =? z)
  | None => false
  end.

(** [v == z] for an [int] [z]: [True == 1], [15.0 == 15]. *)
Definition int_eq (v : value) (z : Z) : bool :=
  match v with
  | PInt z' => z' =? z
  | PBool b => (if b then 1 else 0) =? z
  | PFloat f => float_eq_int f z
  | _ => false
  end.

(** [len(v)]. *)
Definition len (v : value) : result Z :=
  match v with
  | PStr s => Ok (Z.of_nat (String.length s))
  | PList l => Ok (Z.of_nat (List.length l))
  | PDict d => Ok (Z.of_nat (List.length d))
  | _ => Raise TypeError
  end.

(** [k in s] for two strings: [k] occurs in [s]. *)
Fixpoint occurs_in (k s : string) : bool :=
  String.prefix k s ||
  match s with
  | EmptyString => false
  | String _ s' => occurs_in k s'
  end.

(** [k in v] for a string [k]. *)
Definition contains (v : value) (k : string) : result bool :=
  match v with
  | PDict d => Ok (match lookup k d with Some _ => true | None => false end)
  | PList l => Ok (existsb (fun x => str_eq x k) l)
  | PStr s => Ok (occurs_in k s)
  | _ => Raise TypeError
  end.

(** [v[k]] for a string [k]. *)
Definition getitem (v : value) (k : string) : result value :=
  match v with
  | PDict d => match lookup k d with Some x => Ok x | None => Raise KeyError end
  | _ => Raise TypeError
  end.

(** [v.get(k, default)]; only a [dict] has the method. *)
Definition get (v : value) (k : string) (default : value) : result value :=
  match v with
  | PDict d => Ok (match lookup k d with Some x => x | None => default end)
  | _ => Raise AttributeError
  end.

(** [str.lower()] on the code points below 256: the ASCII capitals and the
    Latin-1 capitals U+00C0..U+00DE (without the sign U+00D7) move up by 32. *)
Definition lower_char (c : ascii) : ascii :=
  let n := nat_of_ascii c in
  if ((65 <=? n) && (n <=? 90))%nat then ascii_of_nat (n + 32)
  else if ((192 <=? n) && (n <=? 222) && negb (n =? 215))%nat
       then ascii_of_nat (n + 32)
  else c.

Fixpoint lower (s : string) : string :=
  match s with
  | EmptyString => EmptyString
  | String c s' => String (lower_char c) (lower s')
  end.

(** [s.replace(c, r)] for a one-character pattern [c]. *)
Fixpoint replace_char (c : ascii) (r : string) (s : string) : string :=
  match s with
  | EmptyString => EmptyString
  | String c' s' =>
      if Ascii.eqb c' c then r ++ replace_char c r s'
      else String c' (replace_char c r s')
  end.

End Py.

(** ** Regular expressions of [re], matched by derivatives *)

Module Re.

Inductive regex : Type :=
| Void
| Eps
| Cls (p : ascii -> bool)
| Cat (r1 r2 : regex)
| Alt (r1 r2 : regex)
| Star (r : regex).

Fixpoint nullable (r : regex) : bool :=
  match r with
  | Void => false
  | Eps => true
  | Cls _ => false
  | Cat r1 r2 => nullable r1 && nullable r2
  | Alt r1 r2 => nullable r1 || nullable r2
  | Star _ => true
  end.

Fixpoint deriv (c : ascii) (r : regex) : regex :=
  match r with
  | Void => Void
  | Eps => Void
  | Cls p => if p c then Eps else Void
  | Cat r1 r2 =>
      if nullable r1 then Alt (Cat (deriv c r1) r2) (deriv c r2)
      else Cat (deriv c r1) r2
  | Alt r1 r2 => Alt (deriv c r1) (deriv c r2)
  | Star r1 => Cat (deriv c r1) (Star r1)
  end.

(** The whole of [s] is a word of [r]. *)
Fixpoint fullmatch (r : regex) (s : string) : bool :=
  match s with
  | EmptyString => nullable r
  | String c s' => fullmatch (deriv c r) s'
  end.

Definition Plus (r : regex) : regex := Cat r (Star r).
Definition Chr (c : ascii) : regex := Cls (Ascii.eqb c).

(** [a-b] inside a class. *)
Definition range (a b c : ascii) : bool :=
  ((nat_of_ascii a <=? nat_of_ascii c) && (nat_of_ascii c <=? nat_of_ascii b))%nat.

(** The characters listed in a class. *)
Definition one_of (chars : string) (c : ascii) : bool :=
  existsb (Ascii.eqb c) (list_ascii_of_string chars).

(** The class [\d] on the code points below 256: of the decimal digits of
    Unicode, only ['0'..'9'] are there. *)
Definition decimal : ascii -> bool := range "0" "9".

(** [$] without [re.MULTILINE]: the end of the string, or just before a
    newline that ends the string. *)
Definition at_end : regex := Alt Eps (Chr "010"%char).

(** [re.match(r'^...$', s) is not None] for the pattern body [r]. *)
Definition match_anchored (r : regex) (s : string) : bool :=
  fullmatch (Cat r at_end) s.

(** [re.search(r'[...]', s) is not None] for a pattern that is one class:
    some character of [s] is in the class. *)
Definition search_class (p : ascii -> bool) (s : string) : bool :=
  existsb p (list_ascii_of_string s).

End Re.

(** ** Strings of any code points *)

Module Unicode.

(** A [str] as the list of its code points, U+0000..U+10FFFF. *)
Definition text : Type := list N.

(** The [str] that a [string] of code points below 256 stands for. *)
Definition of_string (s : string) : text :=
  map N_of_ascii (list_ascii_of_string s).

(** [a-b] inside a class. *)
Definition range (a b : ascii) (c : N) : bool :=
  ((N_of_ascii a <=? c) && (c <=? N_of_ascii b))%N.

(** The characters listed in a class. *)
Definition one_of (chars : string) (c : N) : bool :=
  existsb (N.eqb c) (of_string chars).

(** [re.search(r'[...]', s) is not None] for a pattern that is one class. *)
Definition search_class (p : N -> bool) (s : text) : bool := existsb p s.

Section Classes.

(** The decimal digits of the Unicode database (category Nd) other than
    ['0'..'9']: the digits of other scripts and the fullwidth digits. *)
Variable other_decimal : N -> bool.

(** The class [\d] of [re] on a [str]: any decimal digit. *)
Definition decimal (c : N) : bool := range "0" "9" c || other_decimal c.

(** [validate_password] on a [str]. *)
Definition validate_password (password : text) : bool :=
  if Z.of_nat (List.length password) <? 8 then false
  else if negb (search_class (range "A" "Z") password) then false
  else if negb (search_class (range "a" "z") password) then false
  else if negb (search_class decimal password) then false
  else if negb (search_class (one_of "@$!%*?&") password) then false
  else true.

End Classes.

End Unicode.

(** ** The words of a regular expression *)

Module Lang.
Import Re.

(** [matches r l]: the characters [l] form a word of [r]. *)
Inductive matches : regex -> list ascii -> Prop :=
| MEps : matches Eps []
| MCls (p : ascii -> bool) (c : ascii) : p c = true -> matches (Cls p) [c]
| MCat (r1 r2 : regex) (l1 l2 : list ascii) :
    matches r1 l1 -> matches r2 l2 -> matches (Cat r1 r2) (l1 ++ l2)
| MAltL (r1 r2 : regex) (l : list ascii) : matches r1 l -> matches (Alt r1 r2) l
| MAltR (r1 r2 : regex) (l : list ascii) : matches r2 l -> matches (Alt r1 r2) l
| MStar0 (r : regex) : matches (Star r) []
| MStarS (r : regex) (l1 l2 : list ascii) :
    matches r l1 -> matches (Star r) l2 -> matches (Star r) (l1 ++ l2).

(** Every class of [r] is closed under the map [f] of characters. *)
Fixpoint closed_under (f : ascii -> ascii) (r : regex) : Prop :=
  match r with
  | Void => True
  | Eps => True
  | Cls p => forall c, p c = true -> p (f c) = true
  | Cat r1 r2 => closed_under f r1 /\ closed_under f r2
  | Alt r1 r2 => closed_under f r1 /\ closed_under f r2
  | Star r1 => closed_under f r1
  end.

End Lang.

(** ** The document store's query language *)

Module Mongo.

Inductive bson : Type :=
| BNull
| BBool (b : bool)
| BStr (s : string)
| BOid (o : N)
| BDate (t : Z).

Definition bson_eqb (x y : bson) : bool :=
  match x, y with
  | BNull, BNull => true
  | BBool a, BBool b => Bool.eqb a b
  | BStr a, BStr b => String.eqb a b
  | BOid a, BOid b => N.eqb a b
  | BDate a, BDate b => Z.eqb a b
  | _, _ => false
  end.

(** Order comparisons only relate values of one type. *)
Definition bson_ltb (x y : bson) : bool :=
  match x, y with
  | BBool a, BBool b => negb a && b
  | BStr a, BStr b => String.ltb a b
  | BOid a, BOid b => N.ltb a b
  | BDate a, BDate b => Z.ltb a b
  | _, _ => false
  end.

Definition bson_leb (x y : bson) : bool := bson_ltb x y || bson_eqb x y.

(** What a filter says of one field: [field: v] or [field: {'$op': v}]. *)
Inductive cond : Type :=
| Equals (v : bson)
| Nin (vs : list bson)
| Lt (v : bson)
| Lte (v : bson)
| Gt (v : bson)
| Gte (v : bson).

(** A filter document is a dict; under the key ['$or'] it holds a list of
    filter documents (of field conditions). *)
Inductive clause : Type :=
| Field (c : cond)
| Or (alternatives : list (list (string * cond))).

Definition filter : Type := list (string * clause).

(** A document, read by field name. *)
Definition document : Type := string -> option bson.

Definition holds (x : option bson) (c : cond) : bool :=
  match c with
  | Equals v =>
      match x with
      | Some a => bson_eqb a v
      | None => bson_eqb BNull v
      end
  | Nin vs =>
      match x with
      | Some a => negb (existsb (bson_eqb a) vs)
      | None => negb (existsb (bson_eqb BNull) vs)
      end
  | Lt v => match x with Some a => bson_ltb a v | None => false end
  | Lte v => match x with Some a => bson_leb a v | None => false end
  | Gt v => match x with Some a => bson_ltb v a | None => false end
  | Gte v => match x with Some a => bson_leb v a | None => false end
  end.

(** All the entries of a filter document must hold. *)
Definition all_hold (doc : document) (q : list (string * cond)) : bool :=
  forallb (fun kc => holds (doc (fst kc)) (snd kc)) q.

Definition matches (doc : document) (q : filter) : bool :=
  forallb (fun kc =>
             match snd kc with
             | Field c => holds (doc (fst kc)) c
             | Or alternatives => existsb (all_hold doc) alternatives
             end) q.

(** [$concat]: from left to right, a null operand gives null and any other
    operand that is not a string is an error. *)
Fixpoint concat (operands : list Py.value) (acc : string) : Py.result Py.value :=
  match operands with
  | [] => Py.Ok (Py.PStr acc)
  | Py.PStr s :: rest => concat rest (acc ++ s)
  | Py.PNone :: _ => Py.Ok Py.PNone
  | _ :: _ => Py.Raise Py.OperationFailure
  end.

(** *** What the driver can encode

    Before a document or a pipeline is sent, the driver encodes it as BSON,
    field by field in the order of the dict: an [int] must fit 8 bytes
    ([OverflowError] otherwise), and a key of an embedded document must not
    hold the character NUL ([InvalidDocument] otherwise).  [None], booleans,
    floats and strings are encoded as they are. *)
Definition int64_min : Z := - 2 ^ 63.
Definition int64_max : Z := 2 ^ 63 - 1.

Definition has_nul (k : string) : bool :=
  existsb (Ascii.eqb "000"%char) (list_ascii_of_string k).

Fixpoint bson_encode (v : Py.value) : Py.result unit :=
  match v with
  | Py.PInt z =>
      if (int64_min <=? z) && (z <=? int64_max) then Py.Ok tt
      else Py.Raise Py.OverflowError
  | Py.PList l =>
      (fix elements (l : list Py.value) : Py.result unit :=
         match l with
         | [] => Py.Ok tt
         | x :: rest => Py.rbind (bson_encode x) (fun _ => elements rest)
         end) l
  | Py.PDict d =>
      (fix items (d : list (string * Py.value)) : Py.result unit :=
         match d with
         | [] => Py.Ok tt
         | kx :: rest =>
             if has_nul (fst kx) then Py.Raise Py.InvalidDocument
             else Py.rbind (bson_encode (snd kx)) (fun _ => items rest)
         end) d
  | _ => Py.Ok tt
  end.

(** The fields of a document that hold values of the request, in the order
    of the document: the first that cannot be encoded raises. *)
Fixpoint encode_fields (fields : list Py.value) : Py.result unit :=
  match fields with
  | [] => Py.Ok tt
  | v :: rest => Py.rbind (bson_encode v) (fun _ => encode_fields rest)
  end.

(** [{field: {'$regex': ...}}] with a compiled expression [r]: a string
    field is searched, an array field matches through any string element. *)
Definition regex_holds (r : string -> bool) (x : Py.value) : bool :=
  match x with
  | Py.PStr s => r s
  | Py.PList l =>
      existsb (fun e => match e with Py.PStr s => r s | _ => false end) l
  | _ => false
  end.

End Mongo.

(** ** Library code the handlers call *)

Record Lib : Type := {
  (** [werkzeug.security.generate_password_hash] *)
  generate_password_hash : string -> string;
  (** [float(s)] and [int(s)] on a [str]; [None] when they raise [ValueError] *)
  float_of_str : string -> option float;
  int_of_str : string -> option Z;
  (** [datetime.fromisoformat(s)] followed by [utctimetuple()] and
      [datetime( *t[:6])]: the naive UTC instant, whole seconds, in
      microseconds since the epoch; [None] when any of them raises *)
  fromisoformat_utc : string -> option Z;
  (** [bson.ObjectId(s)] on a [str] and [str(oid)] *)
  objectid_of_str : string -> option N;
  str_of_objectid : N -> string;
  (** the store's [$regex] with option [i]; [None] for a pattern it refuses *)
  regex_i : string -> option (string -> bool);
  (** [str(v)], as used by an f-string *)
  str_of : Py.value -> string
}.

(** ** The application *)

Module App.
Import Py.

Definition oid : Type := N.
Bind Scope N_scope with oid.
Definition datetime : Type := Z.

(** *** Documents and the database *)

Record user_doc : Type := {
  u_id : oid;
  u_email : string;
  u_password_hash : string;
  u_role : value;
  u_first_name : value;
  u_last_name : value;
  u_phone : value;
  u_is_verified : bool;
  u_is_active : bool;
  u_created_at : datetime;
  u_updated_at : datetime
}.

Record doctor_profile : Type := {
  dp_user_id : oid;
  dp_medical_license : value;
  dp_specialty : value;
  dp_consultation_fee : float;
  dp_rating : float;
  dp_years_experience : Z
}.

Record patient_profile : Type := {
  pp_user_id : oid;
  pp_date_of_birth : value;
  pp_medical_history : value
}.

Record appointment : Type := {
  a_id : oid;
  a_patient_id : oid;
  a_doctor_id : oid;
  a_appointment_date : datetime;
  a_end_time : datetime;
  a_duration : value;
  a_consultation_type : value;
  a_status : string;
  a_consultation_fee : float;
  a_meeting_link : string;
  a_symptoms : value;
  a_patient_notes : value;
  a_created_at : datetime;
  a_updated_at : datetime
}.

(** The four collections, and whether [db_seed.py] has created the unique
    index on [users.email]. *)
Record database : Type := {
  users : list user_doc;
  doctor_profiles : list doctor_profile;
  patient_profiles : list patient_profile;
  appointments : list appointment;
  email_unique_index : bool
}.

(** The number of documents in the store. *)
Definition documents (db : database) : nat :=
  (List.length (users db) + List.length (doctor_profiles db)
   + List.length (patient_profiles db) + List.length (appointments db))%nat.

(** *** Responses *)

Record doctor_summary : Type := {
  ds_id : oid;
  ds_name : value;
  ds_specialty : value;
  ds_rating : float;
  ds_consultation_fee : float;
  ds_years_experience : Z;
  ds_next_available : datetime
}.

Record pagination : Type := {
  current_page : Z;
  total_pages : Z;
  total_doctors : Z;
  has_next : bool
}.

Inductive body : Type :=
| Error (message : string)
| Failure (message : string) (e : exn)
| AccessDenied (required_role : string)
| Registered (user_id : oid) (email user_type : value)
| DoctorList (doctors : list doctor_summary) (p : pagination)
| Booked (a : appointment) (doctor_name : string).

Record response : Type := {
  status : Z;
  payload : body
}.

Definition error (code : Z) (message : string) : response :=
  {| status := code; payload := Error message |}.

(** *** Handler bodies: state, exceptions and early [return] *)

Inductive outcome (A : Type) : Type :=
| Next (a : A)
| Return (r : response)
| Raised (e : exn).
Arguments Next {A} a.
Arguments Return {A} r.
Arguments Raised {A} e.

Definition M (A : Type) : Type := database -> outcome A * database.

Definition ret {A} (a : A) : M A := fun db => (Next a, db).

Definition bind {A B} (m : M A) (k : A -> M B) : M B :=
  fun db =>
    match m db with
    | (Next a, db') => k a db'
    | (Return r, db') => (Return r, db')
    | (Raised e, db') => (Raised e, db')
    end.

(** [return r] *)
Definition reply {A} (r : response) : M A := fun db => (Return r, db).

(** An expression that may raise. *)
Definition eval {A} (r : result A) : M A :=
  fun db => match r with Ok a => (Next a, db) | Raise e => (Raised e, db) end.

(** A query on the store. *)
Definition read {A} (f : database -> A) : M A := fun db => (Next (f db), db).

(** A write to the store, which may raise and then writes nothing. *)
Definition write (f : database -> result database) : M unit :=
  fun db => match f db with Ok db' => (Next tt, db') | Raise e => (Raised e, db) end.

(** [try: m except: return r] with a bare [except]. *)
Definition try_except {A} (m : M A) (r : response) : M A :=
  fun db =>
    match m db with
    | (Raised _, db') => (Return r, db')
    | o => o
    end.

(** The [try: ... except ... as e: return on_exception(e)] that wraps a
    whole handler. *)
Definition handler (on_exception : exn -> response) (m : M response)
  : database -> response * database :=
  fun db =>
    match m db with
    | (Next r, db') => (r, db')
    | (Return r, db') => (r, db')
    | (Raised e, db') => (on_exception e, db')
    end.

Declare Scope handler_scope.
Delimit Scope handler_scope with handler.
Notation "x <- m ;; k" := (bind m (fun x => k))
  (at level 100, m at next level, right associativity) : handler_scope.
Notation "m ;; k" := (bind m (fun _ => k))
  (at level 100, right associativity) : handler_scope.
Open Scope handler_scope.

(** *** Utility functions *)

(** The body of the pattern of [validate_email],
    [[a-zA-Z0-9._%+-]+@[a-zA-Z0-9.-]+\.[a-zA-Z]{2,}]. *)
Definition alnum (c : ascii) : bool :=
  Re.range "a" "z" c || Re.range "A" "Z" c || Re.range "0" "9" c.

Definition alpha (c : ascii) : bool :=
  Re.range "a" "z" c || Re.range "A" "Z" c.

Definition email_pattern : Re.regex :=
  Re.Cat (Re.Plus (Re.Cls (fun c => alnum c || Re.one_of "._%+-" c)))
 (Re.Cat (Re.Chr "@")
 (Re.Cat (Re.Plus (Re.Cls (fun c => alnum c || Re.one_of ".-" c)))
 (Re.Cat (Re.Chr ".")
 (Re.Cat (Re.Cls alpha) (Re.Cat (Re.Cls alpha) (Re.Star (Re.Cls alpha))))))).

Definition validate_email (email : value) : result bool :=
  match email with
  | PStr s => Ok (Re.match_anchored email_pattern s)
  | _ => Raise TypeError
  end.

(** [re.search(r'[...]', v)] for a one-class pattern; an argument that is
    not a [str] raises. *)
Definition re_search (class : ascii -> bool) (v : value) : result bool :=
  match v with
  | PStr s => Ok (Re.search_class class s)
  | _ => Raise TypeError
  end.

Definition validate_password (password : value) : result bool :=
  rbind (len password) (fun n =>
  if n <? 8 then Ok false else
  rbind (re_search (Re.range "A" "Z") password) (fun upper =>
  if negb upper then Ok false else
  rbind (re_search (Re.range "a" "z") password) (fun lower =>
  if negb lower then Ok false else
  rbind (re_search Re.decimal password) (fun digit =>
  if negb digit then Ok false else
  rbind (re_search (Re.one_of "@$!%*?&") password) (fun symbol =>
  if negb symbol then Ok false else
  Ok true))))).

(** *** The handlers *)

Section Handlers.

Variable lib : Lib.

(** [float(v)] *)
Definition float_ (v : value) : result float :=
  match v with
  | PFloat f => Ok f
  | PInt z => float_of_int z
  | PBool b => Ok (if b then 1%float else 0%float)
  | PStr s =>
      match float_of_str lib s with Some f => Ok f | None => Raise ValueError end
  | _ => Raise TypeError
  end.

(** [int(v)] *)
Definition int_ (v : value) : result Z :=
  match v with
  | PInt z => Ok z
  | PBool b => Ok (if b then 1 else 0)
  | PFloat f => float_trunc f
  | PStr s =>
      match int_of_str lib s with Some z => Ok z | None => Raise ValueError end
  | _ => Raise TypeError
  end.

(** [bson.ObjectId(v)] for a value that is not [None]. *)
Definition ObjectId (v : value) : result oid :=
  match v with
  | PStr s =>
      match objectid_of_str lib s with Some o => Ok o | None => Raise InvalidId end
  | _ => Raise TypeError
  end.

(** [v.lower()] *)
Definition str_lower (v : value) : result string :=
  match v with
  | PStr s => Ok (lower s)
  | _ => Raise AttributeError
  end.

(** [generate_password_hash(v)] *)
Definition password_hash (v : value) : result string :=
  match v with
  | PStr s => Ok (generate_password_hash lib s)
  | _ => Raise AttributeError
  end.

(** The loop over [required_fields] that opens [register] and
    [book_appointment]: [if field not in data or not data[field]: return
    ..., 400]. *)
Fixpoint check_required (data : value) (required_fields : list string) : M unit :=
  match required_fields with
  | [] => ret tt
  | field :: rest =>
      present <- eval (contains data field) ;;
      missing <- (if negb present then ret true
                  else v <- eval (getitem data field) ;; ret (negb (truthy v))) ;;
      if missing then reply (error 400 ("Missing required field: " ++ field))
      else check_required data rest
  end.

(** [mongo.db.users.find_one({'email': email})] *)
Definition find_user_by_email (email : value) (db : database) : option user_doc :=
  find (fun u => str_eq email (u_email u)) (users db).

(** [mongo.db.users.insert_one(doc)]: the driver encodes the document,
    which raises for a field it cannot encode; then, with the unique index
    on [email], the store refuses a second document with the same email.
    A document that is refused is not written. *)
Definition insert_user (doc : user_doc) (db : database) : result database :=
  rbind (Mongo.encode_fields
           [u_role doc; u_first_name doc; u_last_name doc; u_phone doc]) (fun _ =>
  if email_unique_index db
     && existsb (fun u => String.eqb (u_email u) (u_email doc)) (users db)
  then Raise DuplicateKeyError
  else Ok {| users := users db ++ [doc];
             doctor_profiles := doctor_profiles db;
             patient_profiles := patient_profiles db;
             appointments := appointments db;
             email_unique_index := email_unique_index db |}).

(** [mongo.db.doctor_profiles.insert_one(doc)] *)
Definition insert_doctor_profile (doc : doctor_profile) (db : database)
  : result database :=
  rbind (Mongo.encode_fields
           [dp_medical_license doc; dp_specialty doc;
            PInt (dp_years_experience doc)]) (fun _ =>
  Ok {| users := users db;
        doctor_profiles := doctor_profiles db ++ [doc];
        patient_profiles := patient_profiles db;
        appointments := appointments db;
        email_unique_index := email_unique_index db |}).

(** [mongo.db.patient_profiles.insert_one(doc)] *)
Definition insert_patient_profile (doc : patient_profile) (db : database)
  : result database :=
  rbind (Mongo.encode_fields [pp_date_of_birth doc; pp_medical_history doc]) (fun _ =>
  Ok {| users := users db;
        doctor_profiles := doctor_profiles db;
        patient_profiles := patient_profiles db ++ [doc];
        appointments := appointments db;
        email_unique_index := email_unique_index db |}).

(** [mongo.db.appointments.insert_one(doc)] *)
Definition insert_appointment (doc : appointment) (db : database)
  : result database :=
  rbind (Mongo.encode_fields
           [a_duration doc; a_consultation_type doc;
            a_symptoms doc; a_patient_notes doc]) (fun _ =>
  Ok {| users := users db;
        doctor_profiles := doctor_profiles db;
        patient_profiles := patient_profiles db;
        appointments := appointments db ++ [doc];
        email_unique_index := email_unique_index db |}).

(** [register]: [now] is the value of [datetime.utcnow()] during the
    request and [user_id] the identifier the driver gives the new user
    document. *)
Definition register (now : datetime) (user_id : oid) (data : value)
  : database -> response * database :=
  handler (fun e => {| status := 500; payload := Failure "Registration failed: " e |})
   (check_required data ["email"; "password"; "user_type"; "first_name"; "last_name"] ;;
    email <- eval (getitem data "email") ;;
    valid <- eval (validate_email email) ;;
    if negb valid then reply (error 400 "Invalid email format") else
    password <- eval (getitem data "password") ;;
    strong <- eval (validate_password password) ;;
    if negb strong then
      reply (error 400 "Password must be at least 8 characters with uppercase, lowercase, number, and special character")
    else
    existing <- read (find_user_by_email email) ;;
    match existing with
    | Some _ => reply (error 409 "Email already registered")
    | None =>
    user_type <- eval (getitem data "user_type") ;;
    if negb (existsb (str_eq user_type) ["patient"; "doctor"]) then
      reply (error 400 "Invalid user type. Must be patient or doctor")
    else
    email_lower <- eval (str_lower email) ;;
    hash <- eval (password_hash password) ;;
    first_name <- eval (getitem data "first_name") ;;
    last_name <- eval (getitem data "last_name") ;;
    phone <- eval (get data "phone" PNone) ;;
    write (insert_user
             {| u_id := user_id;
                u_email := email_lower;
                u_password_hash := hash;
                u_role := user_type;
                u_first_name := first_name;
                u_last_name := last_name;
                u_phone := phone;
                u_is_verified := true;
                u_is_active := true;
                u_created_at := now;
                u_updated_at := now |}) ;;
    (if str_eq user_type "doctor" then
       medical_license <- eval (get data "medical_license" (PStr "")) ;;
       specialty <- eval (get data "specialty" (PStr "")) ;;
       fee <- eval (rbind (get data "consultation_fee" (PFloat 150)) float_) ;;
       years <- eval (rbind (get data "years_experience" (PInt 0)) int_) ;;
       write (insert_doctor_profile
                {| dp_user_id := user_id;
                   dp_medical_license := medical_license;
                   dp_specialty := specialty;
                   dp_consultation_fee := fee;
                   dp_rating := 5;
                   dp_years_experience := years |})
     else
       date_of_birth <- eval (get data "date_of_birth" PNone) ;;
       medical_history <- eval (get data "medical_history" (PStr "")) ;;
       write (insert_patient_profile
                {| pp_user_id := user_id;
                   pp_date_of_birth := date_of_birth;
                   pp_medical_history := medical_history |})) ;;
    reply {| status := 201; payload := Registered user_id email user_type |}
    end).

(** [int(request.args.get(key, default))]: a query argument is a string. *)
Definition int_arg (args : list (string * string)) (key : string) (default : Z)
  : result Z :=
  match lookup key args with
  | Some s => int_ (PStr s)
  | None => int_ (PInt default)
  end.

(** The stages of the pipeline before [$skip] and [$limit], run on the
    store: the active doctors joined with their profiles, the filter on the
    specialty, the placeholder for the location, and the projection. *)
Definition joined (db : database) : list (user_doc * doctor_profile) :=
  flat_map
    (fun u => map (fun p => (u, p))
                  (filter (fun p => N.eqb (dp_user_id p) (u_id u)) (doctor_profiles db)))
    (filter (fun u => str_eq (u_role u) "doctor" && u_is_active u) (users db)).

Definition specialty_stage (specialty : option string)
  : result (user_doc * doctor_profile -> bool) :=
  match specialty with
  | Some pattern =>
      if truthy (PStr pattern) then
        match regex_i lib pattern with
        | Some r => Ok (fun row => Mongo.regex_holds r (dp_specialty (snd row)))
        | None => Raise OperationFailure
        end
      else Ok (fun _ => true)
  | None => Ok (fun _ => true)
  end.

(** [if location:] adds ['first_name': {'$exists': True}], and every user
    document has the field. *)
Definition location_stage (location : option string)
  (rows : list (user_doc * doctor_profile)) : list (user_doc * doctor_profile) :=
  match location with
  | Some place => if truthy (PStr place) then filter (fun _ => true) rows else rows
  | None => rows
  end.

Definition project (now : datetime) (row : user_doc * doctor_profile)
  : result doctor_summary :=
  rbind (Mongo.concat [u_first_name (fst row); PStr " "; u_last_name (fst row)] "")
        (fun name =>
           Ok {| ds_id := u_id (fst row);
                 ds_name := name;
                 ds_specialty := dp_specialty (snd row);
                 ds_rating := dp_rating (snd row);
                 ds_consultation_fee := dp_consultation_fee (snd row);
                 ds_years_experience := dp_years_experience (snd row);
                 ds_next_available := now |}).

Fixpoint project_all (now : datetime) (rows : list (user_doc * doctor_profile))
  : result (list doctor_summary) :=
  match rows with
  | [] => Ok []
  | row :: rest =>
      rbind (project now row) (fun d =>
      rbind (project_all now rest) (fun ds => Ok (d :: ds)))
  end.

Definition doctor_rows (now : datetime) (specialty location : option string)
  (db : database) : result (list doctor_summary) :=
  rbind (specialty_stage specialty) (fun keep =>
  project_all now (location_stage location (filter keep (joined db)))).

(** [get_available_doctors]: [args] are the query arguments.  The driver
    encodes the pipeline, with its [$skip], before the store sees it; the
    two calls of [aggregate] run the same stages on the same store. *)
Definition get_available_doctors (now : datetime) (args : list (string * string))
  : database -> response * database :=
  handler (fun e =>
             match e with
             | ValueError => error 400 "Invalid page or limit parameter"
             | _ => {| status := 500; payload := Failure "Failed to retrieve doctors: " e |}
             end)
   (let specialty := lookup "specialty" args in
    let location := lookup "location" args in
    page <- eval (int_arg args "page" 1) ;;
    limit <- eval (int_arg args "limit" 10) ;;
    if (page <? 1) || (limit <? 1) || (limit >? 50) then
      reply (error 400 "Invalid pagination parameters")
    else
    let skip := (page - 1) * limit in
    eval (Mongo.bson_encode (PInt skip)) ;;
    rows <- read (doctor_rows now specialty location) ;;
    rows <- eval rows ;;
    let doctors := firstn (Z.to_nat limit) (skipn (Z.to_nat skip) rows) in
    let total_result := match rows with [] => [] | _ :: _ => [Z.of_nat (List.length rows)] end in
    let total_doctors := match total_result with total :: _ => total | [] => 0 end in
    let total_pages := (total_doctors + limit - 1) / limit in
    reply {| status := 200;
             payload := DoctorList doctors
                          {| current_page := page;
                             total_pages := total_pages;
                             total_doctors := total_doctors;
                             has_next := page <? total_pages |} |}).

(** The fields of an appointment document that are identifiers, strings
    and dates; the filters of the application name no other field. *)
Definition appointment_document (a : appointment) : Mongo.document :=
  fun field =>
    if String.eqb field "_id" then Some (Mongo.BOid (a_id a))
    else if String.eqb field "patient_id" then Some (Mongo.BOid (a_patient_id a))
    else if String.eqb field "doctor_id" then Some (Mongo.BOid (a_doctor_id a))
    else if String.eqb field "appointment_date" then Some (Mongo.BDate (a_appointment_date a))
    else if String.eqb field "end_time" then Some (Mongo.BDate (a_end_time a))
    else if String.eqb field "status" then Some (Mongo.BStr (a_status a))
    else if String.eqb field "meeting_link" then Some (Mongo.BStr (a_meeting_link a))
    else None.

(** The filter document that [book_appointment] builds, display by display
    as in the source. *)
Definition conflict_filter (doctor_id : oid) (appointment_date end_time : datetime)
  : Mongo.filter :=
  dict_display
    [ ("doctor_id", Mongo.Field (Mongo.Equals (Mongo.BOid doctor_id)));
      ("status", Mongo.Field (Mongo.Nin [Mongo.BStr "cancelled"; Mongo.BStr "no_show"]));
      ("$or", Mongo.Or
         [ dict_display
             [ ("appointment_date", Mongo.Lte (Mongo.BDate appointment_date));
               ("end_time", Mongo.Gt (Mongo.BDate appointment_date)) ];
           dict_display
             [ ("appointment_date", Mongo.Lt (Mongo.BDate end_time));
               ("end_time", Mongo.Gte (Mongo.BDate end_time)) ];
           dict_display
             [ ("appointment_date", Mongo.Gte (Mongo.BDate appointment_date));
               ("appointment_date", Mongo.Lt (Mongo.BDate end_time)) ] ]) ].

(** [mongo.db.appointments.find_one(conflict_filter ...)] *)
Definition find_conflict (doctor_id : oid) (appointment_date end_time : datetime)
  (db : database) : option appointment :=
  find (fun a => Mongo.matches (appointment_document a)
                   (conflict_filter doctor_id appointment_date end_time))
       (appointments db).

(** [datetime.max], 9999-12-31T23:59:59.999999. *)
Definition datetime_max : datetime := 253402300799999999.

(** [t + delta] for a [timedelta] of [delta] microseconds. *)
Definition datetime_add (t : datetime) (delta : Z) : result datetime :=
  if t + delta >? datetime_max then Raise OverflowError else Ok (t + delta).

(** [timedelta(minutes=v)], in microseconds, for a number [v] of integral
    value; the handler builds it from a duration that equals 15, 30, 45 or
    60. *)
Definition timedelta_minutes (v : value) : result Z :=
  match v with
  | PInt z => Ok (z * 60000000)
  | PBool b => Ok ((if b then 1 else 0) * 60000000)
  | PFloat f => rbind (float_trunc f) (fun z => Ok (z * 60000000))
  | _ => Raise TypeError
  end.

(** [v.replace('Z', '+00:00')] *)
Definition replace_Z (v : value) : result string :=
  match v with
  | PStr s => Ok (replace_char "Z" "+00:00" s)
  | _ => Raise AttributeError
  end.

(** The conversion of [data['appointment_date']] to a naive UTC datetime. *)
Definition parse_appointment_date (data : value) : result datetime :=
  rbind (getitem data "appointment_date") (fun v =>
  rbind (replace_Z v) (fun appointment_date_str =>
  match fromisoformat_utc lib appointment_date_str with
  | Some t => Ok t
  | None => Raise ValueError
  end)).

Definition find_user_by_id (user_id : oid) (db : database) : option user_doc :=
  find (fun u => N.eqb (u_id u) user_id) (users db).

Definition find_doctor (doctor_id : oid) (db : database) : option user_doc :=
  find (fun u => N.eqb (u_id u) doctor_id && str_eq (u_role u) "doctor" && u_is_active u)
       (users db).

Definition find_doctor_profile (doctor_id : oid) (db : database)
  : option doctor_profile :=
  find (fun p => N.eqb (dp_user_id p) doctor_id) (doctor_profiles db).

(** The decorator [role_required]: [identity] is the subject of the
    verified token.  It runs outside the handler's [try], so an exception
    reaches the application's handler for error 500. *)
Definition role_required (required_role : string)
  (f : database -> response * database) (identity : string)
  : database -> response * database :=
  fun db =>
    match ObjectId (PStr identity) with
    | Raise _ => (error 500 "Internal server error", db)
    | Ok user_id =>
        match find_user_by_id user_id db with
        | None => (error 404 "User not found", db)
        | Some user =>
            if negb (str_eq (u_role user) required_role)
            then ({| status := 403; payload := AccessDenied required_role |}, db)
            else f db
        end
    end.

(** The body of [book_appointment]: [appointment_id] is the identifier the
    driver gives the new document and [room_id] the [ObjectId()] of the
    meeting link. *)
Definition book_appointment_body (now : datetime) (appointment_id room_id : oid)
  (user_id : string) (data : value) : database -> response * database :=
  handler (fun e => {| status := 500; payload := Failure "Failed to book appointment: " e |})
   (check_required data ["doctor_id"; "appointment_date"; "duration"; "consultation_type"] ;;
    doctor_id <- try_except (eval (rbind (getitem data "doctor_id") ObjectId))
                            (error 400 "Invalid doctor ID format") ;;
    doctor <- read (find_doctor doctor_id) ;;
    match doctor with
    | None => reply (error 404 "Doctor not found or inactive")
    | Some doctor =>
    appointment_date <-
      try_except (eval (parse_appointment_date data))
                 (error 400 "Invalid appointment date format. Use ISO 8601 (e.g., 2025-07-25T14:00:00Z)") ;;
    if appointment_date <=? now then
      reply (error 400 "Appointment must be scheduled for future date")
    else
    duration <- eval (getitem data "duration") ;;
    if negb (existsb (int_eq duration) [15; 30; 45; 60]) then
      reply (error 400 "Invalid duration. Must be 15, 30, 45, or 60 minutes")
    else
    consultation_type <- eval (getitem data "consultation_type") ;;
    if negb (existsb (str_eq consultation_type) ["video"; "audio"; "chat"]) then
      reply (error 400 "Invalid consultation type")
    else
    end_time <- eval (rbind (timedelta_minutes duration) (datetime_add appointment_date)) ;;
    conflict <- read (find_conflict doctor_id appointment_date end_time) ;;
    match conflict with
    | Some _ => reply (error 409 "Time slot no longer available")
    | None =>
    doctor_profile <- read (find_doctor_profile doctor_id) ;;
    let consultation_fee :=
      match doctor_profile with
      | Some profile => dp_consultation_fee profile
      | None => 150%float
      end in
    patient_id <- eval (ObjectId (PStr user_id)) ;;
    symptoms <- eval (get data "symptoms" (PStr "")) ;;
    notes <- eval (get data "notes" (PStr "")) ;;
    let appointment_doc :=
      {| a_id := appointment_id;
         a_patient_id := patient_id;
         a_doctor_id := doctor_id;
         a_appointment_date := appointment_date;
         a_end_time := end_time;
         a_duration := duration;
         a_consultation_type := consultation_type;
         a_status := "confirmed";
         a_consultation_fee := consultation_fee;
         a_meeting_link := "https://meet.mediconnect.com/room/" ++ str_of_objectid lib room_id;
         a_symptoms := symptoms;
         a_patient_notes := notes;
         a_created_at := now;
         a_updated_at := now |} in
    write (insert_appointment appointment_doc) ;;
    let doctor_name :=
      "Dr. " ++ str_of lib (u_first_name doctor) ++ " " ++ str_of lib (u_last_name doctor) in
    reply {| status := 201; payload := Booked appointment_doc doctor_name |}
    end
    end).

(** [book_appointment], behind [@role_required('patient')]. *)
Definition book_appointment (now : datetime) (appointment_id room_id : oid)
  (user_id : string) (data : value) : database -> response * database :=
  role_required "patient"
    (book_appointment_body now appointment_id room_id user_id data) user_id.

End Handlers.

End App.

(** ** Login *)

(** The library code that [login] calls: [check_password_hash] of werkzeug,
    on the stored hash and the value sent as password (it may raise), and
    [create_access_token] of flask_jwt_extended, on the identity. *)
Record AuthLib : Type := {
  check_password_hash : string -> Py.value -> Py.result bool;
  create_access_token : string -> string
}.

Module Auth.
Import Py App.

(** The store as [login] sees it: the database, and the field [last_login]
    of the user documents, which only [login] writes, as a map from the
    [_id] of the document. *)
Record store : Type := {
  base : database;
  last_login : list (oid * datetime)
}.

(** [{'$set': {'last_login': t}}] on the document of [_id] [user_id]. *)
Fixpoint set_last_login (user_id : oid) (t : datetime) (m : list (oid * datetime))
  : list (oid * datetime) :=
  match m with
  | [] => [(user_id, t)]
  | (k, v) :: m' =>
      if N.eqb user_id k then (k, t) :: m' else (k, v) :: set_last_login user_id t m'
  end.

Fixpoint get_last_login (user_id : oid) (m : list (oid * datetime)) : option datetime :=
  match m with
  | [] => None
  | (k, v) :: m' => if N.eqb user_id k then Some v else get_last_login user_id m'
  end.

(** [users.update_one({'_id': user_id}, {'$set': {'last_login': t}})]: a
    store without such a document is left as it is. *)
Definition update_last_login (user_id : oid) (t : datetime) (st : store) : store :=
  if existsb (fun u => N.eqb (u_id u) user_id) (users (base st))
  then {| base := base st; last_login := set_last_login user_id t (last_login st) |}
  else st.

Inductive login_body : Type :=
| LoginError (message : string)
| LoginFailure (message : string) (e : exn)
| LoggedIn (access_token : string) (expires_in : Z)
    (id : string) (email : string) (user_type first_name last_name : value).

Record login_response : Type := {
  login_status : Z;
  login_payload : login_body
}.

Section Login.

Variable lib : Lib.
Variable auth : AuthLib.

(** The part of [login] that may raise, up to the answer and the store
    it leaves. *)
Definition login_steps (now : datetime) (data : value) (st : store)
  : result (login_response * store) :=
  rbind (get data "email" PNone) (fun email =>
  rbind (if truthy email then get data "password" PNone else Ok PNone) (fun password =>
  if negb (truthy email) || negb (truthy password) then
    Ok ({| login_status := 400; login_payload := LoginError "Email and password required" |}, st)
  else
  rbind (rbind (getitem data "email") str_lower) (fun email_lower =>
  let user := find_user_by_email (PStr email_lower) (base st) in
  rbind (match user with
         | None => Ok true
         | Some u =>
             rbind (getitem data "password") (fun p =>
             rbind (check_password_hash auth (u_password_hash u) p) (fun good =>
             Ok (negb good)))
         end) (fun refused =>
  match user with
  | None =>
      Ok ({| login_status := 401; login_payload := LoginError "Invalid email or password" |}, st)
  | Some u =>
      if refused then
        Ok ({| login_status := 401; login_payload := LoginError "Invalid email or password" |}, st)
      else if negb (u_is_active u) then
        Ok ({| login_status := 403; login_payload := LoginError "Account is deactivated" |}, st)
      else
        let access_token := create_access_token auth (str_of_objectid lib (u_id u)) in
        Ok ({| login_status := 200;
               login_payload :=
                 LoggedIn access_token 3600 (str_of_objectid lib (u_id u))
                   (u_email u) (u_role u) (u_first_name u) (u_last_name u) |},
            update_last_login (u_id u) now st)
  end)))).

(** [login]: [now] is the value of [datetime.utcnow()] during the request
    and [data] the body of the request. *)
Definition login (now : datetime) (data : value) (st : store)
  : login_response * store :=
  match login_steps now data st with
  | Ok answer => answer
  | Raise e => ({| login_status := 500; login_payload := LoginFailure "Login failed: " e |}, st)
  end.

End Login.

End Auth.

(** ** The initialisation script *)

Module Seed.
Import Py App.
#[local] Set Warnings "-inexact-float".

Section Script.

Variable lib : Lib.
(** [clock k] is the value of the call number [k] of [datetime.utcnow()],
    and [ids k] the identifier that the driver gives the document number
    [k] that the script inserts. *)
Variable clock : nat -> datetime.
Variable ids : nat -> oid.

(** [timedelta(days=d, hours=h, minutes=m)], in microseconds. *)
Definition timedelta (d h m : Z) : Z := ((d * 24 + h) * 60 + m) * 60000000.

Definition seeded_user (k : nat) (email password role first last phone : string)
  (t : nat) : user_doc :=
  {| u_id := ids k;
     u_email := email;
     u_password_hash := generate_password_hash lib password;
     u_role := PStr role;
     u_first_name := PStr first;
     u_last_name := PStr last;
     u_phone := PStr phone;
     u_is_verified := true;
     u_is_active := true;
     u_created_at := clock t;
     u_updated_at := clock (S t) |}.

Definition doctors_data : list user_doc :=
  [ seeded_user 0 "dr.johnson@mediconnect.com" "Doctor123!" "doctor"
      "Sarah" "Johnson" "+1-416-555-0124" 0;
    seeded_user 1 "dr.smith@mediconnect.com" "Doctor123!" "doctor"
      "Michael" "Smith" "+1-416-555-0125" 2;
    seeded_user 2 "dr.patel@mediconnect.com" "Doctor123!" "doctor"
      "Priya" "Patel" "+1-416-555-0126" 4 ].

(** The profiles of the doctors; their field [bio], which the application
    never reads, has no place in [doctor_profile]. *)
Definition doctor_profiles_data : list doctor_profile :=
  [ {| dp_user_id := ids 0; dp_medical_license := PStr "MD123456789";
       dp_specialty := PStr "Cardiology"; dp_consultation_fee := 150;
       dp_rating := 4.8; dp_years_experience := 12 |};
    {| dp_user_id := ids 1; dp_medical_license := PStr "MD987654321";
       dp_specialty := PStr "Dermatology"; dp_consultation_fee := 120;
       dp_rating := 4.9; dp_years_experience := 8 |};
    {| dp_user_id := ids 2; dp_medical_license := PStr "MD456789123";
       dp_specialty := PStr "Family Medicine"; dp_consultation_fee := 100;
       dp_rating := 4.7; dp_years_experience := 15 |} ].

Definition patients_data : list user_doc :=
  [ seeded_user 6 "john.smith@email.com" "Patient123!" "patient"
      "John" "Smith" "+1-416-555-0123" 6;
    seeded_user 7 "jane.doe@email.com" "Patient123!" "patient"
      "Jane" "Doe" "+1-416-555-0127" 8 ].

Definition patient_profiles_data : list patient_profile :=
  [ {| pp_user_id := ids 6; pp_date_of_birth := PStr "1978-05-15";
       pp_medical_history := PStr "Hypertension, Type 2 Diabetes" |};
    {| pp_user_id := ids 7; pp_date_of_birth := PStr "1985-09-22";
       pp_medical_history := PStr "No significant medical history" |} ].

Definition appointments_data : list appointment :=
  [ {| a_id := ids 10; a_patient_id := ids 6; a_doctor_id := ids 0;
       a_appointment_date := clock 10 + timedelta 7 9 0;
       a_end_time := clock 11 + timedelta 7 9 30;
       a_duration := PInt 30; a_consultation_type := PStr "video";
       a_status := "confirmed"; a_consultation_fee := 150;
       a_meeting_link := "https://meet.mediconnect.com/room/sample123";
       a_symptoms := PStr "Chest pain and irregular heartbeat";
       a_patient_notes := PStr "First consultation for this issue";
       a_created_at := clock 12; a_updated_at := clock 13 |};
    {| a_id := ids 11; a_patient_id := ids 7; a_doctor_id := ids 1;
       a_appointment_date := clock 14 + timedelta 5 14 0;
       a_end_time := clock 15 + timedelta 5 14 30;
       a_duration := PInt 30; a_consultation_type := PStr "video";
       a_status := "confirmed"; a_consultation_fee := 120;
       a_meeting_link := "https://meet.mediconnect.com/room/sample456";
       a_symptoms := PStr "Skin rash on arms";
       a_patient_notes := PStr "Rash appeared 3 days ago";
       a_created_at := clock 16; a_updated_at := clock 17 |} ].

(** [for doc in docs: collection.insert_one(doc)] *)
Fixpoint insert_each {A : Type} (insert : A -> database -> result database)
  (docs : list A) (db : database) : result database :=
  match docs with
  | [] => Ok db
  | doc :: rest => rbind (insert doc db) (insert_each insert rest)
  end.

(** [seed_database]: the four collections are emptied, the unique index
    on the email is created, and the documents are inserted collection
    by collection. *)
Definition seed_database (db : database) : result database :=
  let cleared :=
    {| users := []; doctor_profiles := []; patient_profiles := [];
       appointments := []; email_unique_index := email_unique_index db |} in
  let indexed :=
    {| users := users cleared; doctor_profiles := doctor_profiles cleared;
       patient_profiles := patient_profiles cleared;
       appointments := appointments cleared; email_unique_index := true |} in
  rbind (insert_each insert_user doctors_data indexed) (fun db1 =>
  rbind (insert_each insert_doctor_profile doctor_profiles_data db1) (fun db2 =>
  rbind (insert_each insert_user patients_data db2) (fun db3 =>
  rbind (insert_each insert_patient_profile patient_profiles_data db3) (fun db4 =>
  insert_each insert_appointment appointments_data db4)))).

End Script.

End Seed.

(** ** The words of the specification *)

Module Spec.
Import Py App.

(** Some character of [s] has the property [P]. *)
Definition has (P : ascii -> Prop) (s : string) : Prop :=
  exists c, In c (list_ascii_of_string s) /\ P c.

Definition uppercase_letter (c : ascii) : Prop :=
  (nat_of_ascii "A" <= nat_of_ascii c <= nat_of_ascii "Z")%nat.

Definition lowercase_letter (c : ascii) : Prop :=
  (nat_of_ascii "a" <= nat_of_ascii c <= nat_of_ascii "z")%nat.

Definition digit (c : ascii) : Prop :=
  (nat_of_ascii "0" <= nat_of_ascii c <= nat_of_ascii "9")%nat.

Definition symbol (c : ascii) : Prop :=
  In c (list_ascii_of_string "@$!%*?&").

(** The password policy of section 6 on the strings of the handlers, whose
    code points are below 256; [text_policy] states it for every [str]. *)
Definition password_policy (s : string) : Prop :=
  (8 <= String.length s)%nat /\ has uppercase_letter s /\ has lowercase_letter s
  /\ has digit s /\ has symbol s.

(** Some code point of [s] has the property [P]. *)
Definition text_has (P : N -> Prop) (s : Unicode.text) : Prop :=
  exists c, In c s /\ P c.

(** The code points from [a] to [b]. *)
Definition code_between (a b : ascii) (c : N) : Prop :=
  (N_of_ascii a <= c <= N_of_ascii b)%N.

(** The password policy of section 6 on a [str] of any code points, for a
    reading [digit] of its word "digit". *)
Definition text_policy (digit : N -> Prop) (s : Unicode.text) : Prop :=
  (8 <= List.length s)%nat
  /\ text_has (code_between "A" "Z") s
  /\ text_has (code_between "a" "z") s
  /\ text_has digit s
  /\ text_has (fun c => In c (Unicode.of_string "@$!%*?&")) s.

(** [q] is the ceiling of [n / d]: the least integer with [n <= q * d]. *)
Definition ceiling (n d q : Z) : Prop := (q - 1) * d < n <= q * d.

(** Two half-open intervals [[a1,a2)] and [[b1,b2)] overlap (section 4.3). *)
Definition overlap (a1 a2 b1 b2 : Z) : Prop := a1 < b2 /\ b1 < a2.

(** An appointment that counts for conflicts: of this doctor and neither
    cancelled nor a no-show. *)
Definition blocking (doctor_id : oid) (a : appointment) : Prop :=
  a_doctor_id a = doctor_id /\ a_status a <> "cancelled" /\ a_status a <> "no_show".

(** The names of the accounts are strings, as [$concat] asks. *)
Definition names_are_strings (db : database) : Prop :=
  forall u, In u (users db) ->
            (exists s, u_first_name u = PStr s) /\ (exists s, u_last_name u = PStr s).

(** The store accepts the pattern given as [specialty], if one is given. *)
Definition specialty_accepted (lib : Lib) (args : list (string * string)) : Prop :=
  match lookup "specialty" args with
  | Some pattern => pattern = "" \/ exists r, regex_i lib pattern = Some r
  | None => True
  end.

(** What the request holds under an optional key, or the default of
    [data.get]. *)
Definition field_or (d : list (string * value)) (key : string) (default : value)
  : value :=
  match lookup key d with
  | Some v => v
  | None => default
  end.


(** A required field is there and is not empty. *)
Definition present (d : list (string * value)) (field : string) : Prop :=
  exists v, lookup field d = Some v /\ truthy v = true.

(** The caller passes the role gate as a patient. *)
Definition patient (lib : Lib) (db : database) (identity : string) : Prop :=
  exists user_id user,
    objectid_of_str lib identity = Some user_id
    /\ find_user_by_id user_id db = Some user
    /\ str_eq (u_role user) "patient" = true.

(** An appointment that counts for conflicts, whoever the doctor is. *)
Definition counted (a : appointment) : Prop :=
  a_status a <> "cancelled" /\ a_status a <> "no_show".

(** No two appointments of one doctor that count overlap (section 3). *)
Definition no_double_booking (db : database) : Prop :=
  ForallOrdPairs
    (fun a b =>
       counted a -> counted b -> a_doctor_id a = a_doctor_id b ->
       ~ overlap (a_appointment_date a) (a_end_time a)
           (a_appointment_date b) (a_end_time b))
    (appointments db).

(** The emails of the accounts are in lower case. *)
Definition emails_lowercase (db : database) : Prop :=
  forall u, In u (users db) -> lower (u_email u) = u_email u.

(** No two accounts have the same email. *)
Definition emails_unique (db : database) : Prop :=
  NoDup (map u_email (users db)).

(** The doctors that an answer of the listing shows. *)
Definition doctors_of (r : response) : list doctor_summary :=
  match payload r with
  | DoctorList doctors _ => doctors
  | _ => []
  end.

(** All the characters of [s] have the property [P]. *)
Definition all_chars (P : ascii -> Prop) (s : string) : Prop :=
  forall c, In c (list_ascii_of_string s) -> P c.

Definition letter (c : ascii) : Prop := uppercase_letter c \/ lowercase_letter c.

(** The characters of the part before [@] and of the part after it. *)
Definition local_char (c : ascii) : Prop :=
  letter c \/ digit c \/ In c (list_ascii_of_string "._%+-").

Definition domain_char (c : ascii) : Prop :=
  letter c \/ digit c \/ In c (list_ascii_of_string ".-").

(** An address [local@domain.tld], possibly followed by one newline. *)
Definition email_shape (s : string) : Prop :=
  exists local domain tld ending : string,
    s = local ++ "@" ++ domain ++ "." ++ tld ++ ending
    /\ local <> "" /\ all_chars local_char local
    /\ domain <> "" /\ all_chars domain_char domain
    /\ (2 <= String.length tld)%nat /\ all_chars letter tld
    /\ (ending = "" \/ ending = String "010" "").

(** The emails of the accounts are addresses that [validate_email]
    accepts. *)
Definition emails_valid (db : database) : Prop :=
  forall u, In u (users db) -> validate_email (Py.PStr (u_email u)) = Py.Ok true.

(** A booking request that passes the seven checks of section 4.4, for
    the doctor [doctor_id], the start [t] and a duration of [minutes]
    minutes, and whose end is a datetime. *)
Definition passes_checks (lib : Lib) (now : datetime) (identity : string)
  (d : list (string * value)) (db : database) (doctor_id : oid)
  (t : datetime) (minutes : Z) : Prop :=
  patient lib db identity
  /\ Forall (present d) ["doctor_id"; "appointment_date"; "duration"; "consultation_type"]
  /\ rbind (getitem (PDict d) "doctor_id") (ObjectId lib) = Ok doctor_id
  /\ (exists doctor, find_doctor doctor_id db = Some doctor)
  /\ parse_appointment_date lib (PDict d) = Ok t
  /\ now < t
  /\ (exists duration,
         lookup "duration" d = Some duration
         /\ In minutes [15; 30; 45; 60] /\ int_eq duration minutes = true)
  /\ (exists consultation_type,
         lookup "consultation_type" d = Some consultation_type
         /\ existsb (str_eq consultation_type) ["video"; "audio"; "chat"] = true)
  /\ t + minutes * 60000000 <= datetime_max.

End Spec.

(** ** Data for the examples *)

Module Example.
Import Py App.

(** A stand-in for the library: it reads the identifiers, numbers and
    dates that the examples use, and refuses the pattern [(], which no
    regular expression library compiles. *)
Definition lib : Lib :=
  {| generate_password_hash := fun s => "pbkdf2:" ++ s;
     float_of_str := fun _ => None;
     int_of_str := fun s =>
       if String.eqb s "1" then Some 1
       else if String.eqb s "2" then Some 2
       else if String.eqb s "3" then Some 3
       else if String.eqb s "4" then Some 4
       else if String.eqb s "10" then Some 10
       else if String.eqb s "18446744073709551616" then Some (2 ^ 64)
       else None;
     fromisoformat_utc := fun s =>
       if String.eqb s "2030-01-01T10:30:00+00:00" then Some 1893493800000000
       else if String.eqb s "2020-01-01T10:30:00+00:00" then Some 1577874600000000
       else None;
     objectid_of_str := fun s =>
       if String.eqb s "64b000000000000000000001" then Some 1%N
       else if String.eqb s "64b000000000000000000002" then Some 2%N
       else None;
     str_of_objectid := fun o =>
       if N.eqb o 1%N then "64b000000000000000000001"
       else if N.eqb o 2%N then "64b000000000000000000002"
       else "64b0000000000000000000ff";
     regex_i := fun pattern =>
       if String.eqb pattern "(" then None
       else Some (fun s => occurs_in (lower pattern) (lower s));
     str_of := fun v => match v with PStr s => s | _ => "" end |}.

(** The instant 2030-01-01T10:30:00Z and a half hour, in microseconds. *)
Definition t1030 : datetime := 1893493800000000.
Definition half_hour : Z := 30 * 60000000.
(** A time of the request, in 2025. *)
Definition now : datetime := 1750000000000000.

Definition user (id : oid) (email : string) (role first last : string) : user_doc :=
  {| u_id := id; u_email := email; u_password_hash := "pbkdf2:x";
     u_role := PStr role; u_first_name := PStr first; u_last_name := PStr last;
     u_phone := PNone; u_is_verified := true; u_is_active := true;
     u_created_at := 0; u_updated_at := 0 |}.

Definition doctor1 : user_doc := user 1 "dr.johnson@mediconnect.com" "doctor" "Sarah" "Johnson".
Definition patient2 : user_doc := user 2 "john.smith@email.com" "patient" "John" "Smith".

Definition booked (id : oid) (start finish : datetime) (state : string) : appointment :=
  {| a_id := id; a_patient_id := 2; a_doctor_id := 1;
     a_appointment_date := start; a_end_time := finish;
     a_duration := PInt 30; a_consultation_type := PStr "video";
     a_status := state; a_consultation_fee := 150;
     a_meeting_link := "https://meet.mediconnect.com/room/sample123";
     a_symptoms := PStr ""; a_patient_notes := PStr "";
     a_created_at := 0; a_updated_at := 0 |}.

Definition clinic (existing : list appointment) (unique : bool) : database :=
  {| users := [doctor1; patient2];
     doctor_profiles :=
       [ {| dp_user_id := 1; dp_medical_license := PStr "MD123456789";
            dp_specialty := PStr "Cardiology"; dp_consultation_fee := 150;
            dp_rating := 4.5; dp_years_experience := 12 |} ];
     patient_profiles :=
       [ {| pp_user_id := 2; pp_date_of_birth := PStr "1978-05-15";
            pp_medical_history := PStr "" |} ];
     appointments := existing;
     email_unique_index := unique |}.

(** A request for the doctor at 10:30 on 2030-01-01, for 30 minutes. *)
Definition booking_request (date : string) (duration consultation_type : value) : value :=
  PDict [ ("doctor_id", PStr "64b000000000000000000001");
          ("appointment_date", PStr date);
          ("duration", duration);
          ("consultation_type", consultation_type) ].

Definition registration (email : string) (user_type : string)
  (extra : list (string * value)) : value :=
  PDict ([ ("email", PStr email); ("password", PStr "Passw0rd!");
           ("user_type", PStr user_type);
           ("first_name", PStr "Alice"); ("last_name", PStr "Martin") ] ++ extra).

(** A store with 23 doctors, numbered from 1, each with a profile. *)
Definition hospital : database :=
  {| users :=
       map (fun n => user (N.of_nat n)
                      (String (ascii_of_nat (96 + n)) "@mediconnect.com")
                      "doctor" "Doctor" (String (ascii_of_nat (64 + n)) ""))
           (seq 1 23);
     doctor_profiles :=
       map (fun n => {| dp_user_id := N.of_nat n; dp_medical_license := PStr "";
                        dp_specialty := PStr "Family Medicine";
                        dp_consultation_fee := 100; dp_rating := 5;
                        dp_years_experience := Z.of_nat n |})
           (seq 1 23);
     patient_profiles := [];
     appointments := [];
     email_unique_index := true |}.

(** The rows of the listing on [hospital], without a filter. *)
Definition hospital_rows : list doctor_summary :=
  match doctor_rows lib now None None hospital with
  | Ok rows => rows
  | Raise _ => []
  end.

(** The patient of [clinic], as the subject of a token. *)
Definition patient_identity : string := "64b000000000000000000002".

(** A stand-in for the library of [login], fitting the hash of [lib]. *)
Definition auth : AuthLib :=
  {| check_password_hash := fun hash password =>
       match password with
       | PStr s => Ok (String.eqb hash ("pbkdf2:" ++ s))
       | _ => Raise TypeError
       end;
     create_access_token := fun identity => "token:" ++ identity |}.

(** Two blocks of category Nd: the Arabic-Indic digits U+0660..U+0669 and
    the fullwidth digits U+FF10..U+FF19. *)
Definition other_decimal (c : N) : bool :=
  ((1632 <=? c) && (c <=? 1641) || (65296 <=? c) && (c <=? 65305))%N.

(** A password of ten characters: [Password], the fullwidth digit one
    (U+FF11), and [!]. *)
Definition fullwidth_password : Unicode.text :=
  (Unicode.of_string "Password" ++ [65297%N] ++ Unicode.of_string "!")%list.

(** The registration of a doctor whose first name is the number 5. *)
Definition numbered_doctor : value :=
  PDict [ ("email", PStr "five@example.com"); ("password", PStr "Passw0rd!");
          ("user_type", PStr "doctor");
          ("first_name", PInt 5); ("last_name", PStr "Martin") ].

(** The query for a page of [hospital], ten doctors a page. *)
Definition hospital_query (page : Z) : list (string * string) :=
  [ ("page", if page =? 1 then "1" else if page =? 2 then "2" else "3");
    ("limit", "10"); ("location", "Toronto") ].

End Example.

(** ** Properties *)

Import Py App.

(** *** The password policy *)

Lemma range_spec (a b c : ascii) :
  Re.range a b c = true
  <-> (nat_of_ascii a <= nat_of_ascii c <= nat_of_ascii b)%nat.
Proof.
  unfold Re.range. rewrite andb_true_iff, !Nat.leb_le. tauto.
Qed.

Lemma one_of_spec (chars : string) (c : ascii) :
  Re.one_of chars c = true <-> In c (list_ascii_of_string chars).
Proof.
  unfold Re.one_of. rewrite existsb_exists. split.
  - intros [x [Hin Heq]]. apply Ascii.eqb_eq in Heq. now subst.
  - intros Hin. exists c. split; [assumption | apply Ascii.eqb_refl].
Qed.

Lemma search_class_spec (p : ascii -> bool) (P : ascii -> Prop) (s : string) :
  (forall c, p c = true <-> P c) ->
  Re.search_class p s = true <-> Spec.has P s.
Proof.
  intros Hp. unfold Re.search_class, Spec.has. rewrite existsb_exists.
  split; intros [c [Hin Hc]]; exists c; split; trivial; now apply Hp.
Qed.

Lemma validate_password_str (s : string) :
  validate_password (PStr s)
  = Ok ((8 <=? Z.of_nat (String.length s))
        && Re.search_class (Re.range "A" "Z") s
        && Re.search_class (Re.range "a" "z") s
        && Re.search_class (Re.range "0" "9") s
        && Re.search_class (Re.one_of "@$!%*?&") s).
Proof.
  unfold validate_password, len, re_search, rbind, Re.decimal.
  rewrite Z.leb_antisym.
  destruct (Z.of_nat (String.length s) <? 8); [reflexivity | cbn [negb andb]].
  destruct (Re.search_class (Re.range "A" "Z") s); [cbn [negb andb] | reflexivity].
  destruct (Re.search_class (Re.range "a" "z") s); [cbn [negb andb] | reflexivity].
  destruct (Re.search_class (Re.range "0" "9") s); [cbn [negb andb] | reflexivity].
  destruct (Re.search_class (Re.one_of "@$!%*?&") s); reflexivity.
Qed.

Lemma validate_password_only_str (v : value) :
  validate_password v = Ok true -> exists s, v = PStr s.
Proof.
  destruct v; try discriminate.
  - intros _. now exists s.
  - unfold validate_password, len, re_search, rbind.
    destruct (Z.of_nat (List.length l) <? 8); discriminate.
  - unfold validate_password, len, re_search, rbind.
    destruct (Z.of_nat (List.length d) <? 8); discriminate.
Qed.

Lemma validate_password_str_policy (s : string) :
  validate_password (PStr s) = Ok true <-> Spec.password_policy s.
Proof.
  rewrite validate_password_str. unfold Spec.password_policy.
  rewrite <- (search_class_spec (Re.range "A" "Z") Spec.uppercase_letter s)
    by (intros c; apply range_spec).
  rewrite <- (search_class_spec (Re.range "a" "z") Spec.lowercase_letter s)
    by (intros c; apply range_spec).
  rewrite <- (search_class_spec (Re.range "0" "9") Spec.digit s)
    by (intros c; apply range_spec).
  rewrite <- (search_class_spec (Re.one_of "@$!%*?&") Spec.symbol s)
    by (intros c; apply one_of_spec).
  split.
  - intros H. injection H as H.
    rewrite !andb_true_iff in H. rewrite Z.leb_le in H.
    destruct H as [[[[H8 Hu] Hl] Hd] Hs]. repeat split; trivial; lia.
  - intros (H8 & Hu & Hl & Hd & Hs). f_equal.
    rewrite !andb_true_iff, Z.leb_le. repeat split; trivial; lia.
Qed.

(** The same on strings of any code points. *)

Lemma unicode_range_spec (a b : ascii) (c : N) :
  Unicode.range a b c = true <-> Spec.code_between a b c.
Proof.
  unfold Unicode.range, Spec.code_between.
  rewrite andb_true_iff, !N.leb_le. tauto.
Qed.

Lemma unicode_one_of_spec (chars : string) (c : N) :
  Unicode.one_of chars c = true <-> In c (Unicode.of_string chars).
Proof.
  unfold Unicode.one_of. rewrite existsb_exists. split.
  - intros [x [Hin Heq]]. apply N.eqb_eq in Heq. now subst.
  - intros Hin. exists c. split; [assumption | apply N.eqb_refl].
Qed.

Lemma unicode_search_spec (p : N -> bool) (P : N -> Prop) (s : Unicode.text) :
  (forall c, p c = true <-> P c) ->
  Unicode.search_class p s = true <-> Spec.text_has P s.
Proof.
  intros Hp. unfold Unicode.search_class, Spec.text_has. rewrite existsb_exists.
  split; intros [c [Hin Hc]]; exists c; split; trivial; now apply Hp.
Qed.

Lemma unicode_validate_password_checks (other_decimal : N -> bool)
  (s : Unicode.text) :
  Unicode.validate_password other_decimal s
  = (8 <=? Z.of_nat (List.length s))
    && Unicode.search_class (Unicode.range "A" "Z") s
    && Unicode.search_class (Unicode.range "a" "z") s
    && Unicode.search_class (Unicode.decimal other_decimal) s
    && Unicode.search_class (Unicode.one_of "@$!%*?&") s.
Proof.
  unfold Unicode.validate_password. rewrite Z.leb_antisym.
  destruct (Z.of_nat (List.length s) <? 8); [reflexivity | cbn [negb andb]].
  destruct (Unicode.search_class (Unicode.range "A" "Z") s);
    [cbn [negb andb] | reflexivity].
  destruct (Unicode.search_class (Unicode.range "a" "z") s);
    [cbn [negb andb] | reflexivity].
  destruct (Unicode.search_class (Unicode.decimal other_decimal) s);
    [cbn [negb andb] | reflexivity].
  destruct (Unicode.search_class (Unicode.one_of "@$!%*?&") s); reflexivity.
Qed.

Lemma unicode_validate_password_policy (other_decimal : N -> bool)
  (s : Unicode.text) :
  Unicode.validate_password other_decimal s = true
  <-> Spec.text_policy (fun c => Unicode.decimal other_decimal c = true) s.
Proof.
  rewrite unicode_validate_password_checks. unfold Spec.text_policy.
  rewrite <- (unicode_search_spec (Unicode.range "A" "Z") (Spec.code_between "A" "Z") s)
    by (intros c; apply unicode_range_spec).
  rewrite <- (unicode_search_spec (Unicode.range "a" "z") (Spec.code_between "a" "z") s)
    by (intros c; apply unicode_range_spec).
  rewrite <- (unicode_search_spec (Unicode.decimal other_decimal)
                (fun c => Unicode.decimal other_decimal c = true) s)
    by (intros c; reflexivity).
  rewrite <- (unicode_search_spec (Unicode.one_of "@$!%*?&")
                (fun c => In c (Unicode.of_string "@$!%*?&")) s)
    by (intros c; apply unicode_one_of_spec).
  rewrite !andb_true_iff, Z.leb_le. split.
  - intros [[[[H8 Hu] Hl] Hd] Hs]. repeat split; trivial; lia.
  - intros (H8 & Hu & Hl & Hd & Hs). repeat split; trivial; lia.
Qed.

Lemma existsb_map {A B : Type} (f : A -> B) (p : B -> bool) (l : list A) :
  existsb p (map f l) = existsb (fun a => p (f a)) l.
Proof. induction l as [| a l IH]; [reflexivity | cbn; now rewrite IH]. Qed.

Lemma existsb_ext_all {A : Type} (p q : A -> bool) (l : list A) :
  (forall a, p a = q a) -> existsb p l = existsb q l.
Proof.
  intros H. induction l as [| a l IH]; [reflexivity | cbn; now rewrite H, IH].
Qed.

Lemma code_below_256 (c : ascii) : (N_of_ascii c < 256)%N.
Proof. destruct c as [[] [] [] [] [] [] [] []]; reflexivity. Qed.

Lemma length_of_string (s : string) :
  List.length (Unicode.of_string s) = String.length s.
Proof.
  unfold Unicode.of_string. rewrite length_map.
  induction s as [| c s IH]; [reflexivity | cbn; now rewrite IH].
Qed.

(** On the strings of the handlers, the two embeddings of
    [validate_password] agree: no code point below 256 is a decimal digit
    other than ['0'..'9']. *)
Lemma validate_password_latin1 (other_decimal : N -> bool) (s : string) :
  (forall c, (c < 256)%N -> other_decimal c = false) ->
  validate_password (PStr s)
  = Ok (Unicode.validate_password other_decimal (Unicode.of_string s)).
Proof.
  intros Hlatin1.
  rewrite validate_password_str, unicode_validate_password_checks.
  rewrite length_of_string.
  unfold Unicode.search_class, Re.search_class, Unicode.of_string.
  rewrite !existsb_map.
  rewrite (existsb_ext_all (fun a => Unicode.range "A" "Z" (N_of_ascii a))
             (Re.range "A" "Z"))
    by (intros c; destruct c as [[] [] [] [] [] [] [] []]; reflexivity).
  rewrite (existsb_ext_all (fun a => Unicode.range "a" "z" (N_of_ascii a))
             (Re.range "a" "z"))
    by (intros c; destruct c as [[] [] [] [] [] [] [] []]; reflexivity).
  rewrite (existsb_ext_all (fun a => Unicode.decimal other_decimal (N_of_ascii a))
             (Re.range "0" "9")).
  2:{ intros c. unfold Unicode.decimal.
      rewrite (Hlatin1 _ (code_below_256 c)), orb_false_r.
      destruct c as [[] [] [] [] [] [] [] []]; reflexivity. }
  rewrite (existsb_ext_all (fun a => Unicode.one_of "@$!%*?&" (N_of_ascii a))
             (Re.one_of "@$!%*?&"))
    by (intros c; destruct c as [[] [] [] [] [] [] [] []]; reflexivity).
  reflexivity.
Qed.

(** C8.  [validate_password] accepts a [str] exactly when it has at least
    8 characters, among them a letter [A-Z], a letter [a-z], a decimal
    digit in the sense of the class [\d] of [re] (['0'..'9'] or a decimal
    digit of another script) and one of the symbols [@$!%*?&]; it accepts
    ["Passw0rd!"] and rejects ["password"] and ["Short1!"].  A value that
    is not a [str] is never accepted, and on the strings of code points
    below 256 the embedding used by the handlers gives the same answer. *)
Theorem validate_password_policy (other_decimal : N -> bool) :
  (forall password : Unicode.text,
      Unicode.validate_password other_decimal password = true
      <-> Spec.text_policy (fun c => Unicode.decimal other_decimal c = true) password)
  /\ (forall c, Unicode.decimal other_decimal c = true
                <-> Spec.code_between "0" "9" c \/ other_decimal c = true)
  /\ Unicode.validate_password other_decimal (Unicode.of_string "Passw0rd!") = true
  /\ Unicode.validate_password other_decimal (Unicode.of_string "password") = false
  /\ Unicode.validate_password other_decimal (Unicode.of_string "Short1!") = false
  /\ (forall v : value, validate_password v = Ok true -> exists s, v = PStr s)
  /\ ((forall c, (c < 256)%N -> other_decimal c = false) ->
      forall s : string,
        validate_password (PStr s)
        = Ok (Unicode.validate_password other_decimal (Unicode.of_string s))).
Proof.
  split; [apply unicode_validate_password_policy |].
  split.
  { intros c. unfold Unicode.decimal.
    rewrite orb_true_iff, unicode_range_spec. reflexivity. }
  split.
  { apply unicode_validate_password_policy.
    unfold Spec.text_policy, Spec.text_has, Spec.code_between, Unicode.decimal.
    split; [cbn; lia |].
    split; [exists 80%N; split; [cbn; tauto | cbn; lia] |].
    split; [exists 97%N; split; [cbn; tauto | cbn; lia] |].
    split; [exists 48%N; split; [cbn; tauto | reflexivity] |].
    exists 33%N. split; cbn; tauto. }
  split; [reflexivity |]. split; [reflexivity |].
  split; [exact validate_password_only_str |].
  intros Hlatin1 s. now apply validate_password_latin1.
Qed.

(** C8, the claim as worded.  With "digit" read as one of ['0'..'9'], the
    claim has a password without such a digit rejected;
    [validate_password] accepts [Password], the fullwidth digit one
    (U+FF11) and [!], ten characters of which none is in ['0'..'9']. *)
Lemma validate_password_fullwidth_digit :
  Unicode.validate_password Example.other_decimal Example.fullwidth_password = true
  /\ ~ Spec.text_policy (Spec.code_between "0" "9") Example.fullwidth_password.
Proof.
  split; [reflexivity |].
  intros (_ & _ & _ & [c [Hin [Hlow Hhigh]]] & _).
  cbn in Hin.
  repeat destruct Hin as [<- | Hin]; try (cbn in Hlow, Hhigh; lia).
Qed.

(** *** The doctor listing *)

Lemma ceiling_div (n d : Z) :
  0 < d -> Spec.ceiling n d ((n + d - 1) / d).
Proof.
  intros Hd. unfold Spec.ceiling.
  pose proof (Z.div_mod (n + d - 1) d ltac:(lia)) as Hdiv.
  pose proof (Z.mod_pos_bound (n + d - 1) d Hd) as Hmod.
  nia.
Qed.

Lemma ceiling_unique (n d q q' : Z) :
  0 < d -> Spec.ceiling n d q -> Spec.ceiling n d q' -> q = q'.
Proof.
  unfold Spec.ceiling. intros Hd H H'. nia.
Qed.

(** *** What the driver encodes *)

Lemma bson_encode_int (z : Z) :
  Mongo.bson_encode (PInt z)
  = if (Mongo.int64_min <=? z) && (z <=? Mongo.int64_max) then Ok tt
    else Raise OverflowError.
Proof. reflexivity. Qed.

Lemma bson_encode_skip (skip : Z) :
  0 <= skip ->
  Mongo.bson_encode (PInt skip)
  = if skip <=? Mongo.int64_max then Ok tt else Raise OverflowError.
Proof.
  intros H. rewrite bson_encode_int.
  replace (Mongo.int64_min <=? skip) with true; [reflexivity |].
  symmetry. apply Z.leb_le. unfold Mongo.int64_min.
  change (- 2 ^ 63) with (-9223372036854775808). lia.
Qed.

(** What a write that went through has written. *)
Lemma insert_user_ok (doc : user_doc) (db db' : database) :
  insert_user doc db = Ok db' ->
  db' = {| users := users db ++ [doc];
           doctor_profiles := doctor_profiles db;
           patient_profiles := patient_profiles db;
           appointments := appointments db;
           email_unique_index := email_unique_index db |}
  /\ email_unique_index db
     && existsb (fun u => String.eqb (u_email u) (u_email doc)) (users db) = false.
Proof.
  unfold insert_user, rbind.
  destruct (Mongo.encode_fields _); [| discriminate].
  destruct (email_unique_index db && _); [discriminate |].
  intros H. injection H as <-. split; reflexivity.
Qed.

Lemma insert_doctor_profile_ok (doc : doctor_profile) (db db' : database) :
  insert_doctor_profile doc db = Ok db' ->
  db' = {| users := users db;
           doctor_profiles := doctor_profiles db ++ [doc];
           patient_profiles := patient_profiles db;
           appointments := appointments db;
           email_unique_index := email_unique_index db |}
  /\ Mongo.int64_min <= dp_years_experience doc <= Mongo.int64_max.
Proof.
  unfold insert_doctor_profile, rbind. cbn [Mongo.encode_fields]. unfold rbind.
  destruct (Mongo.bson_encode (dp_medical_license doc)); [| discriminate].
  destruct (Mongo.bson_encode (dp_specialty doc)); [| discriminate].
  rewrite bson_encode_int.
  destruct ((Mongo.int64_min <=? dp_years_experience doc)
            && (dp_years_experience doc <=? Mongo.int64_max)) eqn:Hfits;
    [| discriminate].
  intros H. injection H as <-. split; [reflexivity |].
  apply andb_true_iff in Hfits as [H1 H2]. apply Z.leb_le in H1, H2. lia.
Qed.

Lemma insert_patient_profile_ok (doc : patient_profile) (db db' : database) :
  insert_patient_profile doc db = Ok db' ->
  db' = {| users := users db;
           doctor_profiles := doctor_profiles db;
           patient_profiles := patient_profiles db ++ [doc];
           appointments := appointments db;
           email_unique_index := email_unique_index db |}.
Proof.
  unfold insert_patient_profile, rbind.
  destruct (Mongo.encode_fields _); [| discriminate].
  intros H. now injection H as <-.
Qed.

Lemma insert_appointment_ok (doc : appointment) (db db' : database) :
  insert_appointment doc db = Ok db' ->
  db' = {| users := users db;
           doctor_profiles := doctor_profiles db;
           patient_profiles := patient_profiles db;
           appointments := appointments db ++ [doc];
           email_unique_index := email_unique_index db |}.
Proof.
  unfold insert_appointment, rbind.
  destruct (Mongo.encode_fields _); [| discriminate].
  intros H. now injection H as <-.
Qed.

(** A duration and a consultation type that pass the checks of
    [book_appointment] are a number 15, 30, 45 or 60 and a string: the
    driver encodes them. *)
Lemma encode_valid_booking (duration consultation_type symptoms notes : value) :
  existsb (int_eq duration) [15; 30; 45; 60] = true ->
  existsb (str_eq consultation_type) ["video"; "audio"; "chat"] = true ->
  Mongo.encode_fields [duration; consultation_type; symptoms; notes]
  = Mongo.encode_fields [symptoms; notes].
Proof.
  intros Hd Ht.
  assert (Hduration : Mongo.bson_encode duration = Ok tt).
  { destruct duration; try reflexivity; cbn [existsb int_eq] in Hd.
    - rewrite !orb_true_iff, !Z.eqb_eq in Hd.
      destruct Hd as [-> | [-> | [-> | [-> | H]]]]; try reflexivity.
      discriminate H.
    - discriminate Hd.
    - discriminate Hd. }
  assert (Htype : Mongo.bson_encode consultation_type = Ok tt).
  { destruct consultation_type; try reflexivity; discriminate Ht. }
  cbn [Mongo.encode_fields]. rewrite Hduration, Htype. reflexivity.
Qed.

(** The response of [get_available_doctors] once the arguments are read and
    the store has run the pipeline. *)
Lemma get_available_doctors_ok (lib : Lib) (now : datetime)
  (args : list (string * string)) (db : database) (page limit : Z)
  (rows : list doctor_summary) :
  int_arg lib args "page" 1 = Ok page ->
  int_arg lib args "limit" 10 = Ok limit ->
  1 <= page -> 1 <= limit <= 50 ->
  (page - 1) * limit <= Mongo.int64_max ->
  doctor_rows lib now (lookup "specialty" args) (lookup "location" args) db = Ok rows ->
  get_available_doctors lib now args db
  = ({| status := 200;
        payload :=
          DoctorList
            (firstn (Z.to_nat limit) (skipn (Z.to_nat ((page - 1) * limit)) rows))
            {| current_page := page;
               total_pages := (Z.of_nat (List.length rows) + limit - 1) / limit;
               total_doctors := Z.of_nat (List.length rows);
               has_next := page <? (Z.of_nat (List.length rows) + limit - 1) / limit |} |},
     db).
Proof.
  intros Hpage Hlimit Hp Hl Hskip Hrows.
  unfold get_available_doctors, handler, bind, eval, read, reply.
  rewrite Hpage, Hlimit.
  replace ((page <? 1) || (limit <? 1) || (limit >? 50)) with false
    by (symmetry; rewrite !orb_false_iff, !Z.ltb_ge, Z.gtb_ltb, Z.ltb_ge; lia).
  rewrite bson_encode_skip by nia.
  replace ((page - 1) * limit <=? Mongo.int64_max) with true
    by (symmetry; now apply Z.leb_le).
  rewrite Hrows.
  destruct rows; reflexivity.
Qed.

(** A [$skip] beyond 8 bytes: the driver raises before the store is asked. *)
Lemma get_available_doctors_overflow (lib : Lib) (now : datetime)
  (args : list (string * string)) (db : database) (page limit : Z) :
  int_arg lib args "page" 1 = Ok page ->
  int_arg lib args "limit" 10 = Ok limit ->
  1 <= page -> 1 <= limit <= 50 ->
  Mongo.int64_max < (page - 1) * limit ->
  get_available_doctors lib now args db
  = ({| status := 500;
        payload := Failure "Failed to retrieve doctors: " OverflowError |}, db).
Proof.
  intros Hpage Hlimit Hp Hl Hskip.
  unfold get_available_doctors, handler, bind, eval, read, reply.
  rewrite Hpage, Hlimit.
  replace ((page <? 1) || (limit <? 1) || (limit >? 50)) with false
    by (symmetry; rewrite !orb_false_iff, !Z.ltb_ge, Z.gtb_ltb, Z.ltb_ge; lia).
  rewrite bson_encode_skip by nia.
  replace ((page - 1) * limit <=? Mongo.int64_max) with false
    by (symmetry; now apply Z.leb_gt).
  reflexivity.
Qed.

(** *** The pipeline of the listing runs *)

Lemma joined_account (db : database) (row : user_doc * doctor_profile) :
  In row (joined db) -> In (fst row) (users db).
Proof.
  unfold joined. intros H. apply in_flat_map in H as (u & Hu & Hrow).
  apply filter_In in Hu as [Hu _].
  apply in_map_iff in Hrow as (p & <- & _). exact Hu.
Qed.

Lemma location_stage_incl (location : option string)
  (rows : list (user_doc * doctor_profile)) (row : user_doc * doctor_profile) :
  In row (location_stage location rows) -> In row rows.
Proof.
  unfold location_stage. destruct location as [place |]; trivial.
  destruct (truthy (PStr place)); trivial.
  intros H. now apply filter_In in H.
Qed.

Lemma project_all_total (now : datetime) (rows : list (user_doc * doctor_profile)) :
  (forall row, In row rows ->
               (exists s, u_first_name (fst row) = PStr s)
               /\ (exists s, u_last_name (fst row) = PStr s)) ->
  exists summaries, project_all now rows = Ok summaries.
Proof.
  induction rows as [| row rest IH]; intros Hnames.
  - now exists [].
  - destruct (Hnames row (or_introl eq_refl)) as [[first Hfirst] [last Hlast]].
    destruct IH as [summaries Hrest].
    { intros row' Hin. apply Hnames. now right. }
    cbn [project_all]. unfold project. rewrite Hfirst, Hlast.
    cbn [Mongo.concat rbind]. rewrite Hrest. cbn [rbind]. eauto.
Qed.

(** On a store whose accounts have strings for names, and with a pattern
    that the store accepts, the pipeline returns its rows. *)
Lemma doctor_rows_total (lib : Lib) (now : datetime)
  (args : list (string * string)) (db : database) :
  Spec.names_are_strings db ->
  Spec.specialty_accepted lib args ->
  exists rows,
    doctor_rows lib now (lookup "specialty" args) (lookup "location" args) db = Ok rows.
Proof.
  intros Hnames Hspecialty. unfold doctor_rows.
  assert (Hstage : exists keep, specialty_stage lib (lookup "specialty" args) = Ok keep).
  { unfold Spec.specialty_accepted in Hspecialty. unfold specialty_stage.
    destruct (lookup "specialty" args) as [pattern |]; [| eauto].
    destruct Hspecialty as [-> | [r Hr]]; [cbn; eauto |].
    rewrite Hr. destruct (truthy (PStr pattern)); eauto. }
  destruct Hstage as [keep ->]. cbn [rbind].
  apply project_all_total. intros row Hin.
  apply location_stage_incl in Hin. apply filter_In in Hin as [Hin _].
  apply Hnames. now apply joined_account.
Qed.

(** C6.  For arguments [page >= 1] and [limit] in [1..50] whose skip
    [(page-1)*limit] fits the 8 bytes of an integer of the store, and on a
    store that runs the pipeline (as it does when the names of the accounts
    are strings and the pattern given as [specialty] is one it accepts),
    the listing answers 200 with the rows after the first [(page-1)*limit],
    at most [limit] of them, [total_pages] the ceiling of [total_doctors /
    limit] and [has_next = (page < total_pages)]; 23 rows with limit 10
    make 3 pages, with a next page after pages 1 and 2 and none after
    page 3. *)
Theorem doctor_listing_pagination (lib : Lib) (now : datetime)
  (args : list (string * string)) (db : database) (page limit : Z) :
  int_arg lib args "page" 1 = Ok page ->
  int_arg lib args "limit" 10 = Ok limit ->
  1 <= page -> 1 <= limit <= 50 ->
  (page - 1) * limit <= Mongo.int64_max ->
  (Spec.names_are_strings db -> Spec.specialty_accepted lib args ->
   exists rows,
     doctor_rows lib now (lookup "specialty" args) (lookup "location" args) db
     = Ok rows)
  /\ forall rows : list doctor_summary,
      doctor_rows lib now (lookup "specialty" args) (lookup "location" args) db
      = Ok rows ->
      exists pages : Z,
        get_available_doctors lib now args db
        = ({| status := 200;
              payload :=
                DoctorList
                  (firstn (Z.to_nat limit) (skipn (Z.to_nat ((page - 1) * limit)) rows))
                  {| current_page := page;
                     total_pages := pages;
                     total_doctors := Z.of_nat (List.length rows);
                     has_next := page <? pages |} |},
           db)
        /\ Spec.ceiling (Z.of_nat (List.length rows)) limit pages
        /\ (Z.of_nat (List.length rows) = 23 -> limit = 10 ->
            pages = 3
            /\ (page = 1 -> (page <? pages) = true)
            /\ (page = 2 -> (page <? pages) = true)
            /\ (page = 3 -> (page <? pages) = false)).
Proof.
  intros Hpage Hlimit Hp Hl Hskip.
  split; [apply doctor_rows_total |].
  intros rows Hrows.
  exists ((Z.of_nat (List.length rows) + limit - 1) / limit).
  split; [now apply get_available_doctors_ok |].
  split; [apply ceiling_div; lia |].
  intros H23 H10. rewrite H23, H10.
  change ((23 + 10 - 1) / 10) with 3.
  repeat split; intros ->; reflexivity.
Qed.

(** C9.  For a valid [limit] and a [page] beyond the last page whose skip
    [(page-1)*limit] fits the 8 bytes of an integer of the store, and on a
    store that runs the pipeline, the listing answers 200 with no doctor
    and [has_next = false]. *)
Theorem doctor_listing_beyond_last_page (lib : Lib) (now : datetime)
  (args : list (string * string)) (db : database) (page limit : Z) :
  int_arg lib args "page" 1 = Ok page ->
  int_arg lib args "limit" 10 = Ok limit ->
  1 <= limit <= 50 ->
  (page - 1) * limit <= Mongo.int64_max ->
  (Spec.names_are_strings db -> Spec.specialty_accepted lib args ->
   exists rows,
     doctor_rows lib now (lookup "specialty" args) (lookup "location" args) db
     = Ok rows)
  /\ forall rows : list doctor_summary,
      doctor_rows lib now (lookup "specialty" args) (lookup "location" args) db
      = Ok rows ->
      forall pages : Z,
        Spec.ceiling (Z.of_nat (List.length rows)) limit pages ->
        pages < page ->
        get_available_doctors lib now args db
        = ({| status := 200;
              payload :=
                DoctorList []
                  {| current_page := page;
                     total_pages := pages;
                     total_doctors := Z.of_nat (List.length rows);
                     has_next := false |} |},
           db).
Proof.
  intros Hpage Hlimit Hl Hskip.
  split; [apply doctor_rows_total |].
  intros rows Hrows pages Hceil Hbeyond.
  assert (Hpages : pages = (Z.of_nat (List.length rows) + limit - 1) / limit).
  { apply (ceiling_unique (Z.of_nat (List.length rows)) limit); trivial; try lia.
    apply ceiling_div; lia. }
  assert (H0 : 0 <= pages) by (unfold Spec.ceiling in Hceil; nia).
  rewrite (get_available_doctors_ok lib now args db page limit rows); trivial; try lia.
  rewrite <- Hpages.
  replace (page <? pages) with false by (symmetry; apply Z.ltb_ge; lia).
  rewrite skipn_all2; [now rewrite firstn_nil |].
  unfold Spec.ceiling in Hceil. apply Nat2Z.inj_le.
  rewrite Z2Nat.id by nia. nia.
Qed.

(** C6, the claim as worded.  The claim has every page from 1 with a limit
    in [1..50] answered with the page; [get_available_doctors] answers 500
    to the page [2^64], whose skip the driver cannot encode, to the pattern
    [(], which the store refuses, and to page 1 of a store in which a doctor
    has registered with the number 5 as first name. *)
Lemma doctor_listing_pagination_fails :
  let failure e :=
    {| status := 500; payload := Failure "Failed to retrieve doctors: " e |} in
  fst (get_available_doctors Example.lib Example.now
         [("page", "18446744073709551616"); ("limit", "10")] Example.hospital)
  = failure OverflowError
  /\ fst (get_available_doctors Example.lib Example.now
            [("specialty", "("); ("page", "1"); ("limit", "10")] Example.hospital)
     = failure OperationFailure
  /\ status (fst (register Example.lib Example.now 7 Example.numbered_doctor
                    (Example.clinic [] true))) = 201
  /\ fst (get_available_doctors Example.lib Example.now
            [("page", "1"); ("limit", "10")]
            (snd (register Example.lib Example.now 7 Example.numbered_doctor
                    (Example.clinic [] true))))
     = failure OperationFailure.
Proof.
  repeat split; vm_compute; reflexivity.
Qed.

(** C9, the claim as worded.  The claim has every page beyond the last
    answered 200 with an empty list; on a store of 23 doctors, three pages
    of 10, [get_available_doctors] answers 500 to the page [2^64], whose
    skip the driver cannot encode, and to page 4 with the pattern [(],
    which the store refuses. *)
Lemma doctor_listing_beyond_last_page_fails :
  let failure e :=
    {| status := 500; payload := Failure "Failed to retrieve doctors: " e |} in
  fst (get_available_doctors Example.lib Example.now
         [("page", "18446744073709551616"); ("limit", "10")] Example.hospital)
  = failure OverflowError
  /\ fst (get_available_doctors Example.lib Example.now
            [("specialty", "("); ("page", "4"); ("limit", "10")] Example.hospital)
     = failure OperationFailure.
Proof.
  repeat split; vm_compute; reflexivity.
Qed.

(** *** Running a handler body *)

Lemma check_required_present (d : list (string * value)) (fields : list string)
  (db : database) :
  Forall (Spec.present d) fields ->
  check_required (PDict d) fields db = (Next tt, db).
Proof.
  induction 1 as [| field rest [v [Hv Ht]] _ IH]; [reflexivity |].
  cbn [check_required]. unfold bind, eval, ret, contains, getitem.
  rewrite Hv. cbn [negb]. rewrite Ht. cbn [negb]. exact IH.
Qed.

Lemma check_required_missing (d : list (string * value))
  (before : list string) (field : string) (after : list string) (db : database) :
  Forall (Spec.present d) before ->
  ~ Spec.present d field ->
  check_required (PDict d) (before ++ field :: after) db
  = (Return (error 400 ("Missing required field: " ++ field)), db).
Proof.
  intros Hbefore Hfield.
  induction Hbefore as [| f rest [v [Hv Ht]] _ IH].
  - cbn [app check_required]. unfold bind, eval, ret, reply, contains, getitem.
    destruct (lookup field d) as [v |] eqn:Hv; cbn [negb]; [| reflexivity].
    destruct (truthy v) eqn:Ht; cbn [negb]; [| reflexivity].
    exfalso. apply Hfield. now exists v.
  - cbn [app check_required]. unfold bind, eval, ret, contains, getitem.
    rewrite Hv. cbn [negb]. rewrite Ht. cbn [negb]. exact IH.
Qed.

Lemma present_getitem (d : list (string * value)) (field : string) :
  Spec.present d field ->
  exists v, getitem (PDict d) field = Ok v /\ lookup field d = Some v /\ truthy v = true.
Proof.
  intros [v [Hv Ht]]. exists v. unfold getitem. rewrite Hv. auto.
Qed.

(** The role gate lets a patient through to the body. *)
Lemma role_required_patient (lib : Lib) (f : database -> response * database)
  (identity : string) (db : database) :
  Spec.patient lib db identity ->
  role_required lib "patient" f identity db = f db.
Proof.
  intros (user_id & user & Hid & Hfind & Hrole).
  unfold role_required, ObjectId. rewrite Hid, Hfind, Hrole. reflexivity.
Qed.

Ltac run_body :=
  unfold book_appointment_body, handler, bind, eval, read, reply, ret,
    try_except, write.

Ltac next H := rewrite H; cbv beta iota zeta delta [negb].

(** Case analysis on what a handler body tests, innermost test first. *)
Ltac chase H :=
  repeat (cbv beta iota zeta in H;
          match type of H with
          | context [match ?x with _ => _ end] =>
              lazymatch x with
              | context [match _ with _ => _ end] => fail
              | _ => destruct x
              end
          end).

(** *** The order of the checks of a booking *)

(** C5.  For a caller who is a patient and a body that is a JSON object,
    [book_appointment] answers with the error of the first check that
    fails, in the order: required fields, doctor identifier, doctor found,
    date read, date in the future, duration, consultation type.  A start
    that is not in the future is refused whatever the duration and the
    consultation type are, once the earlier checks pass. *)
Theorem booking_validation_order (lib : Lib) (now : datetime)
  (appointment_id room_id : oid) (identity : string)
  (d : list (string * value)) (db : database) :
  Spec.patient lib db identity ->
  let run := book_appointment lib now appointment_id room_id identity (PDict d) db in
  (forall before field after,
      ["doctor_id"; "appointment_date"; "duration"; "consultation_type"]
      = (before ++ field :: after)%list ->
      Forall (Spec.present d) before ->
      ~ Spec.present d field ->
      run = (error 400 ("Missing required field: " ++ field), db))
  /\ (Forall (Spec.present d)
        ["doctor_id"; "appointment_date"; "duration"; "consultation_type"] ->
      (forall e,
          rbind (getitem (PDict d) "doctor_id") (ObjectId lib) = Raise e ->
          run = (error 400 "Invalid doctor ID format", db))
      /\ forall doctor_id,
          rbind (getitem (PDict d) "doctor_id") (ObjectId lib) = Ok doctor_id ->
          (find_doctor doctor_id db = None ->
           run = (error 404 "Doctor not found or inactive", db))
          /\ forall doctor,
              find_doctor doctor_id db = Some doctor ->
              (forall e,
                  parse_appointment_date lib (PDict d) = Raise e ->
                  run = (error 400 "Invalid appointment date format. Use ISO 8601 (e.g., 2025-07-25T14:00:00Z)", db))
              /\ forall t,
                  parse_appointment_date lib (PDict d) = Ok t ->
                  (t <= now ->
                   run = (error 400 "Appointment must be scheduled for future date", db))
                  /\ (now < t ->
                      forall duration,
                        lookup "duration" d = Some duration ->
                        (existsb (int_eq duration) [15; 30; 45; 60] = false ->
                         run = (error 400 "Invalid duration. Must be 15, 30, 45, or 60 minutes", db))
                        /\ (existsb (int_eq duration) [15; 30; 45; 60] = true ->
                            forall consultation_type,
                              lookup "consultation_type" d = Some consultation_type ->
                              existsb (str_eq consultation_type) ["video"; "audio"; "chat"] = false ->
                              run = (error 400 "Invalid consultation type", db)))).
Proof.
  intros Hpatient run. subst run.
  unfold book_appointment. rewrite role_required_patient by assumption.
  split.
  - intros before field after Hfields Hbefore Hfield.
    run_body. rewrite Hfields.
    next (check_required_missing d before field after db Hbefore Hfield).
    reflexivity.
  - intros Hreq. run_body.
    next (check_required_present d _ db Hreq).
    split; [intros e He; next He; reflexivity |].
    intros doctor_id Hid. next Hid.
    split; [intros Hnone; next Hnone; reflexivity |].
    intros doctor Hdoctor. next Hdoctor.
    split; [intros e He; next He; reflexivity |].
    intros t Ht. next Ht.
    split.
    { intros Hpast.
      replace (t <=? now) with true by (symmetry; apply Z.leb_le; lia).
      reflexivity. }
    intros Hfuture.
    replace (t <=? now) with false by (symmetry; apply Z.leb_gt; lia).
    cbv beta iota zeta.
    intros duration Hduration.
    assert (Hget : getitem (PDict d) "duration" = Ok duration)
      by (unfold getitem; now rewrite Hduration).
    next Hget.
    split; [intros Hbad; next Hbad; reflexivity |].
    intros Hgood consultation_type Htype Hbad. next Hgood.
    assert (Hget' : getitem (PDict d) "consultation_type" = Ok consultation_type)
      by (unfold getitem; now rewrite Htype).
    next Hget'. next Hbad. reflexivity.
Qed.

(** C7.  Once the checks before it pass, the booking is refused as not in
    the future exactly when the start read from the request is not after
    the current time; a start equal to the current time is refused. *)
Theorem booking_start_strictly_future (lib : Lib) (now : datetime)
  (appointment_id room_id : oid) (identity : string)
  (d : list (string * value)) (db : database) (doctor_id : oid)
  (doctor : user_doc) (t : datetime) :
  Spec.patient lib db identity ->
  Forall (Spec.present d)
    ["doctor_id"; "appointment_date"; "duration"; "consultation_type"] ->
  rbind (getitem (PDict d) "doctor_id") (ObjectId lib) = Ok doctor_id ->
  find_doctor doctor_id db = Some doctor ->
  parse_appointment_date lib (PDict d) = Ok t ->
  let run := book_appointment lib now appointment_id room_id identity (PDict d) db in
  let refused := (error 400 "Appointment must be scheduled for future date", db) in
  (run = refused <-> t <= now) /\ (t = now -> run = refused).
Proof.
  intros Hpatient Hreq Hid Hdoctor Ht run refused. subst run refused.
  unfold book_appointment. rewrite role_required_patient by assumption.
  run_body.
  next (check_required_present d _ db Hreq).
  next Hid. next Hdoctor. next Ht.
  destruct (t <=? now) eqn:Hcmp.
  - apply Z.leb_le in Hcmp. repeat split; trivial.
  - apply Z.leb_gt in Hcmp. split; [| intros ->; lia].
    split; [| lia]. intros Hrun. exfalso.
    chase Hrun; discriminate Hrun.
Qed.

(** *** The conflict check *)

Lemma date_leb (x y : Z) :
  Mongo.bson_leb (Mongo.BDate x) (Mongo.BDate y) = (x <=? y).
Proof.
  unfold Mongo.bson_leb, Mongo.bson_ltb, Mongo.bson_eqb.
  destruct (Z.ltb_spec x y), (Z.eqb_spec x y), (Z.leb_spec x y);
    try reflexivity; lia.
Qed.

(** What the filter of [book_appointment] asks of one appointment. *)
Lemma conflict_filter_matches (a : appointment) (doctor_id : oid)
  (start finish : datetime) :
  Mongo.matches (appointment_document a) (conflict_filter doctor_id start finish)
  = N.eqb (a_doctor_id a) doctor_id
    && (negb (String.eqb (a_status a) "cancelled" || String.eqb (a_status a) "no_show")
        && (((a_appointment_date a <=? start) && (start <? a_end_time a))
            || ((a_appointment_date a <? finish) && (finish <=? a_end_time a))
            || (a_appointment_date a <? finish))).
Proof.
  unfold conflict_filter, dict_display.
  cbn [fold_left store_item fst snd String.eqb Ascii.eqb Bool.eqb].
  unfold Mongo.matches, Mongo.all_hold.
  cbn [forallb existsb fst snd Mongo.holds].
  unfold appointment_document. cbn [String.eqb Ascii.eqb Bool.eqb].
  rewrite !date_leb. cbn [Mongo.bson_eqb Mongo.bson_ltb].
  rewrite !orb_false_r, !andb_true_r, orb_assoc. reflexivity.
Qed.

(** The filter holds of an appointment that counts for the doctor and
    starts before the proposed end, wherever it ends. *)
Lemma conflict_filter_true (a : appointment) (doctor_id : oid)
  (start finish : datetime) :
  start < finish ->
  Mongo.matches (appointment_document a) (conflict_filter doctor_id start finish) = true
  <-> Spec.blocking doctor_id a /\ a_appointment_date a < finish.
Proof.
  intros Hlt. rewrite conflict_filter_matches. unfold Spec.blocking.
  rewrite !andb_true_iff, negb_true_iff, orb_false_iff, !orb_true_iff,
    !andb_true_iff, N.eqb_eq, !String.eqb_neq, !Z.leb_le, !Z.ltb_lt.
  intuition lia.
Qed.

Lemma find_conflict_some (doctor_id : oid) (start finish : datetime)
  (db : database) :
  start < finish ->
  (exists found, find_conflict doctor_id start finish db = Some found)
  <-> exists a, In a (appointments db)
                /\ Spec.blocking doctor_id a /\ a_appointment_date a < finish.
Proof.
  intros Hlt. unfold find_conflict. split.
  - intros [found Hfound]. apply find_some in Hfound as [Hin Hm].
    exists found. split; [assumption |]. now apply conflict_filter_true in Hm.
  - intros (a & Hin & Ha).
    destruct (find _ (appointments db)) as [found |] eqn:Hfind; [now exists found |].
    exfalso. pose proof (find_none _ _ Hfind a Hin) as Hno.
    apply (conflict_filter_true a doctor_id start finish Hlt) in Ha. congruence.
Qed.

Lemma timedelta_of_duration (duration : value) (minutes : Z) :
  int_eq duration minutes = true ->
  timedelta_minutes duration = Ok (minutes * 60000000).
Proof.
  destruct duration; try discriminate; cbn [int_eq timedelta_minutes].
  - intros H. apply Z.eqb_eq in H. now subst.
  - intros H. apply Z.eqb_eq in H. now subst.
  - unfold float_eq_int, float_trunc, rbind.
    destruct (float_parts f) as [[m e] |]; [| discriminate].
    destruct (0 <=? e).
    + intros H. apply Z.eqb_eq in H. now subst.
    + intros H. apply andb_true_iff in H as [_ H]. apply Z.eqb_eq in H. now subst.
Qed.

(** A request that passes the checks is answered 409 exactly when the
    store holds an appointment that counts for the doctor and starts before
    the proposed end. *)
Lemma book_appointment_conflict (lib : Lib) (now : datetime)
  (appointment_id room_id : oid) (identity : string)
  (d : list (string * value)) (db : database) (doctor_id : oid)
  (t : datetime) (minutes : Z) :
  Spec.passes_checks lib now identity d db doctor_id t minutes ->
  book_appointment lib now appointment_id room_id identity (PDict d) db
  = (error 409 "Time slot no longer available", db)
  <-> exists a, In a (appointments db)
                /\ Spec.blocking doctor_id a
                /\ a_appointment_date a < t + minutes * 60000000.
Proof.
  intros (Hpatient & Hreq & Hid & [doctor Hdoctor] & Ht & Hfuture
          & (duration & Hduration & Hminutes & Heq)
          & (consultation_type & Htype & Hvalid) & Hmax).
  assert (Hpos : t < t + minutes * 60000000)
    by (cbn [In] in Hminutes; lia).
  rewrite <- (find_conflict_some doctor_id t _ db Hpos).
  unfold book_appointment. rewrite role_required_patient by assumption.
  run_body.
  next (check_required_present d _ db Hreq).
  next Hid. next Hdoctor. next Ht.
  replace (t <=? now) with false by (symmetry; apply Z.leb_gt; lia).
  cbv beta iota zeta.
  assert (Hget : getitem (PDict d) "duration" = Ok duration)
    by (unfold getitem; now rewrite Hduration).
  next Hget.
  assert (Hin : existsb (int_eq duration) [15; 30; 45; 60] = true)
    by (apply existsb_exists; now exists minutes).
  next Hin.
  assert (Hget' : getitem (PDict d) "consultation_type" = Ok consultation_type)
    by (unfold getitem; now rewrite Htype).
  next Hget'. next Hvalid.
  rewrite (timedelta_of_duration duration minutes Heq).
  unfold rbind, datetime_add.
  replace (t + minutes * 60000000 >? datetime_max) with false
    by (symmetry; rewrite Z.gtb_ltb; apply Z.ltb_ge; lia).
  cbv beta iota zeta delta [negb].
  destruct (find_conflict doctor_id t (t + minutes * 60000000) db) as [found |].
  - split; [intros _; now exists found | reflexivity].
  - split; [| intros [found Hfound]; discriminate].
    intros Hrun. exfalso. chase Hrun; discriminate Hrun.
Qed.

(** C1.  An appointment of the doctor that is not cancelled and ends
    exactly where the proposed interval starts does not overlap it, and the
    claim has the booking succeed; [book_appointment] answers 409. *)
Theorem back_to_back_booking_refused (lib : Lib) (now : datetime)
  (appointment_id room_id : oid) (identity : string)
  (d : list (string * value)) (db : database) (doctor_id : oid)
  (t : datetime) (minutes : Z) (a : appointment) :
  Spec.passes_checks lib now identity d db doctor_id t minutes ->
  In a (appointments db) ->
  Spec.blocking doctor_id a ->
  a_appointment_date a < a_end_time a ->
  a_end_time a = t ->
  ~ Spec.overlap (a_appointment_date a) (a_end_time a) t (t + minutes * 60000000)
  /\ book_appointment lib now appointment_id room_id identity (PDict d) db
     = (error 409 "Time slot no longer available", db).
Proof.
  intros Hchecks Hin Hblocking Hlength Hend. split.
  - unfold Spec.overlap. lia.
  - apply (book_appointment_conflict lib now appointment_id room_id identity
             d db doctor_id t minutes Hchecks).
    exists a. repeat split; try apply Hblocking; trivial.
    destruct Hchecks as (_ & _ & _ & _ & _ & _ & (_ & _ & Hminutes & _) & _).
    cbn [In] in Hminutes. lia.
Qed.

(** C2.  The claim has 409 only when an appointment that counts overlaps
    the proposed interval; [book_appointment] also answers 409 for an
    appointment of the doctor that was over before the proposed start. *)
Theorem booking_refused_without_overlap (lib : Lib) (now : datetime)
  (appointment_id room_id : oid) (identity : string)
  (d : list (string * value)) (db : database) (doctor_id : oid)
  (t : datetime) (minutes : Z) (a : appointment) :
  Spec.passes_checks lib now identity d db doctor_id t minutes ->
  In a (appointments db) ->
  Spec.blocking doctor_id a ->
  a_appointment_date a < a_end_time a ->
  a_end_time a <= t ->
  (forall b, In b (appointments db) ->
             ~ Spec.overlap (a_appointment_date b) (a_end_time b)
                 t (t + minutes * 60000000)) ->
  book_appointment lib now appointment_id room_id identity (PDict d) db
  = (error 409 "Time slot no longer available", db).
Proof.
  intros Hchecks Hin Hblocking Hlength Hend _.
  apply (book_appointment_conflict lib now appointment_id room_id identity
           d db doctor_id t minutes Hchecks).
  exists a. repeat split; try apply Hblocking; trivial.
  destruct Hchecks as (_ & _ & _ & _ & _ & _ & (_ & _ & Hminutes & _) & _).
  cbn [In] in Hminutes. lia.
Qed.

(** *** Registration *)

(** The loop over the required fields writes nothing; it goes on, or
    answers 400, or raises. *)
Lemma check_required_outcome (data : value) (fields : list string) (db : database) :
  exists o,
    check_required data fields db = (o, db)
    /\ (o = Next tt
        \/ (exists field, o = Return (error 400 ("Missing required field: " ++ field)))
        \/ (exists e, o = Raised e)).
Proof.
  induction fields as [| field rest IH].
  - exists (Next tt). split; [reflexivity | now left].
  - cbn [check_required]. unfold bind, eval, ret, reply.
    destruct (contains data field) as [present | e].
    + destruct present; cbn [negb].
      * destruct (getitem data field) as [v | e].
        -- destruct (truthy v); cbn [negb]; [exact IH |].
           eexists. split; [reflexivity |]. right. left. now exists field.
        -- eexists. split; [reflexivity |]. right. right. now exists e.
      * eexists. split; [reflexivity |]. right. left. now exists field.
    + eexists. split; [reflexivity |]. right. right. now exists e.
Qed.

Ltac run_register :=
  unfold register, handler, bind, eval, read, reply, ret, write.

(** Case analysis on the tests of a handler body in the goal. *)
Ltac chase_goal :=
  repeat (cbv beta iota zeta;
          match goal with
          | |- context [match ?x with _ => _ end] =>
              lazymatch x with
              | context [match _ with _ => _ end] => fail
              | _ => destruct x eqn:?
              end
          end).

(** What the answer 201 of [register] to a doctor tells. *)
Lemma register_doctor_201 (lib : Lib) (now : datetime)
  (user_id : oid) (d : list (string * value)) (db db' : database) (r : response) :
  register lib now user_id (PDict d) db = (r, db') ->
  status r = 201 ->
  lookup "user_type" d = Some (PStr "doctor") ->
  exists account profile,
    users db' = (users db ++ [account])%list
    /\ u_id account = user_id
    /\ u_role account = PStr "doctor"
    /\ doctor_profiles db' = (doctor_profiles db ++ [profile])%list
    /\ dp_user_id profile = user_id
    /\ dp_rating profile = 5%float
    /\ dp_medical_license profile = Spec.field_or d "medical_license" (PStr "")
    /\ dp_specialty profile = Spec.field_or d "specialty" (PStr "")
    /\ float_ lib (Spec.field_or d "consultation_fee" (PFloat 150))
       = Ok (dp_consultation_fee profile)
    /\ int_ lib (Spec.field_or d "years_experience" (PInt 0))
       = Ok (dp_years_experience profile)
    /\ Mongo.int64_min <= dp_years_experience profile <= Mongo.int64_max
    /\ patient_profiles db' = patient_profiles db
    /\ appointments db' = appointments db.
Proof.
  intros Hrun H201 Htype. revert Hrun. run_register.
  destruct (check_required_outcome (PDict d)
              ["email"; "password"; "user_type"; "first_name"; "last_name"] db)
    as (o & -> & [-> | [[field ->] | [e ->]]]);
    [| intros Hrun; injection Hrun as <- <-; discriminate H201
     | intros Hrun; injection Hrun as <- <-; discriminate H201].
  unfold getitem, get, rbind, Spec.field_or. rewrite Htype.
  cbn [existsb str_eq String.eqb Ascii.eqb Bool.eqb orb negb].
  chase_goal; intros Hrun; injection Hrun as <- <-; try discriminate H201.
  all: repeat match goal with
         | H : insert_user _ _ = Ok _ |- _ =>
             apply insert_user_ok in H; destruct H as [-> _]
         | H : insert_doctor_profile _ _ = Ok _ |- _ =>
             apply insert_doctor_profile_ok in H; destruct H as [-> ?]
         end.
  all: eexists; eexists; cbn [users doctor_profiles patient_profiles appointments];
    repeat match goal with |- _ /\ _ => split end;
    try reflexivity; try assumption;
    match goal with H : _ <= _ <= _ |- _ => apply H end.
Qed.

(** C10.  The claim has every doctor account that a registration creates
    get a doctor profile.  A doctor's registration whose [consultation_fee]
    is [null], and one whose [years_experience] is [2^64], is answered 500
    after the account was written and before a profile is: the store keeps
    a doctor account, and no profile was written for it. *)
Theorem doctor_account_without_profile (lib : Lib) (now : datetime) (user_id : oid) :
  let db := Example.clinic [] true in
  let run extra :=
    register lib now user_id
      (Example.registration "alice@example.com" "doctor" extra) db in
  let left_behind e (result : response * database) :=
    fst result = {| status := 500; payload := Failure "Registration failed: " e |}
    /\ exists account,
        u_id account = user_id
        /\ u_role account = PStr "doctor"
        /\ snd result
           = {| users := users db ++ [account];
                doctor_profiles := doctor_profiles db;
                patient_profiles := patient_profiles db;
                appointments := appointments db;
                email_unique_index := email_unique_index db |} in
  left_behind TypeError (run [("consultation_fee", PNone)])
  /\ left_behind OverflowError (run [("years_experience", PInt (2 ^ 64))]).
Proof.
  split; (split; [vm_compute; reflexivity |]);
    eexists; (split; [| split]); [| | vm_compute; reflexivity | | | vm_compute; reflexivity];
    reflexivity.
Qed.

(** C3.  The claim has every failure of [register] leave the store as it
    was.  A doctor's registration whose [consultation_fee] is [null] is
    answered 500 after the account was written: the store keeps an account
    without a profile. *)
Theorem register_failure_keeps_account (lib : Lib) (now : datetime) (user_id : oid) :
  let db := Example.clinic [] true in
  let request :=
    Example.registration "alice@example.com" "doctor" [("consultation_fee", PNone)] in
  exists account,
    register lib now user_id request db
    = ({| status := 500; payload := Failure "Registration failed: " TypeError |},
       {| users := users db ++ [account];
          doctor_profiles := doctor_profiles db;
          patient_profiles := patient_profiles db;
          appointments := appointments db;
          email_unique_index := email_unique_index db |})
    /\ u_id account = user_id
    /\ u_email account = "alice@example.com"
    /\ u_role account = PStr "doctor"
    /\ documents (snd (register lib now user_id request db)) = S (documents db).
Proof.
  eexists. split; [vm_compute; reflexivity |].
  repeat split; reflexivity.
Qed.

(** C4.  The claim has a registration refused with 409 when its email
    equals that of an account up to letter case.  With the account
    [dr.johnson@mediconnect.com] in the store, a registration under
    [Dr.Johnson@mediconnect.com] is not answered 409: the lookup of
    [register], on the email as typed, finds nothing, where the lookup of
    [login], on the lowered email, finds the account.  Without the unique
    index the answer is 201 and a second account with the same email is
    written; with the index the write raises and the answer is 500. *)
Theorem register_duplicate_email_other_case (lib : Lib) (now : datetime)
  (user_id : oid) :
  let request := Example.registration "Dr.Johnson@mediconnect.com" "patient" [] in
  In Example.doctor1 (users (Example.clinic [] false))
  /\ lower "Dr.Johnson@mediconnect.com" = u_email Example.doctor1
  /\ find_user_by_email (PStr "Dr.Johnson@mediconnect.com") (Example.clinic [] false)
     = None
  /\ find_user_by_email (PStr (lower "Dr.Johnson@mediconnect.com"))
       (Example.clinic [] false)
     = Some Example.doctor1
  /\ (exists account,
         register lib now user_id request (Example.clinic [] false)
         = ({| status := 201;
               payload := Registered user_id (PStr "Dr.Johnson@mediconnect.com")
                            (PStr "patient") |},
            {| users := users (Example.clinic [] false) ++ [account];
               doctor_profiles := doctor_profiles (Example.clinic [] false);
               patient_profiles :=
                 patient_profiles (Example.clinic [] false)
                 ++ [ {| pp_user_id := user_id; pp_date_of_birth := PNone;
                         pp_medical_history := PStr "" |} ];
               appointments := [];
               email_unique_index := false |})
         /\ u_email account = u_email Example.doctor1)
  /\ register lib now user_id request (Example.clinic [] true)
     = ({| status := 500; payload := Failure "Registration failed: " DuplicateKeyError |},
        Example.clinic [] true).
Proof.
  split; [now left |]. split; [reflexivity |].
  split; [reflexivity |]. split; [reflexivity |]. split.
  - eexists. split; [vm_compute; reflexivity | reflexivity].
  - vm_compute. reflexivity.
Qed.

(** *** What the handlers write *)

(** Every answer of [book_appointment] other than 201 leaves the store as
    it was, and the answer 201 comes with one new appointment. *)
Lemma book_appointment_writes (lib : Lib) (now : datetime)
  (appointment_id room_id : oid) (identity : string) (data : value)
  (db db' : database) (r : response) :
  book_appointment lib now appointment_id room_id identity data db = (r, db') ->
  (status r = 201
   /\ exists doc,
       a_id doc = appointment_id
       /\ db' = {| users := users db;
                   doctor_profiles := doctor_profiles db;
                   patient_profiles := patient_profiles db;
                   appointments := appointments db ++ [doc];
                   email_unique_index := email_unique_index db |})
  \/ (status r <> 201 /\ db' = db).
Proof.
  unfold book_appointment, role_required.
  destruct (ObjectId lib (PStr identity)) as [user_id | e];
    [| intros H; injection H as <- <-; right; split; [discriminate | reflexivity]].
  destruct (find_user_by_id user_id db) as [user |];
    [| intros H; injection H as <- <-; right; split; [discriminate | reflexivity]].
  destruct (negb (str_eq (u_role user) "patient"));
    [intros H; injection H as <- <-; right; split; [discriminate | reflexivity] |].
  run_body.
  destruct (check_required_outcome data
              ["doctor_id"; "appointment_date"; "duration"; "consultation_type"] db)
    as (o & -> & [-> | [[field ->] | [e ->]]]);
    [| intros H; injection H as <- <-; right; split; [discriminate | reflexivity]
     | intros H; injection H as <- <-; right; split; [discriminate | reflexivity]].
  chase_goal; intros H; injection H as <- <-;
    try (right; split; [discriminate | reflexivity]).
  all: match goal with
       | H : insert_appointment _ _ = Ok _ |- _ =>
           apply insert_appointment_ok in H; subst
       end.
  all: left; split; [reflexivity |]; eexists; split; [| reflexivity]; reflexivity.
Qed.

(** [register] writes two documents with the answer 201 and none with the
    answers 400 and 409; with the answer 500 it has written nothing or the
    account alone. *)
Lemma register_writes (lib : Lib) (now : datetime) (user_id : oid)
  (data : value) (db db' : database) (r : response) :
  register lib now user_id data db = (r, db') ->
  (status r = 201 /\ documents db' = S (S (documents db)))
  \/ ((status r = 400 \/ status r = 409) /\ db' = db)
  \/ (status r = 500 /\ (db' = db \/ documents db' = S (documents db))).
Proof.
  run_register.
  destruct (check_required_outcome data
              ["email"; "password"; "user_type"; "first_name"; "last_name"] db)
    as (o & -> & [-> | [[field ->] | [e ->]]]);
    [| intros H; injection H as <- <-; right; left; split; [now left | reflexivity]
     | intros H; injection H as <- <-; right; right; split; [reflexivity | now left]].
  chase_goal; intros H; injection H as <- <-;
    repeat match goal with
           | H : insert_user _ _ = Ok _ |- _ =>
               apply insert_user_ok in H; destruct H as [-> _]
           | H : insert_doctor_profile _ _ = Ok _ |- _ =>
               apply insert_doctor_profile_ok in H; destruct H as [-> _]
           | H : insert_patient_profile _ _ = Ok _ |- _ =>
               apply insert_patient_profile_ok in H; subst
           end;
    try (right; left; split; [(now left) || (now right) | reflexivity]);
    try (right; right; split; [reflexivity | now left]);
    try (right; right; split; [reflexivity | right];
         unfold documents; cbn; rewrite ?length_app; cbn; lia);
    try (left; split; [reflexivity |];
         unfold documents; cbn; rewrite ?length_app; cbn; lia).
Qed.

(** *** Further facts on the conflict check *)

(** An appointment that starts where the proposed interval ends does not
    meet the filter. *)
Lemma appointment_after_is_free (a : appointment) (doctor_id : oid)
  (start finish : datetime) :
  start < finish ->
  a_appointment_date a = finish ->
  Mongo.matches (appointment_document a) (conflict_filter doctor_id start finish) = false.
Proof.
  intros Hlt Hstart.
  destruct (Mongo.matches _ _) eqn:Hm; [| reflexivity].
  apply conflict_filter_true in Hm; [| assumption]. lia.
Qed.

(** An appointment that overlaps the proposed interval meets the filter. *)
Lemma overlap_is_found (a : appointment) (doctor_id : oid)
  (start finish : datetime) :
  start < finish ->
  Spec.blocking doctor_id a ->
  Spec.overlap (a_appointment_date a) (a_end_time a) start finish ->
  Mongo.matches (appointment_document a) (conflict_filter doctor_id start finish) = true.
Proof.
  intros Hlt Hblocking [Hbefore _]. now apply conflict_filter_true.
Qed.

(** An appointment that is cancelled, a no-show, or of another doctor does
    not meet the filter. *)
Lemma not_blocking_is_free (a : appointment) (doctor_id : oid)
  (start finish : datetime) :
  start < finish ->
  a_status a = "cancelled" \/ a_status a = "no_show" \/ a_doctor_id a <> doctor_id ->
  Mongo.matches (appointment_document a) (conflict_filter doctor_id start finish) = false.
Proof.
  intros Hlt Hfree.
  destruct (Mongo.matches _ _) eqn:Hm; [| reflexivity].
  apply conflict_filter_true in Hm as [(Hd & Hc & Hn) _]; [| assumption].
  intuition congruence.
Qed.

(** *** The theorems at the data of the examples *)

Ltac example_checks :=
  unfold Spec.passes_checks, Spec.patient, Spec.present;
  repeat match goal with
         | |- _ /\ _ => split
         | |- Forall _ (_ :: _) => constructor
         | |- Forall _ [] => constructor
         | |- exists _, _ => eexists
         end;
  try reflexivity; try (cbn [In]; lia); try (vm_compute; discriminate).

(** The slot [[10:30,11:00)] after a confirmed [[10:00,10:30)]. *)
Lemma back_to_back_booking_refused_witness :
  let db := Example.clinic
              [Example.booked 5 (Example.t1030 - Example.half_hour) Example.t1030
                 "confirmed"] true in
  book_appointment Example.lib Example.now 10 11 Example.patient_identity
    (Example.booking_request "2030-01-01T10:30:00Z" (PInt 30) (PStr "video")) db
  = (error 409 "Time slot no longer available", db).
Proof.
  intros db.
  refine (proj2 (back_to_back_booking_refused Example.lib Example.now 10 11
                   Example.patient_identity _ db 1%N Example.t1030 30
                   (Example.booked 5 (Example.t1030 - Example.half_hour)
                      Example.t1030 "confirmed") _ _ _ _ _)).
  - example_checks.
  - now left.
  - repeat split; [discriminate | discriminate].
  - reflexivity.
  - reflexivity.
Defined.

(** The slot [[10:30,11:00)] with a confirmed [[09:00,09:30)] in the store. *)
Lemma booking_refused_without_overlap_witness :
  let db := Example.clinic
              [Example.booked 5 (Example.t1030 - 3 * Example.half_hour)
                 (Example.t1030 - 2 * Example.half_hour) "confirmed"] true in
  book_appointment Example.lib Example.now 10 11 Example.patient_identity
    (Example.booking_request "2030-01-01T10:30:00Z" (PInt 30) (PStr "video")) db
  = (error 409 "Time slot no longer available", db).
Proof.
  intros db.
  refine (booking_refused_without_overlap Example.lib Example.now 10 11
            Example.patient_identity _ db 1%N Example.t1030 30
            (Example.booked 5 (Example.t1030 - 3 * Example.half_hour)
               (Example.t1030 - 2 * Example.half_hour) "confirmed") _ _ _ _ _ _).
  - example_checks.
  - now left.
  - repeat split; [discriminate | discriminate].
  - reflexivity.
  - vm_compute. discriminate.
  - intros b [<- | []]. unfold Spec.overlap. vm_compute.
    intros [_ H]. discriminate H.
Defined.

(** A start in 2020 with a duration of 31 minutes and an unknown
    consultation type: the date is what is refused. *)
Lemma booking_validation_order_witness :
  let db := Example.clinic [] true in
  book_appointment Example.lib Example.now 10 11 Example.patient_identity
    (Example.booking_request "2020-01-01T10:30:00Z" (PInt 31) (PStr "letter")) db
  = (error 400 "Appointment must be scheduled for future date", db).
Proof.
  intros db.
  assert (Hpatient : Spec.patient Example.lib db Example.patient_identity)
    by example_checks.
  destruct (booking_validation_order Example.lib Example.now 10 11
              Example.patient_identity
              [ ("doctor_id", PStr "64b000000000000000000001");
                ("appointment_date", PStr "2020-01-01T10:30:00Z");
                ("duration", PInt 31);
                ("consultation_type", PStr "letter") ] db Hpatient)
    as [_ Hchecks].
  destruct Hchecks as [_ Hdoctor]; [example_checks |].
  destruct (Hdoctor 1%N eq_refl) as [_ Hfound].
  destruct (Hfound Example.doctor1 eq_refl) as [_ Hdate].
  destruct (Hdate 1577874600000000 eq_refl) as [Hpast _].
  apply Hpast. vm_compute. discriminate.
Defined.

(** A start equal to the current time. *)
Lemma booking_start_strictly_future_witness :
  let db := Example.clinic [] true in
  book_appointment Example.lib Example.t1030 10 11 Example.patient_identity
    (Example.booking_request "2030-01-01T10:30:00Z" (PInt 30) (PStr "video")) db
  = (error 400 "Appointment must be scheduled for future date", db).
Proof.
  intros db.
  refine (proj2 (booking_start_strictly_future Example.lib Example.t1030 10 11
                   Example.patient_identity _ db 1%N Example.doctor1
                   Example.t1030 _ _ _ _ _) eq_refl).
  - example_checks.
  - example_checks.
  - reflexivity.
  - reflexivity.
  - reflexivity.
Defined.

(** Page 3 of 23 doctors by 10. *)
Lemma doctor_listing_pagination_witness :
  exists doctors,
    get_available_doctors Example.lib Example.now [("page", "3"); ("limit", "10")]
      Example.hospital
    = ({| status := 200;
          payload := DoctorList doctors
                       {| current_page := 3; total_pages := 3;
                          total_doctors := 23; has_next := false |} |},
       Example.hospital)
    /\ List.length doctors = 3%nat.
Proof.
  destruct (doctor_listing_pagination Example.lib Example.now
              [("page", "3"); ("limit", "10")] Example.hospital 3 10)
    as [_ Hrun].
  - reflexivity.
  - reflexivity.
  - lia.
  - lia.
  - vm_compute. discriminate.
  - destruct (Hrun Example.hospital_rows) as (pages & Hrun' & _ & H23).
    + vm_compute. reflexivity.
    + destruct (H23 eq_refl eq_refl) as (-> & _).
      eexists. split; [exact Hrun' | vm_compute; reflexivity].
Defined.

(** Page 4 of 23 doctors by 10. *)
Lemma doctor_listing_beyond_last_page_witness :
  get_available_doctors Example.lib Example.now [("page", "4"); ("limit", "10")]
    Example.hospital
  = ({| status := 200;
        payload := DoctorList []
                     {| current_page := 4; total_pages := 3;
                        total_doctors := 23; has_next := false |} |},
     Example.hospital).
Proof.
  destruct (doctor_listing_beyond_last_page Example.lib Example.now
              [("page", "4"); ("limit", "10")] Example.hospital 4 10)
    as [_ Hrun].
  - reflexivity.
  - reflexivity.
  - lia.
  - vm_compute. discriminate.
  - apply (Hrun Example.hospital_rows eq_refl 3); [| lia].
    unfold Spec.ceiling. vm_compute. split; [reflexivity | discriminate].
Defined.

(** *** Further facts *)

(** In [register], once the fields are there and the email is valid, a
    password that is a string is refused exactly when it breaks the
    policy. *)
Lemma register_enforces_password_policy (lib : Lib) (now : datetime)
  (user_id : oid) (d : list (string * value)) (db : database)
  (email : value) (password : string) :
  Forall (Spec.present d) ["email"; "password"; "user_type"; "first_name"; "last_name"] ->
  lookup "email" d = Some email ->
  validate_email email = Ok true ->
  lookup "password" d = Some (PStr password) ->
  register lib now user_id (PDict d) db
  = (error 400 "Password must be at least 8 characters with uppercase, lowercase, number, and special character", db)
  <-> ~ Spec.password_policy password.
Proof.
  intros Hreq Hemail Hvalid Hpassword.
  run_register.
  next (check_required_present d _ db Hreq).
  unfold getitem at 1 2. rewrite Hemail, Hpassword. cbv beta iota zeta.
  next Hvalid.
  destruct (validate_password (PStr password)) as [[|] |] eqn:Hcheck;
    cbv beta iota zeta delta [negb].
  - split.
    + intros Hrun. exfalso. chase Hrun; discriminate Hrun.
    + intros Hno. exfalso. apply Hno.
      now apply validate_password_str_policy.
  - split; [| reflexivity].
    intros _ Hp. apply validate_password_str_policy in Hp. congruence.
  - rewrite validate_password_str in Hcheck. discriminate Hcheck.
Qed.

(** A request that passes the checks and meets no appointment of the
    doctor that starts before its end reaches the write: when the driver
    encodes the symptoms and the notes, the answer is 201 and one
    appointment is written, confirmed, from the start read to the start
    plus the duration; when it does not, the answer is 500 and nothing is
    written. *)
Lemma book_appointment_free (lib : Lib) (now : datetime)
  (appointment_id room_id : oid) (identity : string)
  (d : list (string * value)) (db : database) (doctor_id : oid)
  (t : datetime) (minutes : Z) :
  Spec.passes_checks lib now identity d db doctor_id t minutes ->
  (forall a, In a (appointments db) ->
             Spec.blocking doctor_id a -> t + minutes * 60000000 <= a_appointment_date a) ->
  exists doc name,
    book_appointment lib now appointment_id room_id identity (PDict d) db
    = match Mongo.encode_fields
              [Spec.field_or d "symptoms" (PStr ""); Spec.field_or d "notes" (PStr "")]
      with
      | Ok _ =>
          ({| status := 201; payload := Booked doc name |},
           {| users := users db;
              doctor_profiles := doctor_profiles db;
              patient_profiles := patient_profiles db;
              appointments := appointments db ++ [doc];
              email_unique_index := email_unique_index db |})
      | Raise e =>
          ({| status := 500; payload := Failure "Failed to book appointment: " e |}, db)
      end
    /\ a_id doc = appointment_id
    /\ a_doctor_id doc = doctor_id
    /\ a_appointment_date doc = t
    /\ a_end_time doc = t + minutes * 60000000
    /\ a_status doc = "confirmed"
    /\ a_symptoms doc = Spec.field_or d "symptoms" (PStr "")
    /\ a_patient_notes doc = Spec.field_or d "notes" (PStr "").
Proof.
  intros Hchecks Hfree.
  assert (Hnone : ~ exists a, In a (appointments db)
                              /\ Spec.blocking doctor_id a
                              /\ a_appointment_date a < t + minutes * 60000000).
  { intros (a & Hin & Hb & Hlt). specialize (Hfree a Hin Hb). lia. }
  rewrite <- (book_appointment_conflict lib now appointment_id room_id identity
                d db doctor_id t minutes Hchecks) in Hnone.
  destruct Hchecks as (Hpatient & Hreq & Hid & [doctor Hdoctor] & Ht & Hfuture
          & (duration & Hduration & Hminutes & Heq)
          & (consultation_type & Htype & Hvalid) & Hmax).
  revert Hnone.
  unfold book_appointment. rewrite role_required_patient by assumption.
  destruct Hpatient as (uid & user & Huid & _).
  run_body.
  next (check_required_present d _ db Hreq).
  next Hid. next Hdoctor. next Ht.
  replace (t <=? now) with false by (symmetry; apply Z.leb_gt; lia).
  cbv beta iota zeta.
  assert (Hget : getitem (PDict d) "duration" = Ok duration)
    by (unfold getitem; now rewrite Hduration).
  next Hget.
  assert (Hin : existsb (int_eq duration) [15; 30; 45; 60] = true)
    by (apply existsb_exists; now exists minutes).
  next Hin.
  assert (Hget' : getitem (PDict d) "consultation_type" = Ok consultation_type)
    by (unfold getitem; now rewrite Htype).
  next Hget'. next Hvalid.
  rewrite (timedelta_of_duration duration minutes Heq).
  unfold rbind, datetime_add, ObjectId, get.
  replace (t + minutes * 60000000 >? datetime_max) with false
    by (symmetry; rewrite Z.gtb_ltb; apply Z.ltb_ge; lia).
  rewrite Huid.
  cbv beta iota zeta delta [negb].
  destruct (find_conflict doctor_id t (t + minutes * 60000000) db) as [found |].
  - intros Hnone. exfalso. now apply Hnone.
  - intros _. unfold insert_appointment.
    cbn [a_duration a_consultation_type a_symptoms a_patient_notes].
    rewrite (encode_valid_booking duration consultation_type _ _ Hin Hvalid).
    unfold Spec.field_or, rbind.
    eexists. eexists.
    split; [destruct (Mongo.encode_fields _); reflexivity |].
    repeat split.
Qed.

(** What the driver makes of two fields. *)
Lemma encode_two_fields (x y : value) :
  Mongo.encode_fields [x; y] = Ok tt
  <-> Mongo.bson_encode x = Ok tt /\ Mongo.bson_encode y = Ok tt.
Proof.
  cbn [Mongo.encode_fields]. unfold rbind.
  destruct (Mongo.bson_encode x) as [[] | e]; [| split; [discriminate | intros [H _]; discriminate H]].
  destruct (Mongo.bson_encode y) as [[] | e]; [tauto |].
  split; [discriminate | intros [_ H]; discriminate H].
Qed.

(** The pattern of [validate_email] on some addresses; [$] also holds
    before a last newline. *)
Example validate_email_examples :
  validate_email (PStr "alice@example.com") = Ok true
  /\ validate_email (PStr "Dr.Johnson@mediconnect.com") = Ok true
  /\ validate_email (PStr "alice@example") = Ok false
  /\ validate_email (PStr "alice@example.c") = Ok false
  /\ validate_email (PStr "a@b@example.com") = Ok false
  /\ validate_email (PStr (String.append "alice@example.com" (String "010" ""))) = Ok true
  /\ validate_email (PInt 5) = Raise TypeError.
Proof. repeat split; reflexivity. Qed.

Example float_and_int_examples :
  float_eq_int 15%float 15 = true
  /\ float_eq_int 15.5%float 15 = false
  /\ float_trunc (-15.5)%float = Ok (-15)
  /\ float_of_int 150 = Ok 150%float
  /\ int_eq (PFloat 30) 30 = true
  /\ int_eq (PBool true) 15 = false
  /\ truthy (PFloat 0) = false.
Proof. repeat split; reflexivity. Qed.

(** What the driver encodes: integers of 8 bytes and no more, and no key
    with the character NUL, at any depth; a registration whose first name
    is [2^64] is answered 500 and writes nothing. *)
Example driver_refusals :
  Mongo.bson_encode (PInt (2 ^ 63 - 1)) = Ok tt
  /\ Mongo.bson_encode (PInt (2 ^ 63)) = Raise OverflowError
  /\ Mongo.bson_encode (PInt (- 2 ^ 63)) = Ok tt
  /\ Mongo.bson_encode (PInt (- 2 ^ 63 - 1)) = Raise OverflowError
  /\ Mongo.bson_encode (PList [PStr "cough"; PDict [("days", PInt 3)]]) = Ok tt
  /\ Mongo.bson_encode (PList [PStr "cough"; PDict [("days", PInt (2 ^ 64))]])
     = Raise OverflowError
  /\ Mongo.bson_encode (PDict [(String "a" (String "000" "b"), PInt 3)])
     = Raise InvalidDocument
  /\ register Example.lib Example.now 7
       (PDict [ ("email", PStr "alice@example.com"); ("password", PStr "Passw0rd!");
                ("user_type", PStr "patient");
                ("first_name", PInt (2 ^ 64)); ("last_name", PStr "Martin") ])
       (Example.clinic [] true)
     = ({| status := 500; payload := Failure "Registration failed: " OverflowError |},
        Example.clinic [] true).
Proof. repeat split; vm_compute; reflexivity. Qed.

(** The dict display of the third alternative of the filter keeps one
    entry for the key written twice. *)
Example third_alternative_display (start finish : datetime) :
  dict_display
    [ ("appointment_date", Mongo.Gte (Mongo.BDate start));
      ("appointment_date", Mongo.Lt (Mongo.BDate finish)) ]
  = [ ("appointment_date", Mongo.Lt (Mongo.BDate finish)) ].
Proof. reflexivity. Qed.

(** The answers of section 8 for the interval [[10:00,10:30)]: the filter
    holds for a proposed [[10:15,10:45)], and also for [[10:30,11:00)]. *)
Example conflict_filter_examples :
  let a := Example.booked 5 (Example.t1030 - Example.half_hour) Example.t1030 "confirmed" in
  Mongo.matches (appointment_document a)
    (conflict_filter 1 (Example.t1030 - 15 * 60000000) (Example.t1030 + 15 * 60000000))
  = true
  /\ Mongo.matches (appointment_document a)
       (conflict_filter 1 Example.t1030 (Example.t1030 + Example.half_hour))
     = true.
Proof. split; reflexivity. Qed.

(** ** Further properties of the handlers *)

(** *** Booking *)

Lemma duration_minutes (duration : value) :
  existsb (int_eq duration) [15; 30; 45; 60] = true ->
  exists minutes,
    In minutes [15; 30; 45; 60]
    /\ timedelta_minutes duration = Ok (minutes * 60000000).
Proof.
  intros H. apply existsb_exists in H as (minutes & Hin & Heq).
  exists minutes. split; [assumption | now apply timedelta_of_duration].
Qed.

(** What the answer 201 of [book_appointment] tells. *)
Lemma book_appointment_201 (lib : Lib) (now : datetime)
  (appointment_id room_id : oid) (identity : string) (data : value)
  (db db' : database) (r : response) :
  book_appointment lib now appointment_id room_id identity data db = (r, db') ->
  status r = 201 ->
  exists doc name user_id user doctor minutes,
    r = {| status := 201; payload := Booked doc name |}
    /\ db' = {| users := users db;
                doctor_profiles := doctor_profiles db;
                patient_profiles := patient_profiles db;
                appointments := appointments db ++ [doc];
                email_unique_index := email_unique_index db |}
    /\ objectid_of_str lib identity = Some user_id
    /\ find_user_by_id user_id db = Some user
    /\ str_eq (u_role user) "patient" = true
    /\ find_doctor (a_doctor_id doc) db = Some doctor
    /\ a_id doc = appointment_id
    /\ a_patient_id doc = user_id
    /\ now < a_appointment_date doc
    /\ In minutes [15; 30; 45; 60]
    /\ a_end_time doc = a_appointment_date doc + minutes * 60000000
    /\ a_status doc = "confirmed"
    /\ find_conflict (a_doctor_id doc) (a_appointment_date doc) (a_end_time doc) db = None
    /\ a_consultation_fee doc
       = match find_doctor_profile (a_doctor_id doc) db with
         | Some profile => dp_consultation_fee profile
         | None => 150%float
         end
    /\ a_meeting_link doc
       = "https://meet.mediconnect.com/room/" ++ str_of_objectid lib room_id
    /\ name = "Dr. " ++ str_of lib (u_first_name doctor) ++ " "
              ++ str_of lib (u_last_name doctor).
Proof.
  intros Hrun H201. revert Hrun.
  unfold book_appointment, role_required.
  destruct (ObjectId lib (PStr identity)) as [user_id | e] eqn:Hoid;
    [| intros H; injection H as <- <-; discriminate H201].
  assert (Hid : objectid_of_str lib identity = Some user_id).
  { unfold ObjectId in Hoid.
    destruct (objectid_of_str lib identity); [now injection Hoid as -> | discriminate]. }
  destruct (find_user_by_id user_id db) as [user |] eqn:Huser;
    [| intros H; injection H as <- <-; discriminate H201].
  destruct (str_eq (u_role user) "patient") eqn:Hrole; cbn [negb];
    [| intros H; injection H as <- <-; discriminate H201].
  run_body.
  destruct (check_required_outcome data
              ["doctor_id"; "appointment_date"; "duration"; "consultation_type"] db)
    as (o & -> & [-> | [[field ->] | [e ->]]]);
    [| intros H; injection H as <- <-; discriminate H201
     | intros H; injection H as <- <-; discriminate H201].
  rewrite Hoid.
  chase_goal; intros H; injection H as <- <-; try discriminate H201.
  all: match goal with
       | H : insert_appointment _ _ = Ok _ |- _ =>
           apply insert_appointment_ok in H; subst
       end.
  all: match goal with
       | Hd : negb (existsb (int_eq _) _) = false |- _ =>
           apply negb_false_iff in Hd;
           destruct (duration_minutes _ Hd) as (minutes & Hminutes & Hdelta)
       end;
       match goal with
       | Ht : rbind (timedelta_minutes _) (datetime_add ?t) = Ok ?e |- _ =>
           rewrite Hdelta in Ht; unfold rbind, datetime_add in Ht;
           destruct (_ >? datetime_max); [discriminate Ht |];
           injection Ht as <-
       end;
       match goal with
       | Hn : (_ <=? _) = false |- _ => apply Z.leb_gt in Hn
       end;
       do 6 eexists;
       repeat match goal with |- _ /\ _ => split end;
       try reflexivity; try eassumption;
       match goal with
       | Hp : find_doctor_profile _ _ = _ |- _ =>
           cbn [a_consultation_fee a_doctor_id]; rewrite Hp; reflexivity
       end.
Qed.

(** X1.  A caller who is not a patient account never reaches the body of
    [book_appointment]: whatever the request holds, the store is left as
    it is and the answer is 500 for a subject that is no identifier, 404
    for an identifier without account, 403 for an account of another
    role. *)
Theorem booking_only_by_patients (lib : Lib) (now : datetime)
  (appointment_id room_id : oid) (identity : string) (data : value)
  (db : database) :
  ~ Spec.patient lib db identity ->
  let run := book_appointment lib now appointment_id room_id identity data db in
  snd run = db
  /\ ((objectid_of_str lib identity = None
       /\ fst run = error 500 "Internal server error")
      \/ (exists user_id,
             objectid_of_str lib identity = Some user_id
             /\ find_user_by_id user_id db = None
             /\ fst run = error 404 "User not found")
      \/ (exists user_id user,
             objectid_of_str lib identity = Some user_id
             /\ find_user_by_id user_id db = Some user
             /\ str_eq (u_role user) "patient" = false
             /\ fst run = {| status := 403; payload := AccessDenied "patient" |})).
Proof.
  intros Hno run. subst run. unfold book_appointment, role_required, ObjectId.
  destruct (objectid_of_str lib identity) as [user_id |] eqn:Hid;
    [| split; [reflexivity | now left]].
  destruct (find_user_by_id user_id db) as [user |] eqn:Huser;
    [| split; [reflexivity | right; left; now exists user_id]].
  destruct (str_eq (u_role user) "patient") eqn:Hrole; cbn [negb].
  - exfalso. apply Hno. now exists user_id, user.
  - split; [reflexivity | right; right; now exists user_id, user].
Qed.

(** X2.  Whatever the caller and the request, [book_appointment] either
    answers 201 and adds exactly one appointment, with the identifier the
    driver gave, to a store otherwise unchanged, or answers something
    else and leaves the store as it was. *)
Theorem booking_writes_one_or_nothing (lib : Lib) (now : datetime)
  (appointment_id room_id : oid) (identity : string) (data : value)
  (db : database) :
  let run := book_appointment lib now appointment_id room_id identity data db in
  (status (fst run) = 201
   /\ exists doc,
       a_id doc = appointment_id
       /\ snd run = {| users := users db;
                       doctor_profiles := doctor_profiles db;
                       patient_profiles := patient_profiles db;
                       appointments := appointments db ++ [doc];
                       email_unique_index := email_unique_index db |})
  \/ (status (fst run) <> 201 /\ snd run = db).
Proof.
  intros run.
  destruct (book_appointment_writes lib now appointment_id room_id identity data db
              (snd run) (fst run)) as [H | H].
  - subst run. apply surjective_pairing.
  - now left.
  - now right.
Qed.

(** X3.  An answer 201 of [book_appointment] is sound: the caller is a
    patient account and the appointment is theirs, the doctor is an active
    doctor account, the start is after the current time, the end is the
    start plus 15, 30, 45 or 60 minutes, the status is confirmed, the fee
    is the one of the doctor's profile (150.0 without profile), and the
    filter found no appointment of the doctor in the store. *)
Theorem booking_confirmed_is_sound (lib : Lib) (now : datetime)
  (appointment_id room_id : oid) (identity : string) (data : value)
  (db db' : database) (r : response) :
  book_appointment lib now appointment_id room_id identity data db = (r, db') ->
  status r = 201 ->
  exists doc name user_id user doctor minutes,
    r = {| status := 201; payload := Booked doc name |}
    /\ appointments db' = (appointments db ++ [doc])%list
    /\ objectid_of_str lib identity = Some user_id
    /\ find_user_by_id user_id db = Some user
    /\ str_eq (u_role user) "patient" = true
    /\ a_patient_id doc = user_id
    /\ find_doctor (a_doctor_id doc) db = Some doctor
    /\ now < a_appointment_date doc
    /\ In minutes [15; 30; 45; 60]
    /\ a_end_time doc = a_appointment_date doc + minutes * 60000000
    /\ a_status doc = "confirmed"
    /\ a_consultation_fee doc
       = match find_doctor_profile (a_doctor_id doc) db with
         | Some profile => dp_consultation_fee profile
         | None => 150%float
         end
    /\ find_conflict (a_doctor_id doc) (a_appointment_date doc) (a_end_time doc) db
       = None.
Proof.
  intros Hrun H201.
  destruct (book_appointment_201 lib now appointment_id room_id identity data
              db db' r Hrun H201)
    as (doc & name & user_id & user & doctor & minutes & Hr & Hdb & Hid & Huser
        & Hrole & Hdoctor & _ & Hpatient & Hfuture & Hminutes & Hend & Hstatus
        & Hfree & Hfee & _).
  exists doc, name, user_id, user, doctor, minutes.
  rewrite Hdb. repeat split; assumption.
Qed.

Lemma ForallOrdPairs_snoc {A : Type} (R : A -> A -> Prop) (l : list A) (x : A) :
  ForallOrdPairs R l -> Forall (fun a => R a x) l -> ForallOrdPairs R (l ++ [x]).
Proof.
  induction 1 as [| a l Ha Hl IH]; intros Hx.
  - cbn. constructor; constructor.
  - cbn. inversion Hx as [| ? ? Hax Hlx]; subst.
    constructor; [| now apply IH].
    apply Forall_app. split; [assumption | now constructor].
Qed.

(** X4.  [book_appointment] keeps the store free of double bookings: if no
    two counted appointments of one doctor overlap before the request,
    none do after it, whatever the request. *)
Theorem booking_keeps_no_double_booking (lib : Lib) (now : datetime)
  (appointment_id room_id : oid) (identity : string) (data : value)
  (db : database) :
  Spec.no_double_booking db ->
  Spec.no_double_booking
    (snd (book_appointment lib now appointment_id room_id identity data db)).
Proof.
  intros Hinv.
  destruct (book_appointment lib now appointment_id room_id identity data db)
    as [r db'] eqn:Hrun. cbn [snd].
  destruct (book_appointment_writes lib now appointment_id room_id identity data
              db db' r Hrun) as [[H201 _] | [_ ->]]; [| assumption].
  destruct (book_appointment_201 lib now appointment_id room_id identity data
              db db' r Hrun H201)
    as (doc & name & user_id & user & doctor & minutes & _ & -> & _ & _ & _ & _
        & _ & _ & _ & Hminutes & Hend & _ & Hfree & _).
  unfold Spec.no_double_booking in *. cbn [appointments].
  apply ForallOrdPairs_snoc; [assumption |].
  apply Forall_forall. intros a Hin [Hc Hn] _ Hsame [Hbefore _].
  unfold find_conflict in Hfree.
  pose proof (find_none _ _ Hfree a Hin) as Hno. cbn beta in Hno.
  assert (Hlt : a_appointment_date doc < a_end_time doc)
    by (cbn [In] in Hminutes; lia).
  assert (Hyes : Mongo.matches (appointment_document a)
                   (conflict_filter (a_doctor_id doc) (a_appointment_date doc)
                      (a_end_time doc)) = true).
  { apply conflict_filter_true; [assumption |].
    split; [| assumption]. now repeat split. }
  congruence.
Qed.


(** X6.  The same request sent twice: when the first is answered 201, the
    second, sent while the start is still in the future, is answered 409
    and writes nothing. *)
Theorem booking_same_slot_twice (lib : Lib) (now now' : datetime)
  (appointment_id room_id appointment_id' room_id' : oid) (identity : string)
  (d : list (string * value)) (db db' : database) (doctor_id : oid)
  (t : datetime) (minutes : Z) (r : response) :
  Spec.passes_checks lib now identity d db doctor_id t minutes ->
  book_appointment lib now appointment_id room_id identity (PDict d) db = (r, db') ->
  status r = 201 ->
  now' < t ->
  book_appointment lib now' appointment_id' room_id' identity (PDict d) db'
  = (error 409 "Time slot no longer available", db').
Proof.
  intros Hchecks Hrun H201 Hfuture'.
  pose proof (book_appointment_conflict lib now appointment_id room_id identity
                d db doctor_id t minutes Hchecks) as Hrule.
  destruct (book_appointment_free lib now appointment_id room_id identity
              d db doctor_id t minutes Hchecks)
    as (doc & name & Hfirst & _ & Hdoctor & Hstart & Hend & Hstatus & _).
  { intros a Hin Hb.
    destruct (Z_lt_le_dec (a_appointment_date a) (t + minutes * 60000000));
      [| assumption].
    exfalso. assert (Hc : exists a, In a (appointments db)
                                    /\ Spec.blocking doctor_id a
                                    /\ a_appointment_date a < t + minutes * 60000000)
      by (now exists a).
    apply Hrule in Hc. rewrite Hc in Hrun. injection Hrun as <- <-.
    discriminate H201. }
  rewrite Hfirst in Hrun.
  destruct (Mongo.encode_fields _) as [[] | e];
    injection Hrun as <- <-; [| discriminate H201].
  apply (book_appointment_conflict lib now' appointment_id' room_id' identity d _
           doctor_id t minutes).
  - destruct Hchecks as (Hpatient & Hreq & Hid & Hdoc & Ht & _ & Hdur & Htype & Hmax).
    repeat split; assumption.
  - exists doc. cbn [appointments]. split; [apply in_or_app; right; now left |].
    destruct Hchecks as (_ & _ & _ & _ & _ & _ & (_ & _ & Hminutes & _) & _).
    split.
    + repeat split; [assumption | rewrite Hstatus; discriminate
                     | rewrite Hstatus; discriminate].
    + rewrite Hstart. cbn [In] in Hminutes. lia.
Qed.


(** *** Registration *)

Lemma user_type_valid (user_type : value) :
  existsb (str_eq user_type) ["patient"; "doctor"] = true ->
  user_type = PStr "patient" \/ user_type = PStr "doctor".
Proof.
  destruct user_type; try discriminate. cbn [existsb str_eq].
  rewrite !orb_true_iff, !String.eqb_eq.
  intros [-> | [-> | H]]; [now left | now right | discriminate H].
Qed.

Lemma validate_email_only_str (v : value) (b : bool) :
  validate_email v = Ok b -> exists s, v = PStr s.
Proof. destruct v; try discriminate. intros _. now exists s. Qed.

(** The accounts after [register], whatever it answers: the same as
    before, or one more, built from a valid email and a strong password. *)
Lemma register_account (lib : Lib) (now : datetime) (user_id : oid)
  (data : value) (db : database) :
  let db' := snd (register lib now user_id data db) in
  users db' = users db
  \/ exists account email password,
      users db' = (users db ++ [account])%list
      /\ getitem data "email" = Ok (PStr email)
      /\ validate_email (PStr email) = Ok true
      /\ getitem data "password" = Ok (PStr password)
      /\ validate_password (PStr password) = Ok true
      /\ find_user_by_email (PStr email) db = None
      /\ insert_user account db
         = Ok {| users := users db ++ [account];
                 doctor_profiles := doctor_profiles db;
                 patient_profiles := patient_profiles db;
                 appointments := appointments db;
                 email_unique_index := email_unique_index db |}
      /\ u_id account = user_id
      /\ u_email account = lower email
      /\ u_password_hash account = generate_password_hash lib password
      /\ getitem data "user_type" = Ok (u_role account)
      /\ (u_role account = PStr "patient" \/ u_role account = PStr "doctor")
      /\ u_is_active account = true
      /\ u_is_verified account = true.
Proof.
  intros db'. subst db'. run_register.
  destruct (check_required_outcome data
              ["email"; "password"; "user_type"; "first_name"; "last_name"] db)
    as (o & -> & [-> | [[field ->] | [e ->]]]);
    [| now left | now left].
  chase_goal; cbn [snd];
    repeat match goal with
           | H : insert_doctor_profile _ _ = Ok _ |- _ =>
               apply insert_doctor_profile_ok in H; destruct H as [-> _]
           | H : insert_patient_profile _ _ = Ok _ |- _ =>
               apply insert_patient_profile_ok in H; subst
           end;
    cbn [users]; try (now left).
  all: right.
  all: repeat match goal with
         | H : negb _ = false |- _ => apply negb_false_iff in H; try subst
         | H : validate_email ?v = Ok _ |- _ =>
             is_var v; destruct (validate_email_only_str v _ H) as [? ->]
         | H : validate_password ?v = Ok true |- _ =>
             is_var v; destruct (validate_password_only_str v H) as [? ->]
         | H : str_lower (PStr _) = Ok _ |- _ => cbn in H; injection H as <-
         | H : password_hash _ (PStr _) = Ok _ |- _ => cbn in H; injection H as <-
         | H : insert_user _ _ = Ok ?x |- _ =>
             is_var x; pose proof H as Hins;
             apply insert_user_ok in H; destruct H as [-> _]
         | H : existsb (str_eq _) ["patient"; "doctor"] = true |- _ =>
             apply user_type_valid in H
         end.
  all: subst; do 3 eexists;
       repeat match goal with |- _ /\ _ => split end;
       try reflexivity; try eassumption.
Qed.

(** X8.  For a body that is a JSON object, [register] answers with the
    error of the first check that fails, in the order: required fields,
    email format, password strength, email already registered, user type;
    so a second registration of a stored email is answered 409 even with
    an unknown user type.  An email that is not a string is answered 500.
    A password that is not a string is answered like a weak password, 400,
    when it is a list or an object of fewer than 8 entries, and 500
    otherwise.  None of these answers writes. *)
Theorem registration_order (lib : Lib) (now : datetime) (user_id : oid)
  (d : list (string * value)) (db : database) :
  let run := register lib now user_id (PDict d) db in
  let failure e :=
    ({| status := 500; payload := Failure "Registration failed: " e |}, db) in
  let weak :=
    (error 400 "Password must be at least 8 characters with uppercase, lowercase, number, and special character", db) in
  (forall before field after,
      ["email"; "password"; "user_type"; "first_name"; "last_name"]
      = (before ++ field :: after)%list ->
      Forall (Spec.present d) before ->
      ~ Spec.present d field ->
      run = (error 400 ("Missing required field: " ++ field), db))
  /\ (Forall (Spec.present d)
        ["email"; "password"; "user_type"; "first_name"; "last_name"] ->
      forall email password user_type,
        lookup "email" d = Some email ->
        lookup "password" d = Some password ->
        lookup "user_type" d = Some user_type ->
        ((forall s, email <> PStr s) -> run = failure TypeError)
        /\ (validate_email email = Ok false ->
            run = (error 400 "Invalid email format", db))
        /\ (validate_email email = Ok true ->
            match password with
            | PStr s =>
                (validate_password (PStr s) = Ok false -> run = weak)
                /\ (validate_password (PStr s) = Ok true ->
                    (forall u, find_user_by_email email db = Some u ->
                               run = (error 409 "Email already registered", db))
                    /\ (find_user_by_email email db = None ->
                        existsb (str_eq user_type) ["patient"; "doctor"] = false ->
                        run = (error 400 "Invalid user type. Must be patient or doctor", db)))
            | PList l =>
                run = if Z.of_nat (List.length l) <? 8 then weak else failure TypeError
            | PDict items =>
                run = if Z.of_nat (List.length items) <? 8 then weak
                      else failure TypeError
            | _ => run = failure TypeError
            end)).
Proof.
  intros run failure weak. subst run failure weak. split.
  - intros before field after Hfields Hbefore Hfield.
    run_register. rewrite Hfields.
    next (check_required_missing d before field after db Hbefore Hfield).
    reflexivity.
  - intros Hreq email password user_type Hemail Hpassword Htype.
    assert (Hget1 : getitem (PDict d) "email" = Ok email)
      by (unfold getitem; now rewrite Hemail).
    assert (Hget2 : getitem (PDict d) "password" = Ok password)
      by (unfold getitem; now rewrite Hpassword).
    assert (Hget3 : getitem (PDict d) "user_type" = Ok user_type)
      by (unfold getitem; now rewrite Htype).
    assert (Htruthy : truthy password = true).
    { pose proof (Forall_inv (Forall_inv_tail Hreq)) as [v [Hv Ht]].
      rewrite Hpassword in Hv. now injection Hv as <-. }
    run_register.
    next (check_required_present d _ db Hreq). next Hget1.
    split.
    { intros Hnot. destruct email; try reflexivity. now destruct (Hnot s). }
    split; [intros He; next He; reflexivity |].
    intros He. next He. next Hget2.
    destruct password as [| b | z | f | s | l | items]; cbn [truthy] in Htruthy.
    + discriminate Htruthy.
    + reflexivity.
    + reflexivity.
    + reflexivity.
    + split; [intros Hp; next Hp; reflexivity |].
      intros Hp. next Hp.
      split; [intros u Hu; next Hu; reflexivity |].
      intros Hnone Hbad. next Hnone. next Hget3. next Hbad. reflexivity.
    + unfold validate_password. cbn [len rbind re_search].
      destruct (Z.of_nat (List.length l) <? 8); reflexivity.
    + unfold validate_password. cbn [len rbind re_search].
      destruct (Z.of_nat (List.length items) <? 8); reflexivity.
Qed.

(** X9.  Whatever the request, [register] writes two documents with the
    answer 201 and none with the answers 400 and 409; with the answer 500
    it has written nothing or one document; it gives no other answer. *)
Theorem registration_writes (lib : Lib) (now : datetime) (user_id : oid)
  (data : value) (db : database) :
  let run := register lib now user_id data db in
  (status (fst run) = 201 /\ documents (snd run) = S (S (documents db)))
  \/ ((status (fst run) = 400 \/ status (fst run) = 409) /\ snd run = db)
  \/ (status (fst run) = 500
      /\ (snd run = db \/ documents (snd run) = S (documents db))).
Proof.
  intros run.
  apply (register_writes lib now user_id data db (snd run) (fst run)).
  subst run. apply surjective_pairing.
Qed.

(** X10.  When [register] answers 201 to a request of user type
    ["patient"], it has written one account and one patient profile for
    it, with the date of birth ([None] when absent) and the medical
    history (empty when absent) of the request, and no doctor profile. *)
Theorem patient_registration_profile (lib : Lib) (now : datetime)
  (user_id : oid) (d : list (string * value)) (db db' : database) (r : response) :
  register lib now user_id (PDict d) db = (r, db') ->
  status r = 201 ->
  lookup "user_type" d = Some (PStr "patient") ->
  exists account,
    users db' = (users db ++ [account])%list
    /\ u_id account = user_id
    /\ u_role account = PStr "patient"
    /\ patient_profiles db'
       = (patient_profiles db
          ++ [ {| pp_user_id := user_id;
                  pp_date_of_birth :=
                    match lookup "date_of_birth" d with Some v => v | None => PNone end;
                  pp_medical_history :=
                    match lookup "medical_history" d with
                    | Some v => v
                    | None => PStr ""
                    end |} ])%list
    /\ doctor_profiles db' = doctor_profiles db
    /\ appointments db' = appointments db.
Proof.
  intros Hrun H201 Htype. revert Hrun. run_register.
  destruct (check_required_outcome (PDict d)
              ["email"; "password"; "user_type"; "first_name"; "last_name"] db)
    as (o & -> & [-> | [[field ->] | [e ->]]]);
    [| intros Hrun; injection Hrun as <- <-; discriminate H201
     | intros Hrun; injection Hrun as <- <-; discriminate H201].
  unfold getitem, get, rbind. rewrite Htype.
  cbn [existsb str_eq String.eqb Ascii.eqb Bool.eqb orb negb].
  chase_goal; intros Hrun; injection Hrun as <- <-; try discriminate H201.
  all: repeat match goal with
         | H : insert_user _ _ = Ok _ |- _ =>
             apply insert_user_ok in H; destruct H as [-> _]
         | H : insert_patient_profile _ _ = Ok _ |- _ =>
             apply insert_patient_profile_ok in H; subst
         end.
  all: eexists; cbn; repeat split; reflexivity.
Qed.

(** X27.  When [register] answers 201 to a request of user type
    ["doctor"], it has written one account and one doctor profile for it.
    The rating of the profile is 5.0 whatever the request holds.  The
    licence and the specialty are those of the request (empty when
    absent).  The fee is 150.0 when absent, the number sent, or what
    [float] reads in the string sent; the years of experience are 0 when
    absent, the integer sent, the integral part of the float sent, or what
    [int] reads in the string sent, and fit 8 bytes. *)
Theorem doctor_registration_profile (lib : Lib) (now : datetime)
  (user_id : oid) (d : list (string * value)) (db db' : database) (r : response) :
  register lib now user_id (PDict d) db = (r, db') ->
  status r = 201 ->
  lookup "user_type" d = Some (PStr "doctor") ->
  exists account profile,
    users db' = (users db ++ [account])%list
    /\ u_id account = user_id
    /\ u_role account = PStr "doctor"
    /\ doctor_profiles db' = (doctor_profiles db ++ [profile])%list
    /\ dp_user_id profile = user_id
    /\ dp_rating profile = 5%float
    /\ dp_medical_license profile
       = match lookup "medical_license" d with Some v => v | None => PStr "" end
    /\ dp_specialty profile
       = match lookup "specialty" d with Some v => v | None => PStr "" end
    /\ match lookup "consultation_fee" d with
       | None => dp_consultation_fee profile = 150%float
       | Some (PFloat f) => dp_consultation_fee profile = f
       | Some (PInt z) => float_of_int z = Ok (dp_consultation_fee profile)
       | Some (PBool b) =>
           dp_consultation_fee profile = (if b then 1 else 0)%float
       | Some (PStr s) => float_of_str lib s = Some (dp_consultation_fee profile)
       | Some _ => False
       end
    /\ match lookup "years_experience" d with
       | None => dp_years_experience profile = 0
       | Some (PInt z) => dp_years_experience profile = z
       | Some (PBool b) => dp_years_experience profile = (if b then 1 else 0)
       | Some (PFloat f) => float_trunc f = Ok (dp_years_experience profile)
       | Some (PStr s) => int_of_str lib s = Some (dp_years_experience profile)
       | Some _ => False
       end
    /\ Mongo.int64_min <= dp_years_experience profile <= Mongo.int64_max
    /\ patient_profiles db' = patient_profiles db
    /\ appointments db' = appointments db.
Proof.
  intros Hrun H201 Htype.
  destruct (register_doctor_201 lib now user_id d db db' r Hrun H201 Htype)
    as (account & profile & Husers & Hid & Hrole & Hprofiles & Hlink & Hrating
        & Hlicense & Hspecialty & Hfee & Hyears & Hfits & Hpatients & Happointments).
  exists account, profile. unfold Spec.field_or in *.
  repeat match goal with |- _ /\ _ => split end; trivial; try apply Hfits.
  - destruct (lookup "consultation_fee" d) as [[| b | z | f | s | l | items] |];
      cbn [float_] in Hfee; try discriminate Hfee;
      try (now injection Hfee as <-); try assumption.
    destruct (float_of_str lib s); [now injection Hfee as <- | discriminate Hfee].
  - destruct (lookup "years_experience" d) as [[| b | z | f | s | l | items] |];
      cbn [int_] in Hyears; try discriminate Hyears;
      try (now injection Hyears as <-); try assumption.
    destruct (int_of_str lib s); [now injection Hyears as <- | discriminate Hyears].
Qed.

Lemma lower_char_idempotent (c : ascii) : lower_char (lower_char c) = lower_char c.
Proof. destruct c as [[] [] [] [] [] [] [] []]; reflexivity. Qed.

Lemma lower_idempotent (s : string) : lower (lower s) = lower s.
Proof.
  induction s as [| c s IH]; [reflexivity |].
  cbn [lower]. now rewrite lower_char_idempotent, IH.
Qed.

(** X11.  Whatever [register] answers, an account that it adds has the
    identifier the driver gave, the email of the request in lower case
    (an email that [validate_email] accepts and that no account had as
    typed), the hash of the password of the request, which
    [validate_password] accepted, the role ["patient"] or ["doctor"] of
    the request, and is active and verified. *)
Theorem registration_account_is_sound (lib : Lib) (now : datetime)
  (user_id : oid) (data : value) (db : database) :
  let db' := snd (register lib now user_id data db) in
  users db' = users db
  \/ exists account email password,
      users db' = (users db ++ [account])%list
      /\ getitem data "email" = Ok (PStr email)
      /\ validate_email (PStr email) = Ok true
      /\ find_user_by_email (PStr email) db = None
      /\ getitem data "password" = Ok (PStr password)
      /\ validate_password (PStr password) = Ok true
      /\ u_id account = user_id
      /\ u_email account = lower email
      /\ u_password_hash account = generate_password_hash lib password
      /\ getitem data "user_type" = Ok (u_role account)
      /\ (u_role account = PStr "patient" \/ u_role account = PStr "doctor")
      /\ u_is_active account = true
      /\ u_is_verified account = true.
Proof.
  intros db'.
  destruct (register_account lib now user_id data db)
    as [Hsame | (account & email & password & Husers & Hemail & Hvalid & Hpassword
                 & Hstrong & Hfree & _ & Hid & Hlower & Hhash & Htype & Hrole
                 & Hactive & Hverified)]; [now left |].
  right. exists account, email, password.
  repeat match goal with |- _ /\ _ => split end; assumption.
Qed.

(** X12.  [register] keeps the emails of the store in lower case,
    whatever the request and whatever it answers. *)
Theorem registration_keeps_emails_lowercase (lib : Lib) (now : datetime)
  (user_id : oid) (data : value) (db : database) :
  Spec.emails_lowercase db ->
  Spec.emails_lowercase (snd (register lib now user_id data db)).
Proof.
  intros Hinv.
  destruct (register_account lib now user_id data db)
    as [Hsame | (account & email & password & Husers & _ & _ & _ & _ & _ & _ & _
                 & Hlower & _)];
    unfold Spec.emails_lowercase in *.
  - rewrite Hsame. exact Hinv.
  - rewrite Husers. intros u Hin. apply in_app_or in Hin as [Hin | [<- | []]].
    + now apply Hinv.
    + rewrite Hlower. apply lower_idempotent.
Qed.

(** X13.  On a store with the unique index on the email, [register] keeps
    the emails of the accounts pairwise different, whatever the request
    and whatever it answers. *)
Theorem registration_keeps_emails_unique (lib : Lib) (now : datetime)
  (user_id : oid) (data : value) (db : database) :
  email_unique_index db = true ->
  Spec.emails_unique db ->
  Spec.emails_unique (snd (register lib now user_id data db)).
Proof.
  intros Hindex Hinv.
  destruct (register_account lib now user_id data db)
    as [Hsame | (account & email & password & Husers & _ & _ & _ & _ & _ & Hins & _)];
    unfold Spec.emails_unique in *.
  - rewrite Hsame. exact Hinv.
  - rewrite Husers, map_app. cbn [map].
    apply insert_user_ok in Hins as [_ Hexists].
    rewrite Hindex in Hexists. cbn [andb] in Hexists.
    apply NoDup_app; [assumption | repeat constructor; intros [] | ].
    intros e Hin [<- | []].
    apply in_map_iff in Hin as (u & Heq & Hu).
    assert (Hyes : existsb (fun u => String.eqb (u_email u) (u_email account)) (users db)
                   = true).
    { apply existsb_exists. exists u. split; [assumption |]. now apply String.eqb_eq. }
    congruence.
Qed.

(** *** Login *)

Import Auth.

(** X14.  For a body that is a JSON object, [login] answers 400 when the
    email or the password is absent or empty; then 401, with one and the
    same message, when no account has the email in lower case or when the
    password does not fit the hash; then 403 when the account is not
    active; and else 200 with a token for the identifier of the account,
    valid 3600 seconds, after noting the time of the login on the account.
    An email that is not a string is answered 500.  Only the answer 200
    changes the store. *)
Theorem login_answers (lib : Lib) (auth : AuthLib) (now : datetime)
  (d : list (string * value)) (st : store) :
  let run := login lib auth now (PDict d) st in
  let email := match lookup "email" d with Some v => v | None => PNone end in
  let password := match lookup "password" d with Some v => v | None => PNone end in
  let refused :=
    ({| login_status := 401; login_payload := LoginError "Invalid email or password" |}, st) in
  (truthy email = false \/ truthy password = false ->
   run = ({| login_status := 400;
             login_payload := LoginError "Email and password required" |}, st))
  /\ (truthy email = true -> truthy password = true ->
      ((forall s, email <> PStr s) ->
       run = ({| login_status := 500;
                 login_payload := LoginFailure "Login failed: " AttributeError |}, st))
      /\ forall address, email = PStr address ->
          (find_user_by_email (PStr (lower address)) (base st) = None -> run = refused)
          /\ forall u,
              find_user_by_email (PStr (lower address)) (base st) = Some u ->
              (forall e, check_password_hash auth (u_password_hash u) password = Raise e ->
                         run = ({| login_status := 500;
                                   login_payload := LoginFailure "Login failed: " e |}, st))
              /\ (check_password_hash auth (u_password_hash u) password = Ok false ->
                  run = refused)
              /\ (check_password_hash auth (u_password_hash u) password = Ok true ->
                  (u_is_active u = false ->
                   run = ({| login_status := 403;
                             login_payload := LoginError "Account is deactivated" |}, st))
                  /\ (u_is_active u = true ->
                      run = ({| login_status := 200;
                                login_payload :=
                                  LoggedIn
                                    (create_access_token auth (str_of_objectid lib (u_id u)))
                                    3600 (str_of_objectid lib (u_id u)) (u_email u)
                                    (u_role u) (u_first_name u) (u_last_name u) |},
                             update_last_login (u_id u) now st)))).
Proof.
  intros run email password refused. subst run email password refused.
  unfold login, login_steps, get, getitem.
  destruct (lookup "email" d) as [email |]; cbn [rbind truthy negb orb];
    [| split; [reflexivity | discriminate]].
  destruct (truthy email) eqn:Hemail; cbn [rbind negb orb];
    [| split; [reflexivity | discriminate]].
  destruct (lookup "password" d) as [password |]; cbn [rbind truthy negb orb];
    [| split; [reflexivity | discriminate]].
  destruct (truthy password) eqn:Hpassword; cbn [rbind negb orb];
    [| split; [reflexivity | discriminate]].
  split; [intros [H | H]; discriminate H |].
  intros _ _. split.
  - intros Hnot. destruct email; try reflexivity. now destruct (Hnot s).
  - intros address ->. cbn [str_lower rbind]. split.
    + intros ->. reflexivity.
    + intros u ->. cbn [rbind].
      split; [intros e ->; reflexivity |].
      split; [intros ->; reflexivity |].
      intros ->. cbn [rbind negb].
      split; intros ->; reflexivity.
Qed.

(** X15.  [login] never changes the database, whatever the request: it
    leaves the store as it was, or, with the answer 200 only, notes the
    time of the login on one account of the store. *)
Theorem login_writes (lib : Lib) (auth : AuthLib) (now : datetime)
  (data : value) (st : store) :
  let run := login lib auth now data st in
  base (snd run) = base st
  /\ (snd run = st
      \/ (login_status (fst run) = 200
          /\ exists u,
              In u (users (base st))
              /\ u_is_active u = true
              /\ last_login (snd run) = set_last_login (u_id u) now (last_login st)))
  /\ (login_status (fst run) <> 200 -> snd run = st).
Proof.
  intros run. subst run. unfold login, login_steps, rbind.
  repeat match goal with
         | |- context [match ?x with _ => _ end] =>
             lazymatch x with
             | context [match _ with _ => _ end] => fail
             | _ => destruct x eqn:?
             end
         end;
    cbn [fst snd login_status];
    try (split; [reflexivity | split; [now left | reflexivity]]).
  all: match goal with
       | H : find_user_by_email _ _ = Some ?u |- _ =>
           apply find_some in H as [Hin _];
           assert (Hex : existsb (fun x => N.eqb (u_id x) (u_id u)) (users (base st)) = true)
             by (apply existsb_exists; exists u; split;
                 [assumption | apply N.eqb_refl]);
           unfold update_last_login; rewrite Hex; cbn [base last_login];
           split; [reflexivity |];
           split; [right; split; [reflexivity |]; exists u; repeat split; trivial;
                   match goal with
                   | Ha : negb (u_is_active u) = false |- _ =>
                       now apply negb_false_iff in Ha
                   end
                  | intros Hne; now destruct Hne]
       end.
Qed.

Lemma lower_empty (s : string) : lower s = "" -> s = "".
Proof. destruct s; [reflexivity | discriminate]. Qed.

(** X16.  [login] does not see the case of the email: two requests with
    the same password whose emails are equal in lower case get the same
    answer and leave the same store. *)
Theorem login_ignores_email_case (lib : Lib) (auth : AuthLib) (now : datetime)
  (d d' : list (string * value)) (st : store) (address address' : string) :
  lookup "email" d = Some (PStr address) ->
  lookup "email" d' = Some (PStr address') ->
  lower address = lower address' ->
  lookup "password" d = lookup "password" d' ->
  login lib auth now (PDict d) st = login lib auth now (PDict d') st.
Proof.
  intros He He' Hlower Hp.
  unfold login, login_steps, get, getitem.
  rewrite He, He', Hp. cbn [rbind str_lower truthy]. rewrite Hlower.
  assert (Hempty : String.eqb address "" = String.eqb address' "").
  { destruct (String.eqb_spec address ""), (String.eqb_spec address' "");
      try reflexivity; subst.
    - symmetry in Hlower. apply lower_empty in Hlower. contradiction.
    - apply lower_empty in Hlower. contradiction. }
  rewrite Hempty. reflexivity.
Qed.

(** The way of [login] to the answer 200. *)
Lemma login_200 (lib : Lib) (auth : AuthLib) (now : datetime)
  (d : list (string * value)) (st : store) (address password : string) (u : user_doc) :
  lookup "email" d = Some (PStr address) ->
  lookup "password" d = Some (PStr password) ->
  address <> "" ->
  password <> "" ->
  find_user_by_email (PStr (lower address)) (base st) = Some u ->
  check_password_hash auth (u_password_hash u) (PStr password) = Ok true ->
  u_is_active u = true ->
  login lib auth now (PDict d) st
  = ({| login_status := 200;
        login_payload :=
          LoggedIn (create_access_token auth (str_of_objectid lib (u_id u))) 3600
            (str_of_objectid lib (u_id u)) (u_email u)
            (u_role u) (u_first_name u) (u_last_name u) |},
     update_last_login (u_id u) now st).
Proof.
  intros He Hp Hne Hnp Hfound Hcheck Hactive.
  unfold login, login_steps, get, getitem.
  rewrite He, Hp. cbn [rbind truthy str_lower].
  apply String.eqb_neq in Hne. apply String.eqb_neq in Hnp.
  rewrite Hne. cbn [negb orb rbind truthy]. rewrite Hnp. cbn [negb orb rbind].
  rewrite Hfound. cbn [rbind].
  rewrite Hcheck. cbn [rbind negb]. rewrite Hactive. reflexivity.
Qed.

Lemma find_snoc {A : Type} (f : A -> bool) (l : list A) (x : A) :
  find f l = None -> f x = true -> find f (l ++ [x]) = Some x.
Proof.
  induction l as [| a l IH]; cbn [find app]; intros Hnone Hx.
  - now rewrite Hx.
  - destruct (f a); [discriminate Hnone | now apply IH].
Qed.

Lemma register_201_adds_account (lib : Lib) (now : datetime) (user_id : oid)
  (data : value) (db db' : database) (r : response) :
  register lib now user_id data db = (r, db') ->
  status r = 201 ->
  exists account, users db' = (users db ++ [account])%list.
Proof.
  intros Hrun H201. revert Hrun. run_register.
  destruct (check_required_outcome data
              ["email"; "password"; "user_type"; "first_name"; "last_name"] db)
    as (o & -> & [-> | [[field ->] | [e ->]]]);
    [| intros Hrun; injection Hrun as <- <-; discriminate H201
     | intros Hrun; injection Hrun as <- <-; discriminate H201].
  chase_goal; intros Hrun; injection Hrun as <- <-; try discriminate H201.
  all: repeat match goal with
         | H : insert_user _ _ = Ok _ |- _ =>
             apply insert_user_ok in H; destruct H as [-> _]
         | H : insert_doctor_profile _ _ = Ok _ |- _ =>
             apply insert_doctor_profile_ok in H; destruct H as [-> _]
         | H : insert_patient_profile _ _ = Ok _ |- _ =>
             apply insert_patient_profile_ok in H; subst
         end.
  all: eexists; reflexivity.
Qed.

(** X17.  Registration and login fit: after [register] has answered 201
    on a store that had no account under the email in lower case (as on
    any store with the unique index), [login] with the same password and
    the same email in any case answers 200 with a token for the new
    account, provided [check_password_hash] accepts the password for the
    hash that [generate_password_hash] made of it. *)
Theorem registered_account_can_log_in (lib : Lib) (auth : AuthLib)
  (now now' : datetime) (user_id : oid) (data : value) (db db' : database)
  (r : response) (email password : string)
  (d' : list (string * value)) (email' : string) (logins : list (oid * datetime)) :
  register lib now user_id data db = (r, db') ->
  status r = 201 ->
  getitem data "email" = Ok (PStr email) ->
  getitem data "password" = Ok (PStr password) ->
  email_unique_index db = true
  \/ find_user_by_email (PStr (lower email)) db = None ->
  check_password_hash auth (generate_password_hash lib password) (PStr password)
  = Ok true ->
  lookup "email" d' = Some (PStr email') ->
  lower email' = lower email ->
  lookup "password" d' = Some (PStr password) ->
  exists account,
    In account (users db')
    /\ u_id account = user_id
    /\ u_email account = lower email
    /\ login lib auth now' (PDict d') {| base := db'; last_login := logins |}
       = ({| login_status := 200;
             login_payload :=
               LoggedIn (create_access_token auth (str_of_objectid lib user_id)) 3600
                 (str_of_objectid lib user_id) (lower email)
                 (u_role account) (u_first_name account) (u_last_name account) |},
          {| base := db'; last_login := set_last_login user_id now' logins |}).
Proof.
  intros Hrun H201 Hemail Hpassword Hfree Hcheck Hemail' Hlower Hpassword'.
  destruct (register_201_adds_account lib now user_id data db db' r Hrun H201)
    as [added Hadded].
  pose proof (register_account lib now user_id data db) as Haccount.
  rewrite Hrun in Haccount. cbn [snd] in Haccount.
  destruct Haccount
    as [Hsame | (account & email0 & password0 & Husers & Hemail0 & _ & Hpassword0
                 & Hstrong & _ & Hins & Hid & Hlow & Hhash & _ & _ & Hactive & _)].
  { exfalso. rewrite Hsame in Hadded.
    apply (f_equal (@List.length user_doc)) in Hadded.
    rewrite length_app in Hadded. cbn in Hadded. lia. }
  rewrite Hemail in Hemail0. injection Hemail0 as <-.
  rewrite Hpassword in Hpassword0. injection Hpassword0 as <-.
  assert (Hnone : find_user_by_email (PStr (lower email)) db = None).
  { destruct Hfree as [Hindex | Hnone]; [| assumption].
    apply insert_user_ok in Hins as [_ Hexists].
    rewrite Hindex in Hexists. cbn [andb] in Hexists.
    unfold find_user_by_email.
    destruct (find _ (users db)) as [u |] eqn:Hfind; [| reflexivity].
    exfalso. apply find_some in Hfind as [Hin Heq].
    cbn [str_eq] in Heq. apply String.eqb_eq in Heq.
    assert (Hyes : existsb (fun u => String.eqb (u_email u) (u_email account)) (users db)
                   = true).
    { apply existsb_exists. exists u. split; [assumption |].
      apply String.eqb_eq. now rewrite Hlow. }
    congruence. }
  assert (Hfound : find_user_by_email (PStr (lower email')) db' = Some account).
  { unfold find_user_by_email in *. rewrite Husers, Hlower.
    apply find_snoc; [assumption |].
    cbn [str_eq]. apply String.eqb_eq. now rewrite Hlow. }
  exists account. split; [rewrite Husers; apply in_or_app; right; now left |].
  split; [assumption |]. split; [assumption |].
  assert (Hnonempty : email' <> "").
  { intros ->. cbn [lower] in Hlower. symmetry in Hlower.
    apply lower_empty in Hlower. subst email.
    pose proof (register_account lib now user_id data db) as H.
    rewrite Hrun in H. cbn [snd] in H.
    destruct H as [Hsame | (? & e1 & ? & _ & He1 & Hv & _)].
    - rewrite Hsame in Husers.
      apply (f_equal (@List.length user_doc)) in Husers.
      rewrite length_app in Husers. cbn in Husers. lia.
    - rewrite Hemail in He1. injection He1 as <-. vm_compute in Hv. discriminate Hv. }
  assert (Hstrong8 : password <> "").
  { intros ->. vm_compute in Hstrong. discriminate Hstrong. }
  rewrite <- Hhash in Hcheck.
  rewrite (login_200 lib auth now' d' {| base := db'; last_login := logins |}
             email' password account Hemail' Hpassword' Hnonempty Hstrong8
             Hfound Hcheck Hactive).
  rewrite Hid, Hlow. f_equal.
  unfold update_last_login. cbn [base last_login].
  assert (Hex : existsb (fun u => N.eqb (u_id u) user_id) (users db') = true).
  { apply existsb_exists. exists account. split.
    - rewrite Husers. apply in_or_app. right. now left.
    - rewrite Hid. apply N.eqb_refl. }
  now rewrite Hex.
Qed.

(** *** The doctor listing *)

(** X18.  [get_available_doctors] only reads: whatever the arguments, the
    store is left as it is, and the answer is 200, 400 or 500. *)
Theorem listing_only_reads (lib : Lib) (now : datetime)
  (args : list (string * string)) (db : database) :
  let run := get_available_doctors lib now args db in
  snd run = db
  /\ (status (fst run) = 200 \/ status (fst run) = 400 \/ status (fst run) = 500).
Proof.
  intros run. subst run.
  unfold get_available_doctors, handler, bind, eval, read, reply.
  chase_goal; cbn [fst snd status error]; split; auto.
Qed.

(** X19.  The errors of the listing: an argument [page] or [limit] that
    [int] does not read is answered 400 "Invalid page or limit parameter",
    before any bound is looked at; a page below 1 or a limit outside 1..50
    is answered 400 "Invalid pagination parameters", before the store is
    asked; a skip [(page-1)*limit] beyond the 8 bytes of an integer of the
    store is answered 500, as is a pattern that the store refuses (the
    exception named is that of the skip when both occur). *)
Theorem listing_errors (lib : Lib) (now : datetime)
  (args : list (string * string)) (db : database) :
  let run := get_available_doctors lib now args db in
  (forall s, lookup "page" args = Some s -> int_of_str lib s = None ->
             run = (error 400 "Invalid page or limit parameter", db))
  /\ (forall page s,
         int_arg lib args "page" 1 = Ok page ->
         lookup "limit" args = Some s -> int_of_str lib s = None ->
         run = (error 400 "Invalid page or limit parameter", db))
  /\ (forall page limit,
         int_arg lib args "page" 1 = Ok page ->
         int_arg lib args "limit" 10 = Ok limit ->
         (page < 1 \/ limit < 1 \/ 50 < limit ->
          run = (error 400 "Invalid pagination parameters", db))
         /\ (1 <= page -> 1 <= limit <= 50 ->
             (Mongo.int64_max < (page - 1) * limit ->
              run = ({| status := 500;
                        payload := Failure "Failed to retrieve doctors: " OverflowError |},
                     db))
             /\ forall pattern,
                 lookup "specialty" args = Some pattern -> pattern <> "" ->
                 regex_i lib pattern = None ->
                 run = ({| status := 500;
                           payload :=
                             Failure "Failed to retrieve doctors: "
                               (if (page - 1) * limit <=? Mongo.int64_max
                                then OperationFailure else OverflowError) |},
                        db))).
Proof.
  intros run. subst run.
  split; [| split].
  - intros s Hs Hnone.
    unfold get_available_doctors, handler, bind, eval, read, reply.
    unfold int_arg at 1. rewrite Hs. cbn [int_].
    rewrite Hnone. reflexivity.
  - intros page s Hpage Hs Hnone.
    unfold get_available_doctors, handler, bind, eval, read, reply.
    rewrite Hpage. cbv beta iota zeta.
    unfold int_arg. rewrite Hs. cbn [int_]. rewrite Hnone. reflexivity.
  - intros page limit Hpage Hlimit. split.
    + intros Hbad.
      unfold get_available_doctors, handler, bind, eval, read, reply.
      rewrite Hpage, Hlimit. cbv beta iota zeta.
      replace ((page <? 1) || (limit <? 1) || (limit >? 50)) with true; [reflexivity |].
      symmetry. rewrite !orb_true_iff, !Z.ltb_lt, Z.gtb_ltb, Z.ltb_lt. tauto.
    + intros Hp Hl.
      split;
        [intros Hbeyond;
         now apply (get_available_doctors_overflow lib now args db page limit) |].
      intros pattern Hpattern Hne Hrefused.
      destruct (Z.leb_spec ((page - 1) * limit) Mongo.int64_max) as [Hfits | Hbeyond];
        [| now apply (get_available_doctors_overflow lib now args db page limit)].
      unfold get_available_doctors, handler, bind, eval, read, reply.
      rewrite Hpage, Hlimit. cbv beta iota zeta.
      replace ((page <? 1) || (limit <? 1) || (limit >? 50)) with false
        by (symmetry; rewrite !orb_false_iff, !Z.ltb_ge, Z.gtb_ltb, Z.ltb_ge; lia).
      rewrite bson_encode_skip by nia.
      replace ((page - 1) * limit <=? Mongo.int64_max) with true
        by (symmetry; now apply Z.leb_le).
      unfold doctor_rows, specialty_stage. rewrite Hpattern. cbn [truthy].
      apply String.eqb_neq in Hne. rewrite Hne. cbn [negb]. rewrite Hrefused.
      reflexivity.
Qed.

Lemma filter_all {A : Type} (l : list A) : filter (fun _ => true) l = l.
Proof. induction l as [| a l IH]; [reflexivity | cbn; now rewrite IH]. Qed.

Lemma location_stage_same (location : option string)
  (rows : list (user_doc * doctor_profile)) :
  location_stage location rows = rows.
Proof.
  unfold location_stage. destruct location as [place |]; [| reflexivity].
  destruct (truthy (PStr place)); [apply filter_all | reflexivity].
Qed.

(** X20.  The argument [location] changes nothing: two queries that agree
    on [specialty], [page] and [limit] get the same answer, whatever else
    they hold. *)
Theorem listing_ignores_location (lib : Lib) (now : datetime)
  (args args' : list (string * string)) (db : database) :
  lookup "specialty" args = lookup "specialty" args' ->
  lookup "page" args = lookup "page" args' ->
  lookup "limit" args = lookup "limit" args' ->
  get_available_doctors lib now args db = get_available_doctors lib now args' db.
Proof.
  intros Hs Hp Hl.
  unfold get_available_doctors, int_arg, doctor_rows.
  rewrite Hs, Hp, Hl.
  unfold handler, bind, eval, read, reply.
  destruct (match lookup "page" args' with
            | Some s => int_ lib (PStr s)
            | None => int_ lib (PInt 1)
            end) as [page | e]; [| reflexivity].
  destruct (match lookup "limit" args' with
            | Some s => int_ lib (PStr s)
            | None => int_ lib (PInt 10)
            end) as [limit | e]; [| reflexivity].
  cbv beta iota zeta.
  destruct ((page <? 1) || (limit <? 1) || (limit >? 50)); [reflexivity |].
  destruct (Mongo.bson_encode (PInt ((page - 1) * limit))) as [[] | e];
    [| reflexivity].
  destruct (specialty_stage lib (lookup "specialty" args')) as [keep | e];
    cbn [rbind]; [| reflexivity].
  now rewrite !location_stage_same.
Qed.

(** What the answer 200 of the listing tells. *)
Lemma get_available_doctors_200 (lib : Lib) (now : datetime)
  (args : list (string * string)) (db db' : database)
  (doctors : list doctor_summary) (p : pagination) :
  get_available_doctors lib now args db
  = ({| status := 200; payload := DoctorList doctors p |}, db') ->
  exists page limit rows,
    int_arg lib args "page" 1 = Ok page
    /\ int_arg lib args "limit" 10 = Ok limit
    /\ 1 <= page /\ 1 <= limit <= 50
    /\ doctor_rows lib now (lookup "specialty" args) (lookup "location" args) db = Ok rows
    /\ doctors = firstn (Z.to_nat limit) (skipn (Z.to_nat ((page - 1) * limit)) rows).
Proof.
  unfold get_available_doctors, handler, bind, eval, read, reply.
  destruct (int_arg lib args "page" 1) as [page | e] eqn:Hpage;
    [| destruct e; discriminate].
  destruct (int_arg lib args "limit" 10) as [limit | e] eqn:Hlimit;
    [| destruct e; discriminate].
  cbv beta iota zeta.
  destruct ((page <? 1) || (limit <? 1) || (limit >? 50)) eqn:Hbounds;
    [discriminate |].
  rewrite !orb_false_iff, !Z.ltb_ge, Z.gtb_ltb, Z.ltb_ge in Hbounds.
  destruct (Mongo.bson_encode (PInt ((page - 1) * limit))) as [[] | e];
    [| destruct e; discriminate].
  destruct (doctor_rows lib now (lookup "specialty" args) (lookup "location" args) db)
    as [rows | e] eqn:Hrows; [| destruct e; discriminate].
  intros H. injection H as <- _ _.
  exists page, limit, rows. repeat split; trivial; lia.
Qed.

Lemma in_firstn {A : Type} (n : nat) (l : list A) (x : A) :
  In x (firstn n l) -> In x l.
Proof.
  revert l. induction n as [| n IH]; intros l Hin; [destruct Hin |].
  destruct l as [| a l]; [destruct Hin |].
  cbn [firstn] in Hin. destruct Hin as [-> | Hin]; [now left | right; now apply IH].
Qed.

Lemma in_skipn {A : Type} (n : nat) (l : list A) (x : A) :
  In x (skipn n l) -> In x l.
Proof.
  revert l. induction n as [| n IH]; intros l Hin; [exact Hin |].
  destruct l as [| a l]; [destruct Hin |]. right. now apply IH.
Qed.

Lemma project_all_in (now : datetime) (l : list (user_doc * doctor_profile))
  (rows : list doctor_summary) (ds : doctor_summary) :
  project_all now l = Ok rows -> In ds rows ->
  exists row, In row l /\ project now row = Ok ds.
Proof.
  revert rows. induction l as [| row l IH]; intros rows Hall Hin.
  - injection Hall as <-. destruct Hin.
  - cbn [project_all] in Hall.
    destruct (project now row) as [d0 | e] eqn:Hrow; [| discriminate Hall].
    cbn [rbind] in Hall.
    destruct (project_all now l) as [rest | e] eqn:Hrest; [| discriminate Hall].
    injection Hall as <-. destruct Hin as [<- | Hin].
    + exists row. split; [now left | assumption].
    + destruct (IH rest eq_refl Hin) as (row' & Hin' & Hp).
      exists row'. split; [now right | assumption].
Qed.

(** X21.  Every doctor that the listing shows is an active account of
    role ["doctor"] joined with a profile of that account, from which the
    specialty, the rating, the fee and the years of experience are taken;
    and when a pattern is given as [specialty], the store accepted it and
    the specialty of the profile matches it. *)
Theorem listing_shows_matching_active_doctors (lib : Lib) (now : datetime)
  (args : list (string * string)) (db db' : database)
  (doctors : list doctor_summary) (p : pagination) :
  get_available_doctors lib now args db
  = ({| status := 200; payload := DoctorList doctors p |}, db') ->
  forall ds, In ds doctors ->
    exists u profile,
      In u (users db)
      /\ str_eq (u_role u) "doctor" = true
      /\ u_is_active u = true
      /\ In profile (doctor_profiles db)
      /\ dp_user_id profile = u_id u
      /\ ds_id ds = u_id u
      /\ Mongo.concat [u_first_name u; PStr " "; u_last_name u] "" = Ok (ds_name ds)
      /\ ds_specialty ds = dp_specialty profile
      /\ ds_rating ds = dp_rating profile
      /\ ds_consultation_fee ds = dp_consultation_fee profile
      /\ ds_years_experience ds = dp_years_experience profile
      /\ (forall pattern,
             lookup "specialty" args = Some pattern -> pattern <> "" ->
             exists r, regex_i lib pattern = Some r
                       /\ Mongo.regex_holds r (dp_specialty profile) = true).
Proof.
  intros Hrun ds Hin.
  destruct (get_available_doctors_200 lib now args db db' doctors p Hrun)
    as (page & limit & rows & _ & _ & _ & _ & Hrows & ->).
  assert (Hin' : In ds rows) by (apply in_firstn, in_skipn in Hin; exact Hin).
  unfold doctor_rows in Hrows.
  destruct (specialty_stage lib (lookup "specialty" args)) as [keep | e] eqn:Hstage;
    [| discriminate Hrows].
  cbn [rbind] in Hrows. rewrite location_stage_same in Hrows.
  destruct (project_all_in now _ rows ds Hrows Hin') as ([u profile] & Hrow & Hproject).
  apply filter_In in Hrow as [Hjoined Hkeep].
  unfold joined in Hjoined. apply in_flat_map in Hjoined as (u' & Hu & Hpair).
  apply in_map_iff in Hpair as (profile' & Heq & Hprofile).
  injection Heq as -> ->.
  apply filter_In in Hu as [Hu Hactive]. apply andb_true_iff in Hactive as [Hrole Hactive].
  apply filter_In in Hprofile as [Hprofile Hlink]. apply N.eqb_eq in Hlink.
  unfold project in Hproject. cbn [fst snd] in Hproject.
  destruct (Mongo.concat [u_first_name u; PStr " "; u_last_name u] "") as [name | e]
    eqn:Hname; [| discriminate Hproject].
  cbn [rbind] in Hproject. injection Hproject as <-.
  exists u, profile. cbn.
  repeat match goal with |- _ /\ _ => split end; trivial.
  intros pattern Hpattern Hne. unfold specialty_stage in Hstage.
  rewrite Hpattern in Hstage. cbn [truthy] in Hstage.
  apply String.eqb_neq in Hne. rewrite Hne in Hstage. cbn [negb] in Hstage.
  destruct (regex_i lib pattern) as [r |]; [| discriminate Hstage].
  injection Hstage as <-. exists r. split; [reflexivity | exact Hkeep].
Qed.

Lemma firstn_plus {A : Type} (a b : nat) (l : list A) :
  firstn (a + b) l = (firstn a l ++ firstn b (skipn a l))%list.
Proof.
  revert l. induction a as [| a IH]; intros l; [reflexivity |].
  destruct l as [| x l]; [now destruct b |].
  cbn [Nat.add firstn skipn app]. now rewrite IH.
Qed.

Lemma pages_concat {A : Type} (size n : nat) (l : list A) :
  List.concat (map (fun k => firstn size (skipn ((k - 1) * size) l)) (seq 1 n))
  = firstn (n * size) l.
Proof.
  induction n as [| n IH]; [reflexivity |].
  rewrite seq_S, map_app, concat_app, IH. cbn [map List.concat Nat.add].
  rewrite app_nil_r. replace (S n - 1)%nat with n by lia.
  replace (S n * size)%nat with (n * size + size)%nat by lia.
  symmetry. apply firstn_plus.
Qed.

(** X22.  The pages of the listing cover the rows once and in order: for
    a fixed limit and fixed filters, the doctors of pages 1, 2, ... up to
    the last page, put end to end, are the rows of the pipeline, and every
    page before the last holds exactly [limit] doctors.  The rows are
    fewer than [2^63], as the documents of any store are, so that every
    skip up to the last page is one the driver encodes. *)
Theorem listing_pages_cover_all (lib : Lib) (now : datetime) (db : database)
  (query : Z -> list (string * string)) (limit : Z)
  (specialty location : option string) (rows : list doctor_summary) :
  1 <= limit <= 50 ->
  doctor_rows lib now specialty location db = Ok rows ->
  Z.of_nat (List.length rows) <= Mongo.int64_max ->
  let pages := (Z.of_nat (List.length rows) + limit - 1) / limit in
  (forall page, 1 <= page <= pages ->
                int_arg lib (query page) "page" 1 = Ok page
                /\ int_arg lib (query page) "limit" 10 = Ok limit
                /\ lookup "specialty" (query page) = specialty
                /\ lookup "location" (query page) = location) ->
  let shown page :=
    Spec.doctors_of (fst (get_available_doctors lib now (query page) db)) in
  List.concat (map (fun k => shown (Z.of_nat k)) (seq 1 (Z.to_nat pages))) = rows
  /\ (forall page, 1 <= page < pages ->
                   Z.of_nat (List.length (shown page)) = limit).
Proof.
  intros Hlimit Hrows Hcount pages Hquery shown.
  pose proof (ceiling_div (Z.of_nat (List.length rows)) limit ltac:(lia)) as Hceil.
  fold pages in Hceil. unfold Spec.ceiling in Hceil.
  assert (Hpages : 0 <= pages) by nia.
  assert (Hshown : forall page, 1 <= page <= pages ->
            shown page
            = firstn (Z.to_nat limit) (skipn (Z.to_nat ((page - 1) * limit)) rows)).
  { intros page Hpage. subst shown. cbv beta.
    destruct (Hquery page Hpage) as (Hp & Hl & Hs & Hloc).
    assert (Hskip : (page - 1) * limit <= Mongo.int64_max) by nia.
    destruct Hpage as [Hpage _].
    assert (Hr : doctor_rows lib now (lookup "specialty" (query page))
                   (lookup "location" (query page)) db = Ok rows)
      by (now rewrite Hs, Hloc).
    now rewrite (get_available_doctors_ok lib now (query page) db page limit rows
                   Hp Hl Hpage Hlimit Hskip Hr). }
  split.
  - rewrite (map_ext_in _ (fun k => firstn (Z.to_nat limit)
                                      (skipn ((k - 1) * Z.to_nat limit) rows))).
    + rewrite pages_concat. apply firstn_all2.
      apply Nat2Z.inj_le. rewrite Nat2Z.inj_mul, !Z2Nat.id by lia. lia.
    + intros k Hk. apply in_seq in Hk. rewrite Hshown by lia.
      do 2 f_equal.
      replace (Z.of_nat k - 1) with (Z.of_nat (k - 1)) by lia.
      rewrite Z2Nat.inj_mul, Nat2Z.id by lia. reflexivity.
  - intros page Hpage. rewrite Hshown by lia.
    rewrite length_firstn, length_skipn.
    rewrite Nat2Z.inj_min, Nat2Z.inj_sub, !Z2Nat.id by
      (try (apply Nat2Z.inj_le; rewrite Z2Nat.id by nia); nia).
    nia.
Qed.

(** *** The addresses of the accounts *)

(** *** The matcher and the words of an expression *)

Lemma nullable_matches (r : Re.regex) :
  Re.nullable r = true <-> Lang.matches r [].
Proof.
  split.
  - induction r; cbn [Re.nullable]; intros H; try discriminate.
    + constructor.
    + apply andb_true_iff in H as [H1 H2].
      change (@nil ascii) with (@nil ascii ++ [])%list. constructor; auto.
    + apply orb_true_iff in H as [H | H];
        [apply Lang.MAltL | apply Lang.MAltR]; auto.
    + constructor.
  - intros H. remember [] as l eqn:Hl.
    induction H; cbn [Re.nullable]; try reflexivity; try discriminate.
    + apply app_eq_nil in Hl as [-> ->]. rewrite IHmatches1, IHmatches2; reflexivity.
    + now rewrite IHmatches.
    + rewrite IHmatches by assumption. apply orb_true_r.
Qed.

Lemma star_cons (r : Re.regex) (c : ascii) (l : list ascii) :
  Lang.matches (Re.Star r) (c :: l) ->
  exists l1 l2, l = (l1 ++ l2)%list
                /\ Lang.matches r (c :: l1) /\ Lang.matches (Re.Star r) l2.
Proof.
  intros H. remember (Re.Star r) as r' eqn:Hr. remember (c :: l) as w eqn:Hw.
  induction H; try discriminate.
  injection Hr as ->.
  destruct l1 as [| c1 l1].
  - cbn [app] in Hw. now apply IHmatches2.
  - cbn [app] in Hw. injection Hw as -> <-. now exists l1, l2.
Qed.

Lemma deriv_matches (r : Re.regex) (c : ascii) (l : list ascii) :
  Lang.matches (Re.deriv c r) l <-> Lang.matches r (c :: l).
Proof.
  revert l. induction r as [| | p | r1 IH1 r2 IH2 | r1 IH1 r2 IH2 | r IH];
    intros l; cbn [Re.deriv].
  - split; intros H; inversion H.
  - split; intros H; inversion H.
  - destruct (p c) eqn:Hp; split; intros H; inversion H; subst.
    + now constructor.
    + constructor.
    + congruence.
  - split.
    + intros H.
      assert (Hcat : Lang.matches (Re.Cat (Re.deriv c r1) r2) l ->
                     Lang.matches (Re.Cat r1 r2) (c :: l)).
      { intros Hc. inversion Hc; subst.
        match goal with
        | H1 : Lang.matches (Re.deriv c r1) ?l1 |- Lang.matches _ (c :: ?l1 ++ ?l2) =>
            apply IH1 in H1;
            change (c :: l1 ++ l2)%list with ((c :: l1) ++ l2)%list; now constructor
        end. }
      destruct (Re.nullable r1) eqn:Hn; [| now apply Hcat].
      inversion H; subst; [now apply Hcat |].
      change (c :: l) with ([] ++ c :: l)%list. constructor.
      * now apply nullable_matches.
      * now apply IH2.
    + intros H. inversion H; subst.
      match goal with
      | Heq : (?l1 ++ ?l2)%list = c :: l,
        H1 : Lang.matches r1 ?l1, H2 : Lang.matches r2 ?l2 |- _ =>
          destruct l1 as [| c1 l1']; cbn [app] in Heq;
          [ subst l2; apply nullable_matches in H1; rewrite H1;
            apply Lang.MAltR; now apply IH2
          | injection Heq as -> <-;
            assert (Hc : Lang.matches (Re.Cat (Re.deriv c r1) r2) (l1' ++ l2))
              by (constructor; [now apply IH1 | assumption]);
            destruct (Re.nullable r1); [now apply Lang.MAltL | assumption] ]
      end.
  - split; intros H; inversion H; subst.
    + apply Lang.MAltL. now apply IH1.
    + apply Lang.MAltR. now apply IH2.
    + apply Lang.MAltL. now apply IH1.
    + apply Lang.MAltR. now apply IH2.
  - split.
    + intros H. inversion H; subst.
      match goal with
      | H1 : Lang.matches (Re.deriv c r) ?l1 |- Lang.matches _ (c :: ?l1 ++ ?l2) =>
          change (c :: l1 ++ l2)%list with ((c :: l1) ++ l2)%list;
          constructor; [now apply IH | assumption]
      end.
    + intros H. apply star_cons in H as (l1 & l2 & -> & H1 & H2).
      constructor; [now apply IH | assumption].
Qed.

Lemma fullmatch_matches (r : Re.regex) (s : string) :
  Re.fullmatch r s = true <-> Lang.matches r (list_ascii_of_string s).
Proof.
  revert r. induction s as [| c s IH]; intros r; cbn [Re.fullmatch list_ascii_of_string].
  - apply nullable_matches.
  - rewrite IH. apply deriv_matches.
Qed.

(** *** The addresses that [validate_email] accepts *)

Lemma cat_matches (r1 r2 : Re.regex) (l : list ascii) :
  Lang.matches (Re.Cat r1 r2) l
  <-> exists l1 l2, l = (l1 ++ l2)%list /\ Lang.matches r1 l1 /\ Lang.matches r2 l2.
Proof.
  split.
  - intros H. inversion H; subst. eauto.
  - intros (l1 & l2 & -> & H1 & H2). now constructor.
Qed.

Lemma cls_matches (p : ascii -> bool) (l : list ascii) :
  Lang.matches (Re.Cls p) l <-> exists c, l = [c] /\ p c = true.
Proof.
  split.
  - intros H. inversion H; subst. eauto.
  - intros (c & -> & Hc). now constructor.
Qed.

Lemma star_cls_matches (p : ascii -> bool) (l : list ascii) :
  Lang.matches (Re.Star (Re.Cls p)) l <-> Forall (fun c => p c = true) l.
Proof.
  split.
  - intros H. remember (Re.Star (Re.Cls p)) as r eqn:Hr.
    induction H; try discriminate; [constructor |].
    injection Hr as ->. apply Forall_app. split; [| now apply IHmatches2].
    inversion H; subst. now repeat constructor.
  - induction 1 as [| c l Hc _ IH]; [constructor |].
    change (c :: l) with ([c] ++ l)%list. constructor; [now constructor | assumption].
Qed.

Lemma plus_cls_matches (p : ascii -> bool) (l : list ascii) :
  Lang.matches (Re.Plus (Re.Cls p)) l <-> l <> [] /\ Forall (fun c => p c = true) l.
Proof.
  unfold Re.Plus. rewrite cat_matches. split.
  - intros (l1 & l2 & -> & H1 & H2).
    apply cls_matches in H1 as (c & -> & Hc). apply star_cls_matches in H2.
    split; [discriminate | now constructor].
  - intros [Hne Hall]. destruct l as [| c l]; [contradiction |].
    inversion Hall; subst. exists [c], l.
    split; [reflexivity |]. split; [now constructor | now apply star_cls_matches].
Qed.

Lemma chr_matches (c : ascii) (l : list ascii) :
  Lang.matches (Re.Chr c) l <-> l = [c].
Proof.
  unfold Re.Chr. rewrite cls_matches. split.
  - intros (c' & -> & Hc). apply Ascii.eqb_eq in Hc. now subst.
  - intros ->. exists c. split; [reflexivity | apply Ascii.eqb_refl].
Qed.

Lemma at_end_matches (l : list ascii) :
  Lang.matches Re.at_end l <-> l = [] \/ l = ["010"%char].
Proof.
  unfold Re.at_end. split.
  - intros H. inversion H; subst.
    + left. match goal with H' : Lang.matches Re.Eps _ |- _ => now inversion H' end.
    + right. now apply chr_matches.
  - intros [-> | ->]; [apply Lang.MAltL; constructor | apply Lang.MAltR].
    now apply chr_matches.
Qed.

Lemma list_of_append (s1 s2 : string) :
  list_ascii_of_string (s1 ++ s2)
  = (list_ascii_of_string s1 ++ list_ascii_of_string s2)%list.
Proof.
  induction s1 as [| c s1 IH]; [reflexivity |].
  cbn [append list_ascii_of_string app]. now rewrite IH.
Qed.

Lemma alpha_letter (c : ascii) : alpha c = true <-> Spec.letter c.
Proof.
  unfold alpha, Spec.letter. rewrite orb_true_iff, !range_spec.
  unfold Spec.uppercase_letter, Spec.lowercase_letter. tauto.
Qed.

Lemma alnum_spec (c : ascii) : alnum c = true <-> Spec.letter c \/ Spec.digit c.
Proof.
  unfold alnum, Spec.letter. rewrite !orb_true_iff, !range_spec.
  unfold Spec.uppercase_letter, Spec.lowercase_letter, Spec.digit. tauto.
Qed.

Lemma all_chars_forall (p : ascii -> bool) (P : ascii -> Prop) (s : string) :
  (forall c, p c = true <-> P c) ->
  Forall (fun c => p c = true) (list_ascii_of_string s) <-> Spec.all_chars P s.
Proof.
  intros Hp. unfold Spec.all_chars. rewrite Forall_forall.
  split; intros H c Hin; apply Hp; auto.
Qed.

Lemma email_pattern_matches (l : list ascii) :
  Lang.matches (Re.Cat email_pattern Re.at_end) l
  <-> exists local domain tld ending,
        l = (local ++ "@"%char :: domain ++ "."%char :: tld ++ ending)%list
        /\ local <> [] /\ Forall (fun c => (alnum c || Re.one_of "._%+-" c) = true) local
        /\ domain <> [] /\ Forall (fun c => (alnum c || Re.one_of ".-" c) = true) domain
        /\ (2 <= List.length tld)%nat /\ Forall (fun c => alpha c = true) tld
        /\ (ending = [] \/ ending = ["010"%char]).
Proof.
  unfold email_pattern. split.
  - intros H.
    apply cat_matches in H as (l0 & ending & -> & H & Hend).
    apply cat_matches in H as (local & l1 & -> & Hlocal & H).
    apply cat_matches in H as (at_ & l2 & -> & Hat & H).
    apply cat_matches in H as (domain & l3 & -> & Hdomain & H).
    apply cat_matches in H as (dot & l4 & -> & Hdot & H).
    apply cat_matches in H as (a & l5 & -> & Ha & H).
    apply cat_matches in H as (b & rest & -> & Hb & Hrest).
    apply plus_cls_matches in Hlocal as [Hl1 Hl2].
    apply plus_cls_matches in Hdomain as [Hd1 Hd2].
    apply chr_matches in Hat as ->. apply chr_matches in Hdot as ->.
    apply cls_matches in Ha as (ca & -> & Hca).
    apply cls_matches in Hb as (cb & -> & Hcb).
    apply star_cls_matches in Hrest. apply at_end_matches in Hend.
    exists local, domain, (ca :: cb :: rest), ending.
    repeat match goal with |- _ /\ _ => split end; trivial.
    + cbn [app]. rewrite <- !app_assoc. cbn [app]. rewrite <- !app_assoc. reflexivity.
    + cbn [List.length]. lia.
    + now repeat constructor.
  - intros (local & domain & tld & ending & -> & Hl1 & Hl2 & Hd1 & Hd2 & Hlen & Htld & Hend).
    destruct tld as [| ca [| cb rest]]; cbn [List.length] in Hlen; try lia.
    inversion Htld as [| ? ? Hca Htld']; subst.
    inversion Htld' as [| ? ? Hcb Hrest]; subst.
    replace (local ++ "@"%char :: domain ++ "."%char :: (ca :: cb :: rest) ++ ending)%list
      with ((local ++ ["@"%char] ++ domain ++ ["."%char] ++ [ca] ++ [cb] ++ rest)
            ++ ending)%list
      by (cbn [app]; rewrite <- !app_assoc; cbn [app]; rewrite <- !app_assoc; reflexivity).
    constructor; [| now apply at_end_matches].
    constructor; [now apply plus_cls_matches |].
    constructor; [now apply chr_matches |].
    constructor; [now apply plus_cls_matches |].
    constructor; [now apply chr_matches |].
    constructor; [now constructor |].
    constructor; [now constructor | now apply star_cls_matches].
Qed.

Lemma string_of_app (l1 l2 : list ascii) :
  string_of_list_ascii (l1 ++ l2)
  = string_of_list_ascii l1 ++ string_of_list_ascii l2.
Proof.
  induction l1 as [| c l1 IH]; [reflexivity |].
  cbn [app string_of_list_ascii append]. now rewrite IH.
Qed.

Lemma length_list_of_string (s : string) :
  List.length (list_ascii_of_string s) = String.length s.
Proof. induction s as [| c s IH]; [reflexivity | cbn; now rewrite IH]. Qed.

Lemma local_char_spec (c : ascii) :
  (alnum c || Re.one_of "._%+-" c) = true <-> Spec.local_char c.
Proof.
  unfold Spec.local_char. rewrite orb_true_iff, alnum_spec, one_of_spec. tauto.
Qed.

Lemma domain_char_spec (c : ascii) :
  (alnum c || Re.one_of ".-" c) = true <-> Spec.domain_char c.
Proof.
  unfold Spec.domain_char. rewrite orb_true_iff, alnum_spec, one_of_spec. tauto.
Qed.

(** X23.  [validate_email] accepts exactly the strings
    [local@domain.tld], possibly followed by one newline, where [local] is
    a non-empty run of letters, digits and [._%+-], [domain] a non-empty
    run of letters, digits and [.-], and [tld] at least two letters; a
    value that is not a string raises. *)
Theorem validate_email_shape :
  (forall s, validate_email (PStr s) = Ok true <-> Spec.email_shape s)
  /\ (forall v, (forall s, v <> PStr s) -> validate_email v = Raise TypeError).
Proof.
  split.
  - intros s. unfold validate_email, Re.match_anchored.
    assert (Hok : forall b : bool, Ok b = Ok true <-> b = true)
      by (intros b; split; [intros H; now injection H | now intros ->]).
    rewrite Hok, fullmatch_matches, email_pattern_matches.
    unfold Spec.email_shape. split.
    + intros (local & domain & tld & ending & Hs & Hl1 & Hl2 & Hd1 & Hd2 & Hlen
              & Htld & Hend).
      exists (string_of_list_ascii local), (string_of_list_ascii domain),
        (string_of_list_ascii tld), (string_of_list_ascii ending).
      repeat match goal with |- _ /\ _ => split end.
      * rewrite <- (string_of_list_ascii_of_string s), Hs.
        rewrite string_of_app. cbn [string_of_list_ascii].
        rewrite string_of_app. cbn [string_of_list_ascii].
        rewrite string_of_app. reflexivity.
      * destruct local; [contradiction | discriminate].
      * apply (all_chars_forall _ _ _ local_char_spec).
        now rewrite list_ascii_of_string_of_list_ascii.
      * destruct domain; [contradiction | discriminate].
      * apply (all_chars_forall _ _ _ domain_char_spec).
        now rewrite list_ascii_of_string_of_list_ascii.
      * now rewrite <- length_list_of_string, list_ascii_of_string_of_list_ascii.
      * apply (all_chars_forall _ _ _ alpha_letter).
        now rewrite list_ascii_of_string_of_list_ascii.
      * destruct Hend as [-> | ->]; [now left | now right].
    + intros (local & domain & tld & ending & -> & Hl1 & Hl2 & Hd1 & Hd2 & Hlen
              & Htld & Hend).
      exists (list_ascii_of_string local), (list_ascii_of_string domain),
        (list_ascii_of_string tld), (list_ascii_of_string ending).
      repeat match goal with |- _ /\ _ => split end.
      * rewrite !list_of_append. reflexivity.
      * destruct local; [contradiction | discriminate].
      * now apply (all_chars_forall _ _ _ local_char_spec).
      * destruct domain; [contradiction | discriminate].
      * now apply (all_chars_forall _ _ _ domain_char_spec).
      * now rewrite length_list_of_string.
      * now apply (all_chars_forall _ _ _ alpha_letter).
      * destruct Hend as [-> | ->]; [now left | now right].
  - intros v Hv. destruct v; try reflexivity. now destruct (Hv s).
Qed.

(** *** Lower case keeps an address valid *)

Lemma matches_map (f : ascii -> ascii) (r : Re.regex) (l : list ascii) :
  Lang.closed_under f r -> Lang.matches r l -> Lang.matches r (map f l).
Proof.
  intros Hclosed H. induction H; cbn [Lang.closed_under map] in *.
  - constructor.
  - constructor. now apply Hclosed.
  - rewrite map_app. destruct Hclosed. constructor; auto.
  - destruct Hclosed. apply Lang.MAltL. auto.
  - destruct Hclosed. apply Lang.MAltR. auto.
  - constructor.
  - rewrite map_app. constructor; auto.
Qed.

Ltac every_char c :=
  destruct c as [[] [] [] [] [] [] [] []]; vm_compute;
  intros H; first [reflexivity | discriminate H].

Lemma email_pattern_lower : Lang.closed_under lower_char (Re.Cat email_pattern Re.at_end).
Proof.
  unfold email_pattern, Re.at_end, Re.Plus, Re.Chr. cbn [Lang.closed_under].
  repeat match goal with |- _ /\ _ => split | |- True => exact I end;
    intros c; every_char c.
Qed.

Lemma list_of_lower (s : string) :
  list_ascii_of_string (lower s) = map lower_char (list_ascii_of_string s).
Proof.
  induction s as [| c s IH]; [reflexivity |].
  cbn [lower list_ascii_of_string map]. now rewrite IH.
Qed.

Lemma validate_email_lower (s : string) :
  validate_email (PStr s) = Ok true -> validate_email (PStr (lower s)) = Ok true.
Proof.
  unfold validate_email, Re.match_anchored. intros H. injection H as H. f_equal.
  apply fullmatch_matches. rewrite list_of_lower.
  apply matches_map; [exact email_pattern_lower | now apply fullmatch_matches].
Qed.

(** X24.  [register] keeps every email of the store an address that
    [validate_email] accepts, whatever the request and whatever it
    answers. *)
Theorem registration_keeps_emails_valid (lib : Lib) (now : datetime)
  (user_id : oid) (data : value) (db : database) :
  Spec.emails_valid db ->
  Spec.emails_valid (snd (register lib now user_id data db)).
Proof.
  intros Hinv.
  destruct (register_account lib now user_id data db)
    as [Hsame | (account & email & password & Husers & _ & Hvalid & _ & _ & _ & _ & _
                 & Hlower & _)];
    unfold Spec.emails_valid in *.
  - rewrite Hsame. exact Hinv.
  - rewrite Husers. intros u Hin. apply in_app_or in Hin as [Hin | [<- | []]].
    + now apply Hinv.
    + rewrite Hlower. now apply validate_email_lower.
Qed.

(** *** The further properties at the data of the examples *)

(** The doctor of [clinic] asks for an appointment. *)
Lemma booking_only_by_patients_witness :
  snd (book_appointment Example.lib Example.now 10 11 "64b000000000000000000001"
         (Example.booking_request "2030-01-01T10:30:00Z" (PInt 30) (PStr "video"))
         (Example.clinic [] true))
  = Example.clinic [] true.
Proof.
  refine (proj1 (booking_only_by_patients Example.lib Example.now 10 11
                   "64b000000000000000000001" _ (Example.clinic [] true) _)).
  intros (user_id & user & Hid & Huser & Hrole).
  vm_compute in Hid. injection Hid as <-.
  vm_compute in Huser. injection Huser as <-.
  vm_compute in Hrole. discriminate Hrole.
Defined.

(** A booking on a store without appointments. *)
Lemma booking_confirmed_is_sound_witness :
  let run :=
    book_appointment Example.lib Example.now 10 11 Example.patient_identity
      (Example.booking_request "2030-01-01T10:30:00Z" (PInt 30) (PStr "video"))
      (Example.clinic [] true) in
  exists doc, appointments (snd run) = [doc] /\ a_status doc = "confirmed".
Proof.
  intros run.
  destruct (booking_confirmed_is_sound Example.lib Example.now 10 11
              Example.patient_identity
              (Example.booking_request "2030-01-01T10:30:00Z" (PInt 30) (PStr "video"))
              (Example.clinic [] true) (snd run) (fst run))
    as (doc & name & user_id & user & doctor & minutes & _ & Happ & _ & _ & _ & _
        & _ & _ & _ & _ & Hstatus & _).
  - apply surjective_pairing.
  - vm_compute. reflexivity.
  - exists doc. split; assumption.
Defined.

(** A booking next to a confirmed appointment. *)
Lemma booking_keeps_no_double_booking_witness :
  Spec.no_double_booking
    (snd (book_appointment Example.lib Example.now 10 11 Example.patient_identity
            (Example.booking_request "2030-01-01T10:30:00Z" (PInt 30) (PStr "video"))
            (Example.clinic
               [Example.booked 5 (Example.t1030 + Example.half_hour)
                  (Example.t1030 + 2 * Example.half_hour) "confirmed"] true))).
Proof.
  apply booking_keeps_no_double_booking.
  unfold Spec.no_double_booking. cbn [appointments Example.clinic].
  constructor; constructor.
Defined.


(** The same request a second time, an hour later. *)
Lemma booking_same_slot_twice_witness :
  let request :=
    Example.booking_request "2030-01-01T10:30:00Z" (PInt 30) (PStr "video") in
  let first :=
    book_appointment Example.lib Example.now 10 11 Example.patient_identity request
      (Example.clinic [] true) in
  book_appointment Example.lib (Example.now + 3600000000) 12 13
    Example.patient_identity request (snd first)
  = (error 409 "Time slot no longer available", snd first).
Proof.
  intros request first.
  refine (booking_same_slot_twice Example.lib Example.now _ 10 11 12 13
            Example.patient_identity _ (Example.clinic [] true) (snd first)
            1%N Example.t1030 30 (fst first) _ _ _ _).
  - example_checks.
  - apply surjective_pairing.
  - vm_compute. reflexivity.
  - vm_compute. reflexivity.
Defined.


(** A doctor who sends a rating of 1.0, a fee of 200 and 7 years of
    experience. *)
Lemma doctor_registration_profile_witness :
  let request :=
    Example.registration "alice@example.com" "doctor"
      [ ("rating", PFloat 1); ("specialty", PStr "Cardiology");
        ("consultation_fee", PInt 200); ("years_experience", PInt 7) ] in
  let db' := snd (register Example.lib Example.now 7 request (Example.clinic [] true)) in
  exists profile,
    In profile (doctor_profiles db')
    /\ dp_user_id profile = 7%N
    /\ dp_rating profile = 5%float
    /\ dp_specialty profile = PStr "Cardiology"
    /\ Ok (dp_consultation_fee profile) = Ok 200%float
    /\ dp_years_experience profile = 7.
Proof.
  intros request db'.
  destruct (doctor_registration_profile Example.lib Example.now 7
              [ ("email", PStr "alice@example.com"); ("password", PStr "Passw0rd!");
                ("user_type", PStr "doctor");
                ("first_name", PStr "Alice"); ("last_name", PStr "Martin");
                ("rating", PFloat 1); ("specialty", PStr "Cardiology");
                ("consultation_fee", PInt 200); ("years_experience", PInt 7) ]
              (Example.clinic [] true) db'
              (fst (register Example.lib Example.now 7 request (Example.clinic [] true))))
    as (account & profile & _ & _ & _ & Hprofiles & Hid & Hrating & _ & Hspecialty
        & Hfee & Hyears & _).
  - apply surjective_pairing.
  - vm_compute. reflexivity.
  - reflexivity.
  - exists profile. rewrite Hprofiles.
    split; [apply in_or_app; right; now left |].
    cbn in Hfee, Hyears, Hspecialty.
    repeat split; try assumption. now symmetry.
Defined.

(** A patient who sends a date of birth. *)
Lemma patient_registration_profile_witness :
  let db' :=
    snd (register Example.lib Example.now 7
           (Example.registration "Alice@Example.com" "patient"
              [("date_of_birth", PStr "1990-04-01")])
           (Example.clinic [] true)) in
  In {| pp_user_id := 7; pp_date_of_birth := PStr "1990-04-01";
        pp_medical_history := PStr "" |}
     (patient_profiles db').
Proof.
  intros db'.
  destruct (patient_registration_profile Example.lib Example.now 7
              [ ("email", PStr "Alice@Example.com"); ("password", PStr "Passw0rd!");
                ("user_type", PStr "patient");
                ("first_name", PStr "Alice"); ("last_name", PStr "Martin");
                ("date_of_birth", PStr "1990-04-01") ]
              (Example.clinic [] true) db'
              (fst (register Example.lib Example.now 7
                      (Example.registration "Alice@Example.com" "patient"
                         [("date_of_birth", PStr "1990-04-01")])
                      (Example.clinic [] true))))
    as (account & _ & _ & _ & Hprofiles & _).
  - apply surjective_pairing.
  - vm_compute. reflexivity.
  - reflexivity.
  - rewrite Hprofiles. apply in_or_app. right. now left.
Defined.

(** A registration under an email with capitals. *)
Lemma registration_keeps_emails_lowercase_witness :
  Spec.emails_lowercase
    (snd (register Example.lib Example.now 7
            (Example.registration "Alice@Example.com" "patient" [])
            (Example.clinic [] true))).
Proof.
  apply registration_keeps_emails_lowercase.
  intros u [<- | [<- | []]]; reflexivity.
Defined.

Lemma registration_keeps_emails_unique_witness :
  Spec.emails_unique
    (snd (register Example.lib Example.now 7
            (Example.registration "Dr.Johnson@mediconnect.com" "patient" [])
            (Example.clinic [] true))).
Proof.
  apply registration_keeps_emails_unique; [reflexivity |].
  unfold Spec.emails_unique. cbn [map users Example.clinic].
  repeat constructor.
  - intros [H | []]. vm_compute in H. discriminate H.
  - intros [].
Defined.

Lemma registration_keeps_emails_valid_witness :
  Spec.emails_valid
    (snd (register Example.lib Example.now 7
            (Example.registration "Alice@Example.com" "patient" [])
            (Example.clinic [] true))).
Proof.
  apply registration_keeps_emails_valid.
  intros u [<- | [<- | []]]; reflexivity.
Defined.

(** The doctor of [clinic] logs in under two spellings of the email. *)
Lemma login_ignores_email_case_witness :
  let st := {| base := Example.clinic [] true; last_login := [] |} in
  login Example.lib Example.auth Example.now
    (PDict [("email", PStr "Dr.Johnson@MediConnect.com"); ("password", PStr "x")]) st
  = login Example.lib Example.auth Example.now
      (PDict [("password", PStr "x"); ("email", PStr "dr.johnson@mediconnect.com")]) st.
Proof.
  intros st.
  refine (login_ignores_email_case Example.lib Example.auth Example.now _ _ st
            "Dr.Johnson@MediConnect.com" "dr.johnson@mediconnect.com" _ _ _ _);
    reflexivity.
Defined.

(** A patient registers, then logs in under another spelling. *)
Lemma registered_account_can_log_in_witness :
  let db' :=
    snd (register Example.lib Example.now 7
           (Example.registration "Alice@Example.com" "patient" [])
           (Example.clinic [] true)) in
  login_status
    (fst (login Example.lib Example.auth (Example.now + 1)
            (PDict [("email", PStr "ALICE@example.com"); ("password", PStr "Passw0rd!")])
            {| base := db'; last_login := [] |}))
  = 200.
Proof.
  intros db'.
  destruct (registered_account_can_log_in Example.lib Example.auth Example.now
              (Example.now + 1) 7
              (Example.registration "Alice@Example.com" "patient" [])
              (Example.clinic [] true) db'
              (fst (register Example.lib Example.now 7
                      (Example.registration "Alice@Example.com" "patient" [])
                      (Example.clinic [] true)))
              "Alice@Example.com" "Passw0rd!"
              [("email", PStr "ALICE@example.com"); ("password", PStr "Passw0rd!")]
              "ALICE@example.com" [])
    as (account & _ & _ & _ & Hlogin).
  - apply surjective_pairing.
  - vm_compute. reflexivity.
  - reflexivity.
  - reflexivity.
  - left. reflexivity.
  - reflexivity.
  - reflexivity.
  - reflexivity.
  - reflexivity.
  - rewrite Hlogin. reflexivity.
Defined.

(** The listing with and without a location. *)
Lemma listing_ignores_location_witness :
  get_available_doctors Example.lib Example.now
    [("location", "Toronto"); ("specialty", "cardio")] (Example.clinic [] true)
  = get_available_doctors Example.lib Example.now
      [("specialty", "cardio")] (Example.clinic [] true).
Proof.
  apply listing_ignores_location; reflexivity.
Defined.

(** The listing of [clinic] for the pattern [cardio]. *)
Lemma listing_shows_matching_active_doctors_witness :
  Forall (fun ds => exists u, In u (users (Example.clinic [] true))
                              /\ ds_id ds = u_id u /\ u_is_active u = true)
    (Spec.doctors_of
       (fst (get_available_doctors Example.lib Example.now
               [("specialty", "cardio")] (Example.clinic [] true)))).
Proof.
  apply Forall_forall. intros ds Hin.
  destruct (listing_shows_matching_active_doctors Example.lib Example.now
              [("specialty", "cardio")] (Example.clinic [] true)
              (Example.clinic [] true)
              (Spec.doctors_of
                 (fst (get_available_doctors Example.lib Example.now
                         [("specialty", "cardio")] (Example.clinic [] true))))
              {| current_page := 1; total_pages := 1; total_doctors := 1;
                 has_next := false |}
              eq_refl ds Hin)
    as (u & profile & Hu & _ & Hactive & _ & _ & Hid & _).
  exists u. repeat split; assumption.
Defined.

(** The three pages of [hospital], ten doctors a page. *)
Lemma listing_pages_cover_all_witness :
  List.concat
    (map (fun k =>
            Spec.doctors_of
              (fst (get_available_doctors Example.lib Example.now
                      (Example.hospital_query (Z.of_nat k)) Example.hospital)))
         (seq 1 3))
  = Example.hospital_rows.
Proof.
  refine (proj1 (listing_pages_cover_all Example.lib Example.now Example.hospital
                   Example.hospital_query 10 None (Some "Toronto")
                   Example.hospital_rows _ _ _ _)).
  - lia.
  - vm_compute. reflexivity.
  - vm_compute. discriminate.
  - intros page Hpage.
    assert (Hpages : (Z.of_nat (List.length Example.hospital_rows) + 10 - 1) / 10 = 3)
      by (vm_compute; reflexivity).
    rewrite Hpages in Hpage.
    assert (Hcases : page = 1 \/ page = 2 \/ page = 3) by lia.
    destruct Hcases as [-> | [-> | ->]]; repeat split; reflexivity.
Defined.

(** *** The initialisation script *)

(** X25.  [seed_database] runs to its end on every store, whatever the
    store held, and leaves a store with the unique index whose accounts
    have pairwise different emails, in lower case, that [validate_email]
    accepts, and strings for names: the store on which [register] keeps
    these properties and on which the listing runs.  When the driver gives
    the first two doctors different identifiers, no two appointments of a
    doctor overlap. *)
Theorem seeded_store_is_well_formed (lib : Lib) (clock : nat -> datetime)
  (ids : nat -> oid) (db : database) :
  exists db',
    Seed.seed_database lib clock ids db = Ok db'
    /\ email_unique_index db' = true
    /\ map u_email (users db')
       = [ "dr.johnson@mediconnect.com"; "dr.smith@mediconnect.com";
           "dr.patel@mediconnect.com"; "john.smith@email.com"; "jane.doe@email.com" ]
    /\ Spec.emails_unique db'
    /\ Spec.emails_lowercase db'
    /\ Spec.emails_valid db'
    /\ Spec.names_are_strings db'
    /\ (ids 0%nat <> ids 1%nat -> Spec.no_double_booking db').
Proof.
  eexists. split; [vm_compute; reflexivity |].
  split; [reflexivity |]. split; [reflexivity |].
  split.
  { unfold Spec.emails_unique. cbn [map users].
    repeat constructor; cbn [In]; intros H;
      repeat destruct H as [H | H]; try discriminate H; exact H. }
  split.
  { intros u Hin. cbn [users] in Hin.
    repeat destruct Hin as [<- | Hin]; try reflexivity. destruct Hin. }
  split.
  { intros u Hin. cbn [users] in Hin.
    repeat destruct Hin as [<- | Hin]; try reflexivity. destruct Hin. }
  split.
  { intros u Hin. cbn [users] in Hin.
    repeat destruct Hin as [<- | Hin]; try (split; eexists; reflexivity).
    destruct Hin. }
  intros Hids. unfold Spec.no_double_booking. cbn [appointments].
  repeat constructor. intros _ _ Hsame. cbn [a_doctor_id] in Hsame. contradiction.
Qed.

(** X26.  The credentials that the script prints work: on the store it
    leaves, [login] with [dr.johnson@mediconnect.com] and [Doctor123!], and
    with [john.smith@email.com] and [Patient123!], answers 200 with a token
    for the first doctor and for the first patient, provided
    [check_password_hash] accepts a password for the hash that
    [generate_password_hash] made of it. *)
Theorem seeded_credentials_log_in (lib : Lib) (auth : AuthLib)
  (clock : nat -> datetime) (ids : nat -> oid) (db db' : database)
  (now : datetime) (logins : list (oid * datetime)) :
  Seed.seed_database lib clock ids db = Ok db' ->
  (forall password,
      check_password_hash auth (generate_password_hash lib password) (PStr password)
      = Ok true) ->
  fst (login lib auth now
         (PDict [ ("email", PStr "dr.johnson@mediconnect.com");
                  ("password", PStr "Doctor123!") ])
         {| base := db'; last_login := logins |})
  = {| login_status := 200;
       login_payload :=
         LoggedIn (create_access_token auth (str_of_objectid lib (ids 0%nat))) 3600
           (str_of_objectid lib (ids 0%nat)) "dr.johnson@mediconnect.com"
           (PStr "doctor") (PStr "Sarah") (PStr "Johnson") |}
  /\ fst (login lib auth now
            (PDict [ ("email", PStr "john.smith@email.com");
                     ("password", PStr "Patient123!") ])
            {| base := db'; last_login := logins |})
     = {| login_status := 200;
          login_payload :=
            LoggedIn (create_access_token auth (str_of_objectid lib (ids 6%nat))) 3600
              (str_of_objectid lib (ids 6%nat)) "john.smith@email.com"
              (PStr "patient") (PStr "John") (PStr "Smith") |}.
Proof.
  intros Hseed Hcheck. vm_compute in Hseed. injection Hseed as <-.
  split.
  - rewrite (login_200 lib auth now _ _ "dr.johnson@mediconnect.com" "Doctor123!"
               (Seed.seeded_user lib clock ids 0 "dr.johnson@mediconnect.com"
                  "Doctor123!" "doctor" "Sarah" "Johnson" "+1-416-555-0124" 0));
      try reflexivity; try discriminate. apply Hcheck.
  - rewrite (login_200 lib auth now _ _ "john.smith@email.com" "Patient123!"
               (Seed.seeded_user lib clock ids 6 "john.smith@email.com"
                  "Patient123!" "patient" "John" "Smith" "+1-416-555-0123" 6));
      try reflexivity; try discriminate. apply Hcheck.
Qed.

Lemma seeded_credentials_log_in_witness :
  exists db',
    Seed.seed_database Example.lib (fun _ => Example.now) (fun k => N.of_nat k)
      (Example.clinic [] false) = Ok db'
    /\ login_status
         (fst (login Example.lib Example.auth Example.now
                 (PDict [ ("email", PStr "dr.johnson@mediconnect.com");
                          ("password", PStr "Doctor123!") ])
                 {| base := db'; last_login := [] |}))
       = 200.
Proof.
  eexists. split; [vm_compute; reflexivity |].
  refine (f_equal login_status
            (proj1 (seeded_credentials_log_in Example.lib Example.auth
                      (fun _ => Example.now) (fun k => N.of_nat k)
                      (Example.clinic [] false) _ Example.now [] _ _))).
  - vm_compute. reflexivity.
  - intros password. cbn. now rewrite String.eqb_refl.
Defined.
